(** * Task manager (simple, in-memory): model and verification

    A shallow embedding of [src/model.py] (the entity shapes) and
    [src/main.py] (the in-memory store [TASKS] and the route handlers).

    - The store is a Python [dict]: it iterates in insertion order, so it is
      an association list with the dict's operations written out.
    - Handlers mutate the store, draw identifiers from [uuid4] and read the
      system clock, and they raise exceptions: they live in a state monad
      over the [World] whose result is a value or an exception.  As in
      Python, an exception does not roll the state back.
    - Payloads are values pydantic has already accepted.  A PATCH payload
      keeps [model_fields_set], the set of fields the request supplied.
    - In the handlers a [datetime] is timezone-aware, in range wherever
      it is converted, and given by the instant it denotes.  [model.py] also
      accepts datetimes without an offset, which Python refuses to order
      with aware ones, and a conversion can leave the years 1 to 9999:
      module [Py] embeds the functions that compare or convert datetimes,
      and the two listings built on them, over datetimes as Python has
      them, with what they raise.  The last part shows that the two
      embeddings of the listings agree on aware datetimes. *)

From Stdlib Require Import ZArith NArith List String Ascii Bool Lia.
From Stdlib Require Import Permutation Sorted.
Import ListNotations.

Local Open Scope Z_scope.

(** ** Primitive data *)

(** [uuid.UUID]: a 128-bit value. *)
Definition UUID := N.

(** A timezone-aware [datetime.datetime]: microseconds since the epoch. *)
Definition datetime := Z.

(** A [datetime.date]: days since the epoch. *)
Definition date := Z.

Definition microseconds_per_day : Z := 86400000000.

(** [datetime.max], 9999-12-31T23:59:59.999999. *)
Definition datetime_max : datetime := 253402300799999999.

(** Truthiness of a Python [str]: the empty string is falsy. *)
Definition str_truthy (s : string) : bool := negb (String.eqb s EmptyString).

(** Truthiness of an [Optional[str]]: [None] and the empty string are falsy. *)
Definition opt_str_truthy (o : option string) : bool :=
  match o with
  | Some s => str_truthy s
  | None => false
  end.

Definition is_None {A} (o : option A) : bool :=
  match o with
  | Some _ => false
  | None => true
  end.

(** [sub in s] on Python strings. *)
Fixpoint str_contains (sub s : string) : bool :=
  String.prefix sub s ||
  match s with
  | EmptyString => false
  | String _ rest => str_contains sub rest
  end.

(** A reference rendering of [str(uuid)]: 32 hexadecimal digits in the
    groups 8-4-4-4-12. *)
Definition hex_digit (n : N) : ascii :=
  match n with
  | 0%N => "0" | 1%N => "1" | 2%N => "2" | 3%N => "3"
  | 4%N => "4" | 5%N => "5" | 6%N => "6" | 7%N => "7"
  | 8%N => "8" | 9%N => "9" | 10%N => "a" | 11%N => "b"
  | 12%N => "c" | 13%N => "d" | 14%N => "e" | _ => "f"
  end%char.

Fixpoint hex_fixed (width : nat) (n : N) (acc : string) : string :=
  match width with
  | O => acc
  | S w => hex_fixed w (N.div n 16) (String (hex_digit (N.modulo n 16)) acc)
  end.

Definition uuid_canonical (u : UUID) : string :=
  let h := hex_fixed 32 u EmptyString in
  (substring 0 8 h ++ "-" ++ substring 8 4 h ++ "-" ++ substring 12 4 h ++ "-"
     ++ substring 16 4 h ++ "-" ++ substring 20 12 h)%string.

(** A reference [str.lower] for ASCII text. *)
Definition ascii_lower (c : ascii) : ascii :=
  let n := nat_of_ascii c in
  if (Nat.leb 65 n && Nat.leb n 90)%bool then ascii_of_nat (n + 32) else c.

Fixpoint str_lower_ascii (s : string) : string :=
  match s with
  | EmptyString => EmptyString
  | String c rest => String (ascii_lower c) (str_lower_ascii rest)
  end.

(** A reference UTC offset for Asia/Colombo: +05:30 at every instant. *)
Definition utcoffset_0530 (_ : datetime) : Z := 19800000000.

(** ** model.py: enums *)

Inductive CalendarProvider := google.

Inductive TaskListFilter := today | upcoming | done.

(** ** model.py: calendar events *)

Module CalendarEventBase.
Record t := mk {
  provider : CalendarProvider;
  calendar_id : string;
  summary : string;
  start_datetime : datetime;
  end_datetime : datetime;
  description : option string;
  timezone : string;
  reminder_minutes_before : option Z
}.
End CalendarEventBase.

(** [CalendarEventCreate(CalendarEventBase)] adds no field. *)
Definition CalendarEventCreate := CalendarEventBase.t.

(** [CalendarEvent(CalendarEventBase)] adds [event_id]. *)
Module CalendarEvent.
Record t := mk {
  base : CalendarEventBase.t;
  event_id : string
}.
End CalendarEvent.
Definition CalendarEvent := CalendarEvent.t.

(** A value of the union [CalendarEventCreate | CalendarEvent], as the
    [isinstance] tests of [_apply_task_update] tell it apart. *)
Inductive CalendarEventPatch :=
| IsCalendarEventCreate (c : CalendarEventCreate)
| IsCalendarEvent (e : CalendarEvent).

(** ** model.py: subtasks *)

Module SubTaskCreate.
Record t := mk {
  title : string;
  due_datetime : option datetime;
  completed : bool;
  add_to_calendar : bool;
  event_duration_minutes : Z;
  calendar_id : option string;
  calendar_event_id : option string
}.
End SubTaskCreate.
Definition SubTaskCreate := SubTaskCreate.t.

Module SubTaskUpdate.
Record t := mk {
  title : option string;
  due_datetime : option datetime;
  completed : option bool;
  add_to_calendar : option bool;
  event_duration_minutes : option Z;
  calendar_id : option string;
  calendar_event_id : option string;
  model_fields_set : list string
}.

(** The same field values, supplied by a request that named the fields
    [fs]. *)
Definition set_model_fields_set fs (p : t) :=
  mk (title p) (due_datetime p) (completed p) (add_to_calendar p)
     (event_duration_minutes p) (calendar_id p) (calendar_event_id p) fs.
End SubTaskUpdate.
Definition SubTaskUpdate := SubTaskUpdate.t.

Module SubTask.
Record t := mk {
  title : string;
  due_datetime : option datetime;
  completed : bool;
  add_to_calendar : bool;
  event_duration_minutes : Z;
  calendar_id : option string;
  calendar_event_id : option string;
  id : UUID;
  task_id : UUID;
  created_at : datetime;
  updated_at : datetime
}.

Definition set_title v (s : t) :=
  mk v (due_datetime s) (completed s) (add_to_calendar s)
     (event_duration_minutes s) (calendar_id s) (calendar_event_id s)
     (id s) (task_id s) (created_at s) (updated_at s).
Definition set_due_datetime v (s : t) :=
  mk (title s) v (completed s) (add_to_calendar s)
     (event_duration_minutes s) (calendar_id s) (calendar_event_id s)
     (id s) (task_id s) (created_at s) (updated_at s).
Definition set_completed v (s : t) :=
  mk (title s) (due_datetime s) v (add_to_calendar s)
     (event_duration_minutes s) (calendar_id s) (calendar_event_id s)
     (id s) (task_id s) (created_at s) (updated_at s).
Definition set_add_to_calendar v (s : t) :=
  mk (title s) (due_datetime s) (completed s) v
     (event_duration_minutes s) (calendar_id s) (calendar_event_id s)
     (id s) (task_id s) (created_at s) (updated_at s).
Definition set_event_duration_minutes v (s : t) :=
  mk (title s) (due_datetime s) (completed s) (add_to_calendar s)
     v (calendar_id s) (calendar_event_id s)
     (id s) (task_id s) (created_at s) (updated_at s).
Definition set_calendar_id v (s : t) :=
  mk (title s) (due_datetime s) (completed s) (add_to_calendar s)
     (event_duration_minutes s) v (calendar_event_id s)
     (id s) (task_id s) (created_at s) (updated_at s).
Definition set_calendar_event_id v (s : t) :=
  mk (title s) (due_datetime s) (completed s) (add_to_calendar s)
     (event_duration_minutes s) (calendar_id s) v
     (id s) (task_id s) (created_at s) (updated_at s).
Definition set_updated_at v (s : t) :=
  mk (title s) (due_datetime s) (completed s) (add_to_calendar s)
     (event_duration_minutes s) (calendar_id s) (calendar_event_id s)
     (id s) (task_id s) (created_at s) v.
End SubTask.
Definition SubTask := SubTask.t.

(** ** model.py: tasks *)

Module TaskCreate.
Record t := mk {
  title : string;
  note : option string;
  due_datetime : option datetime;
  completed : bool;
  calendar_event : option CalendarEventCreate
}.
End TaskCreate.
Definition TaskCreate := TaskCreate.t.

Module TaskUpdate.
Record t := mk {
  title : option string;
  note : option string;
  due_datetime : option datetime;
  completed : option bool;
  calendar_event : option CalendarEventPatch;
  model_fields_set : list string
}.

(** The same field values, supplied by a request that named the fields
    [fs]. *)
Definition set_model_fields_set fs (p : t) :=
  mk (title p) (note p) (due_datetime p) (completed p) (calendar_event p) fs.
End TaskUpdate.
Definition TaskUpdate := TaskUpdate.t.

Module Task.
Record t := mk {
  title : string;
  note : option string;
  due_datetime : option datetime;
  completed : bool;
  id : UUID;
  calendar_event : option CalendarEvent;
  subtasks : list SubTask
}.

Definition set_title v (x : t) :=
  mk v (note x) (due_datetime x) (completed x) (id x) (calendar_event x)
     (subtasks x).
Definition set_note v (x : t) :=
  mk (title x) v (due_datetime x) (completed x) (id x) (calendar_event x)
     (subtasks x).
Definition set_due_datetime v (x : t) :=
  mk (title x) (note x) v (completed x) (id x) (calendar_event x)
     (subtasks x).
Definition set_completed v (x : t) :=
  mk (title x) (note x) (due_datetime x) v (id x) (calendar_event x)
     (subtasks x).
Definition set_calendar_event v (x : t) :=
  mk (title x) (note x) (due_datetime x) (completed x) (id x) v
     (subtasks x).
Definition set_subtasks v (x : t) :=
  mk (title x) (note x) (due_datetime x) (completed x) (id x)
     (calendar_event x) v.
End Task.
Definition Task := Task.t.

(** ** A Python dict keyed by UUID

    Iteration follows insertion order.  [d[k] = v] keeps the place of a key
    that is present and appends a new one; [del d[k]] removes the key. *)

Section Dict.
Context {V : Type}.

Definition dict := list (UUID * V).

Fixpoint dict_get (k : UUID) (d : dict) : option V :=
  match d with
  | [] => None
  | (k', v) :: rest => if N.eqb k k' then Some v else dict_get k rest
  end.

Fixpoint dict_set (k : UUID) (v : V) (d : dict) : dict :=
  match d with
  | [] => [(k, v)]
  | (k', v') :: rest =>
      if N.eqb k k' then (k, v) :: rest else (k', v') :: dict_set k v rest
  end.

Definition dict_del (k : UUID) (d : dict) : dict :=
  filter (fun kv => negb (N.eqb k (fst kv))) d.

Definition dict_values (d : dict) : list V := map snd d.

End Dict.
Arguments dict V : clear implicits.

(** ** The world a handler runs in *)

Record World := mkWorld {
  (** the module-level store [TASKS: Dict[UUID, Task]] *)
  TASKS : dict Task;
  (** the values the coming calls of [uuid4()] return *)
  entropy : nat -> UUID;
  (** the instants the coming readings of the system clock return *)
  clock : nat -> datetime
}.

Definition set_TASKS (d : dict Task) (w : World) : World :=
  mkWorld d (entropy w) (clock w).

(** What a handler raises. *)
Inductive Exception :=
| HTTPException (status_code : Z) (detail : string)
| ValidationError (msg : string)
| TypeError (msg : string)
| OverflowError (msg : string).

Inductive Result (A : Type) :=
| Ok (a : A)
| Raise (e : Exception).
Arguments Ok {A} a.
Arguments Raise {A} e.

Definition M (A : Type) : Type := World -> Result A * World.

Definition ret {A} (a : A) : M A := fun w => (Ok a, w).

Definition raise {A} (e : Exception) : M A := fun w => (Raise e, w).

Definition bind {A B} (m : M A) (k : A -> M B) : M B :=
  fun w =>
    match m w with
    | (Ok a, w') => k a w'
    | (Raise e, w') => (Raise e, w')
    end.

Declare Scope py_scope.
Notation "x <- m ;; k" := (bind m (fun x => k))
  (at level 100, m at next level, right associativity) : py_scope.
Notation "m ;;; k" := (bind m (fun _ => k))
  (at level 100, right associativity) : py_scope.
Local Open Scope py_scope.

Definition get_TASKS : M (dict Task) := fun w => (Ok (TASKS w), w).

Definition put_TASKS (d : dict Task) : M unit := fun w => (Ok tt, set_TASKS d w).

(** [uuid4()]: the next value of the generator. *)
Definition uuid4 : M UUID :=
  fun w => (Ok (entropy w O),
            mkWorld (TASKS w) (fun n => entropy w (S n)) (clock w)).

(** One reading of the system clock, as [datetime.utcnow()] and
    [datetime.now(tz)] take it. *)
Definition read_clock : M datetime :=
  fun w => (Ok (clock w O),
            mkWorld (TASKS w) (entropy w) (fun n => clock w (S n))).

(** The world one clock reading later. *)
Definition tick (w : World) : World :=
  mkWorld (TASKS w) (entropy w) (fun n => clock w (S n)).

(** The handler raised [HTTPException(status_code=404, ...)]. *)
Definition raises_NotFound {A} (r : Result A) : bool :=
  match r with
  | Raise (HTTPException 404 _) => true
  | _ => false
  end.

Definition raises {A} (r : Result A) : bool :=
  match r with
  | Raise _ => true
  | Ok _ => false
  end.

(** ** A stable sort by key

    [list.sort(key=...)] and [sorted(..., key=...)] are stable and compare
    keys with [<] only.  Insertion from the right is the reference stable
    sort. *)

Section SortByKey.
Context {A K : Type} (key : A -> K) (lt : K -> K -> bool).

Fixpoint insert_by_key (x : A) (l : list A) : list A :=
  match l with
  | [] => [x]
  | y :: rest =>
      if lt (key y) (key x) then y :: insert_by_key x rest else x :: y :: rest
  end.

Fixpoint sort_by_key (l : list A) : list A :=
  match l with
  | [] => []
  | x :: rest => insert_by_key x (sort_by_key rest)
  end.

(** [x] may stand before [y]: [y]'s key is not below [x]'s. *)
Definition key_le (x y : A) : Prop := lt (key y) (key x) = false.

End SortByKey.

(** [<] on Python [bool]s: [False < True]. *)
Definition bool_lt (a b : bool) : bool := negb a && b.

(** [<] on the tuples [(bool, datetime)]: the first components that differ
    decide. *)
Definition key2_lt (x y : bool * datetime) : bool :=
  if Bool.eqb (fst x) (fst y) then snd x <? snd y
  else bool_lt (fst x) (fst y).

(** [<] on the tuples [(bool, datetime, datetime)]. *)
Definition key3_lt (x y : bool * datetime * datetime) : bool :=
  if Bool.eqb (fst (fst x)) (fst (fst y)) then
    if snd (fst x) =? snd (fst y) then snd x <? snd y
    else snd (fst x) <? snd (fst y)
  else bool_lt (fst (fst x)) (fst (fst y)).

(** [x or default] on an [Optional[datetime]] (a datetime is always truthy). *)
Definition or_else (o : option datetime) (default : datetime) : datetime :=
  match o with
  | Some d => d
  | None => default
  end.

(** The key of [list_tasks]: [(t.due_datetime is None, t.due_datetime or datetime.max)]. *)
Definition task_sort_key (t : Task) : bool * datetime :=
  (is_None (Task.due_datetime t), or_else (Task.due_datetime t) datetime_max).

(** The key of [list_subtasks]. *)
Definition subtask_sort_key (st : SubTask) : bool * datetime * datetime :=
  (is_None (SubTask.due_datetime st),
   or_else (SubTask.due_datetime st) datetime_max,
   SubTask.created_at st).

(** ** Subtask lists *)

(** The first subtask with the given id: the loop of [_get_subtask_or_404]. *)
Fixpoint find_subtask (subtask_id : UUID) (l : list SubTask) : option SubTask :=
  match l with
  | [] => None
  | st :: rest =>
      if N.eqb (SubTask.id st) subtask_id then Some st
      else find_subtask subtask_id rest
  end.

(** The list once the object [find_subtask] returned has been mutated into
    [st']: the first subtask with that id is the one that changes. *)
Fixpoint mutate_subtask (subtask_id : UUID) (st' : SubTask) (l : list SubTask)
  : list SubTask :=
  match l with
  | [] => []
  | st :: rest =>
      if N.eqb (SubTask.id st) subtask_id then st' :: rest
      else st :: mutate_subtask subtask_id st' rest
  end.

(** ** main.py *)

Section Service.

(** [str.lower], given by the interpreter's Unicode tables. *)
Variable str_lower : string -> string.

(** The UTC offset of Asia/Colombo at an instant, given by the timezone
    database. *)
Variable colombo_utcoffset : datetime -> Z.

Definition _fake_provider_event_id : M string :=
  u <- uuid4 ;; ret ("evt_" ++ uuid_canonical u)%string.

(** [dt.astimezone(ZoneInfo("Asia/Colombo")).date()]. *)
Definition colombo_date (dt : datetime) : date :=
  (dt + colombo_utcoffset dt) / microseconds_per_day.

Definition _colombo_today : M date :=
  now <- read_clock ;; ret (colombo_date now).

Definition _get_task_or_404 (task_id : UUID) : M Task :=
  tasks <- get_TASKS ;;
  match dict_get task_id tasks with
  | Some task => ret task
  | None => raise (HTTPException 404 "Task not found")
  end.

Definition _get_subtask_or_404 (task : Task) (subtask_id : UUID) : M SubTask :=
  match find_subtask subtask_id (Task.subtasks task) with
  | Some st => ret st
  | None => raise (HTTPException 404 "Subtask not found")
  end.

(** The task object stored under [task_id] is now [task]: handlers mutate
    the object [TASKS.get(task_id)] gave them, in place. *)
Definition mutate_task (task_id : UUID) (task : Task) : M unit :=
  tasks <- get_TASKS ;; put_TASKS (dict_set task_id task tasks).

(** ["calendar_event" in patch.model_fields_set]. *)
Definition in_fields_set (name : string) (fields_set : list string) : bool :=
  existsb (String.eqb name) fields_set.

(** The four scalar assignments of [_apply_task_update]. *)
Definition apply_task_scalars (task : Task) (patch : TaskUpdate) : Task :=
  let task :=
    match TaskUpdate.title patch with
    | Some v => Task.set_title v task
    | None => task
    end in
  let task :=
    match TaskUpdate.note patch with
    | Some v => Task.set_note (Some v) task
    | None => task
    end in
  let task :=
    match TaskUpdate.due_datetime patch with
    | Some v => Task.set_due_datetime (Some v) task
    | None => task
    end in
  match TaskUpdate.completed patch with
  | Some v => Task.set_completed v task
  | None => task
  end.

Definition _apply_task_update (task : Task) (patch : TaskUpdate) : M Task :=
  let task := apply_task_scalars task patch in
  if in_fields_set "calendar_event" (TaskUpdate.model_fields_set patch) then
    match TaskUpdate.calendar_event patch with
    | None => ret (Task.set_calendar_event None task)
    | Some (IsCalendarEventCreate c) =>
        eid <- _fake_provider_event_id ;;
        ret (Task.set_calendar_event (Some (CalendarEvent.mk c eid)) task)
    | Some (IsCalendarEvent e) =>
        ret (Task.set_calendar_event (Some e) task)
    end
  else ret task.

Definition _matches_query (task : Task) (q : option string) : bool :=
  match q with
  | None => true
  | Some q =>
      if negb (str_truthy q) then true
      else
        let ql := str_lower q in
        str_contains ql (str_lower (Task.title task))
        || match Task.note task with
           | Some note => str_truthy note && str_contains ql (str_lower note)
           | None => false
           end
  end.

Definition _in_due_range (task : Task) (due_from due_to : option datetime)
  : bool :=
  match Task.due_datetime task with
  | None => true
  | Some due =>
      if match due_from with Some f => due <? f | None => false end then false
      else if match due_to with Some t => due >? t | None => false end
           then false
           else true
  end.

Definition _matches_list_filter (task : Task)
    (list_filter : option TaskListFilter) : M bool :=
  match list_filter with
  | None => ret true
  | Some done => ret (Task.completed task)
  | Some today =>
      match Task.due_datetime task with
      | None => ret false
      | Some due =>
          now <- _colombo_today ;; ret (colombo_date due =? now)
      end
  | Some upcoming =>
      match Task.due_datetime task with
      | None => ret false
      | Some due =>
          now <- _colombo_today ;; ret (colombo_date due >? now)
      end
  end.

(** [TaskListQuery(...)]: the model validator [_check_range]. *)
Definition range_inverted (due_from due_to : option datetime) : bool :=
  match due_from, due_to with
  | Some f, Some t => f >? t
  | _, _ => false
  end.

Definition TaskListQuery_check_range (due_from due_to : option datetime)
  : M unit :=
  if range_inverted due_from due_to
  then raise (ValidationError "due_from must be <= due_to")
  else ret tt.

(** The [for task in TASKS.values()] loop of [list_tasks]. *)
Fixpoint scan_tasks (tasks : list Task) (list_filter : option TaskListFilter)
    (q : option string) (due_from due_to : option datetime) : M (list Task) :=
  match tasks with
  | [] => ret []
  | task :: rest =>
      if negb (_matches_query task q) then
        scan_tasks rest list_filter q due_from due_to
      else if negb (_in_due_range task due_from due_to) then
        scan_tasks rest list_filter q due_from due_to
      else
        keep <- _matches_list_filter task list_filter ;;
        items <- scan_tasks rest list_filter q due_from due_to ;;
        ret (if keep then task :: items else items)
  end.

Definition list_tasks (list_filter : option TaskListFilter)
    (q : option string) (due_from due_to : option datetime) : M (list Task) :=
  TaskListQuery_check_range due_from due_to ;;;
  tasks <- get_TASKS ;;
  items <- scan_tasks (dict_values tasks) list_filter q due_from due_to ;;
  ret (sort_by_key task_sort_key key2_lt items).

Definition create_task (payload : TaskCreate) : M Task :=
  event <-
    match TaskCreate.calendar_event payload with
    | Some c =>
        eid <- _fake_provider_event_id ;; ret (Some (CalendarEvent.mk c eid))
    | None => ret None
    end ;;
  new_id <- uuid4 ;;
  let task :=
    Task.mk (TaskCreate.title payload) (TaskCreate.note payload)
            (TaskCreate.due_datetime payload) (TaskCreate.completed payload)
            new_id event [] in
  tasks <- get_TASKS ;;
  put_TASKS (dict_set (Task.id task) task tasks) ;;;
  ret task.

Definition get_task (task_id : UUID) : M Task := _get_task_or_404 task_id.

Definition update_task (task_id : UUID) (patch : TaskUpdate) : M Task :=
  task <- _get_task_or_404 task_id ;;
  task <- _apply_task_update task patch ;;
  mutate_task task_id task ;;;
  ret task.

Definition delete_task (task_id : UUID) : M unit :=
  _get_task_or_404 task_id ;;;
  tasks <- get_TASKS ;;
  put_TASKS (dict_del task_id tasks).

Definition complete_task (task_id : UUID) : M Task :=
  task <- _get_task_or_404 task_id ;;
  let task := Task.set_completed true task in
  mutate_task task_id task ;;;
  ret task.

Definition undo_task (task_id : UUID) : M Task :=
  task <- _get_task_or_404 task_id ;;
  let task := Task.set_completed false task in
  mutate_task task_id task ;;;
  ret task.

Definition list_subtasks (task_id : UUID) : M (list SubTask) :=
  task <- _get_task_or_404 task_id ;;
  ret (sort_by_key subtask_sort_key key3_lt (Task.subtasks task)).

Definition create_subtask (task_id : UUID) (payload : SubTaskCreate)
  : M SubTask :=
  task <- _get_task_or_404 task_id ;;
  new_id <- uuid4 ;;
  created <- read_clock ;;
  updated <- read_clock ;;
  let subtask :=
    SubTask.mk (SubTaskCreate.title payload)
               (SubTaskCreate.due_datetime payload)
               (SubTaskCreate.completed payload)
               (SubTaskCreate.add_to_calendar payload)
               (SubTaskCreate.event_duration_minutes payload)
               (SubTaskCreate.calendar_id payload)
               (SubTaskCreate.calendar_event_id payload)
               new_id (Task.id task) created updated in
  subtask <-
    (if SubTask.add_to_calendar subtask
        && is_None (SubTask.calendar_event_id subtask)
        && opt_str_truthy (SubTask.calendar_id subtask)
     then eid <- _fake_provider_event_id ;;
          ret (SubTask.set_calendar_event_id (Some eid) subtask)
     else ret subtask) ;;
  mutate_task task_id
    (Task.set_subtasks (Task.subtasks task ++ [subtask]) task) ;;;
  ret subtask.

(** The seven assignments of [update_subtask]. *)
Definition apply_subtask_fields (subtask : SubTask) (patch : SubTaskUpdate)
  : SubTask :=
  let subtask :=
    match SubTaskUpdate.title patch with
    | Some v => SubTask.set_title v subtask
    | None => subtask
    end in
  let subtask :=
    match SubTaskUpdate.due_datetime patch with
    | Some v => SubTask.set_due_datetime (Some v) subtask
    | None => subtask
    end in
  let subtask :=
    match SubTaskUpdate.completed patch with
    | Some v => SubTask.set_completed v subtask
    | None => subtask
    end in
  let subtask :=
    match SubTaskUpdate.add_to_calendar patch with
    | Some v => SubTask.set_add_to_calendar v subtask
    | None => subtask
    end in
  let subtask :=
    match SubTaskUpdate.event_duration_minutes patch with
    | Some v => SubTask.set_event_duration_minutes v subtask
    | None => subtask
    end in
  let subtask :=
    match SubTaskUpdate.calendar_id patch with
    | Some v => SubTask.set_calendar_id (Some v) subtask
    | None => subtask
    end in
  match SubTaskUpdate.calendar_event_id patch with
  | Some v => SubTask.set_calendar_event_id (Some v) subtask
  | None => subtask
  end.

(** The subtask object found in [task] is now [subtask]. *)
Definition mutate_subtask_of (task_id : UUID) (task : Task)
    (subtask_id : UUID) (subtask : SubTask) : M unit :=
  mutate_task task_id
    (Task.set_subtasks
       (mutate_subtask subtask_id subtask (Task.subtasks task)) task).

Definition update_subtask (task_id subtask_id : UUID) (patch : SubTaskUpdate)
  : M SubTask :=
  task <- _get_task_or_404 task_id ;;
  subtask <- _get_subtask_or_404 task subtask_id ;;
  let subtask := apply_subtask_fields subtask patch in
  subtask <-
    (if SubTask.add_to_calendar subtask
        && opt_str_truthy (SubTask.calendar_id subtask)
        && negb (opt_str_truthy (SubTask.calendar_event_id subtask))
     then eid <- _fake_provider_event_id ;;
          ret (SubTask.set_calendar_event_id (Some eid) subtask)
     else ret subtask) ;;
  now <- read_clock ;;
  let subtask := SubTask.set_updated_at now subtask in
  mutate_subtask_of task_id task subtask_id subtask ;;;
  ret subtask.

Definition delete_subtask (task_id subtask_id : UUID) : M unit :=
  task <- _get_task_or_404 task_id ;;
  subtask <- _get_subtask_or_404 task subtask_id ;;
  mutate_task task_id
    (Task.set_subtasks
       (filter (fun st => negb (N.eqb (SubTask.id st) (SubTask.id subtask)))
               (Task.subtasks task))
       task).

Definition complete_subtask (task_id subtask_id : UUID) : M SubTask :=
  task <- _get_task_or_404 task_id ;;
  subtask <- _get_subtask_or_404 task subtask_id ;;
  let subtask := SubTask.set_completed true subtask in
  now <- read_clock ;;
  let subtask := SubTask.set_updated_at now subtask in
  mutate_subtask_of task_id task subtask_id subtask ;;;
  ret subtask.

Definition undo_subtask (task_id subtask_id : UUID) : M SubTask :=
  task <- _get_task_or_404 task_id ;;
  subtask <- _get_subtask_or_404 task subtask_id ;;
  let subtask := SubTask.set_completed false subtask in
  now <- read_clock ;;
  let subtask := SubTask.set_updated_at now subtask in
  mutate_subtask_of task_id task subtask_id subtask ;;;
  ret subtask.

(** *** The route table *)

Inductive Request :=
| GET_tasks (list_filter : option TaskListFilter) (q : option string)
            (due_from due_to : option datetime)
| POST_tasks (payload : TaskCreate)
| GET_task (task_id : UUID)
| PATCH_task (task_id : UUID) (patch : TaskUpdate)
| DELETE_task (task_id : UUID)
| POST_task_complete (task_id : UUID)
| POST_task_undo (task_id : UUID)
| GET_subtasks (task_id : UUID)
| POST_subtasks (task_id : UUID) (payload : SubTaskCreate)
| PATCH_subtask (task_id subtask_id : UUID) (patch : SubTaskUpdate)
| DELETE_subtask (task_id subtask_id : UUID)
| POST_subtask_complete (task_id subtask_id : UUID)
| POST_subtask_undo (task_id subtask_id : UUID).

Inductive Response :=
| TaskBody (task : Task)
| TaskListBody (tasks : list Task)
| SubTaskBody (subtask : SubTask)
| SubTaskListBody (subtasks : list SubTask)
| NoContent.

Definition handle (r : Request) : M Response :=
  match r with
  | GET_tasks lf q f t => x <- list_tasks lf q f t ;; ret (TaskListBody x)
  | POST_tasks p => x <- create_task p ;; ret (TaskBody x)
  | GET_task i => x <- get_task i ;; ret (TaskBody x)
  | PATCH_task i p => x <- update_task i p ;; ret (TaskBody x)
  | DELETE_task i => delete_task i ;;; ret NoContent
  | POST_task_complete i => x <- complete_task i ;; ret (TaskBody x)
  | POST_task_undo i => x <- undo_task i ;; ret (TaskBody x)
  | GET_subtasks i => x <- list_subtasks i ;; ret (SubTaskListBody x)
  | POST_subtasks i p => x <- create_subtask i p ;; ret (SubTaskBody x)
  | PATCH_subtask i s p => x <- update_subtask i s p ;; ret (SubTaskBody x)
  | DELETE_subtask i s => delete_subtask i s ;;; ret NoContent
  | POST_subtask_complete i s =>
      x <- complete_subtask i s ;; ret (SubTaskBody x)
  | POST_subtask_undo i s => x <- undo_subtask i s ;; ret (SubTaskBody x)
  end.

(** The task id and the subtask id a request is addressed by. *)
Definition request_task_id (r : Request) : option UUID :=
  match r with
  | GET_tasks _ _ _ _ | POST_tasks _ => None
  | GET_task i | PATCH_task i _ | DELETE_task i | POST_task_complete i
  | POST_task_undo i | GET_subtasks i | POST_subtasks i _
  | PATCH_subtask i _ _ | DELETE_subtask i _ | POST_subtask_complete i _
  | POST_subtask_undo i _ => Some i
  end.

Definition request_subtask_id (r : Request) : option UUID :=
  match r with
  | PATCH_subtask _ s _ | DELETE_subtask _ s | POST_subtask_complete _ s
  | POST_subtask_undo _ s => Some s
  | _ => None
  end.

(** The world after a sequence of requests, whatever each one returned. *)
Fixpoint run (rs : list Request) (w : World) : World :=
  match rs with
  | [] => w
  | r :: rest => run rest (snd (handle r w))
  end.

(** ** The vocabulary of the properties *)

(** What [_matches_list_filter] answers when the current date in
    Asia/Colombo is [current]. *)
Definition matches_list_filter_on (current : date) (task : Task)
    (list_filter : option TaskListFilter) : bool :=
  match list_filter with
  | None => true
  | Some done => Task.completed task
  | Some today =>
      match Task.due_datetime task with
      | None => false
      | Some due => colombo_date due =? current
      end
  | Some upcoming =>
      match Task.due_datetime task with
      | None => false
      | Some due => colombo_date due >? current
      end
  end.

(** Every subtask in the store has the id of the task that holds it as its
    [task_id]. *)
Definition subtasks_owned (w : World) : Prop :=
  forall k t st,
    In (k, t) (TASKS w) -> In st (Task.subtasks t) ->
    SubTask.task_id st = Task.id t.

(** The same, as a check that runs. *)
Definition subtasks_ownedb (w : World) : bool :=
  forallb
    (fun kv =>
       forallb (fun st => N.eqb (SubTask.task_id st) (Task.id (snd kv)))
               (Task.subtasks (snd kv)))
    (TASKS w).

(** Every task is stored under its own id. *)
Definition keyed_by_id (w : World) : Prop :=
  forall k t, In (k, t) (TASKS w) -> Task.id t = k.

(** The worlds the service can be in: it starts with an empty store, and
    every request handled, served or refused, leads to the next world. *)
Inductive reachable : World -> Prop :=
| reachable_start (e : nat -> UUID) (c : nat -> datetime) :
    reachable (mkWorld [] e c)
| reachable_step (w : World) (r : Request) :
    reachable w -> reachable (snd (handle r w)).

(** The ways a handler changes [TASKS]: not at all; by mutating a stored
    task (whose id it keeps, and whose subtasks afterwards carry its id or
    the [task_id] of a subtask it had); by storing a new task without
    subtasks under its freshly drawn id; by deleting a key. *)
Inductive store_change (w w' : World) : Prop :=
| change_none :
    TASKS w' = TASKS w -> store_change w w'
| change_mutate (i : UUID) (t t' : Task) :
    dict_get i (TASKS w) = Some t ->
    TASKS w' = dict_set i t' (TASKS w) ->
    Task.id t' = Task.id t ->
    (forall st', In st' (Task.subtasks t') ->
       SubTask.task_id st' = Task.id t \/
       exists st, In st (Task.subtasks t) /\
                  SubTask.task_id st' = SubTask.task_id st) ->
    store_change w w'
| change_create (j : nat) (t : Task) :
    TASKS w' = dict_set (entropy w j) t (TASKS w) ->
    Task.id t = entropy w j ->
    Task.subtasks t = [] ->
    store_change w w'
| change_delete (i : UUID) :
    dict_get i (TASKS w) <> None ->
    TASKS w' = dict_del i (TASKS w) ->
    store_change w w'.

(** ** Sample data *)

Definition jan_1_2023 : datetime := 1672531200000000.
Definition jan_1_2024 : datetime := 1704067200000000.
Definition mar_1_2024 : datetime := 1709251200000000.

Definition sample_event_request : CalendarEventCreate :=
  CalendarEventBase.mk google "cal1" "Stand-up" jan_1_2024
    (jan_1_2024 + 3600000000) None "Asia/Colombo" (Some 10).

Definition sample_event : CalendarEvent :=
  CalendarEvent.mk sample_event_request "evt_existing".

Definition sample_subtask : SubTask :=
  SubTask.mk "draft" (Some mar_1_2024) false false 60 (Some "cal1"%string)
    None 11%N 1%N jan_1_2023 jan_1_2023.

Definition sample_task : Task :=
  Task.mk "write report" (Some "for Monday"%string) (Some mar_1_2024) false
    1%N (Some sample_event) [sample_subtask].

Definition undated_task : Task :=
  Task.mk "call home" None None false 2%N None [].

Definition january_task : Task :=
  Task.mk "taxes" None (Some jan_1_2024) true 3%N None [].

(** A store holding tasks due 2024-03-01, never and 2024-01-01, in that
    order of insertion; the generator and the clock count upwards. *)
Definition sample_world : World :=
  mkWorld [(1%N, sample_task); (2%N, undated_task); (3%N, january_task)]
          (fun n => (100 + N.of_nat n)%N)
          (fun n => jan_1_2024 + Z.of_nat n).

(** A subtask request whose calendar id is the empty string. *)
Definition empty_calendar_payload : SubTaskCreate :=
  SubTaskCreate.mk "book room" None false true 60 (Some EmptyString) None.

(** A subtask request with a calendar to sync to. *)
Definition calendar_payload : SubTaskCreate :=
  SubTaskCreate.mk "book room" None false true 60 (Some "cal1"%string) None.

(** A patch that asks for a calendar event to be created. *)
Definition create_event_patch : TaskUpdate :=
  TaskUpdate.mk None None None None
    (Some (IsCalendarEventCreate sample_event_request))
    ["calendar_event"%string].

(** A patch that supplies [note] and [due_datetime] as null. *)
Definition null_note_patch : TaskUpdate :=
  TaskUpdate.mk (Some "write the report"%string) None None None None
    ["title"; "note"; "due_datetime"]%string.

(** The service right after start, and a first session with it. *)
Definition started_world : World :=
  mkWorld [] (fun n => (100 + N.of_nat n)%N)
          (fun n => jan_1_2024 + Z.of_nat n).

Definition first_session : list Request :=
  [POST_tasks (TaskCreate.mk "write report" None (Some mar_1_2024) false
                 (Some sample_event_request));
   POST_subtasks 101%N calendar_payload;
   POST_subtasks 101%N empty_calendar_payload;
   PATCH_subtask 101%N 102%N
     (SubTaskUpdate.mk None None (Some true) None None None None
        ["completed"%string]);
   POST_tasks (TaskCreate.mk "call home" None None false None);
   DELETE_task 105%N].

(** ** Facts about the dict operations *)

Lemma dict_get_set_same {V} (k : UUID) (v : V) (d : dict V) :
  dict_get k (dict_set k v d) = Some v.
Proof.
  induction d as [|[k' v'] d IH]; simpl.
  - now rewrite N.eqb_refl.
  - destruct (N.eqb k k') eqn:E; simpl; rewrite ?N.eqb_refl, ?E; auto.
Qed.

Lemma dict_get_set_other {V} (k k' : UUID) (v : V) (d : dict V) :
  k <> k' -> dict_get k' (dict_set k v d) = dict_get k' d.
Proof.
  intros Hne. induction d as [|[k0 v0] d IH]; simpl.
  - destruct (N.eqb k' k) eqn:E; auto.
    apply N.eqb_eq in E. congruence.
  - destruct (N.eqb k k0) eqn:E; simpl.
    + apply N.eqb_eq in E. subst k0.
      destruct (N.eqb k' k) eqn:E'; auto.
      apply N.eqb_eq in E'. congruence.
    + destruct (N.eqb k' k0); auto.
Qed.

Lemma dict_get_del_same {V} (k : UUID) (d : dict V) :
  dict_get k (dict_del k d) = None.
Proof.
  unfold dict_del. induction d as [|[k' v'] d IH]; simpl; auto.
  destruct (N.eqb k k') eqn:E; simpl; auto.
  now rewrite E.
Qed.

Lemma dict_get_del_other {V} (k k' : UUID) (d : dict V) :
  k <> k' -> dict_get k' (dict_del k d) = dict_get k' d.
Proof.
  intros Hne. unfold dict_del.
  induction d as [|[k0 v0] d IH]; simpl; auto.
  destruct (N.eqb k k0) eqn:E; simpl.
  - apply N.eqb_eq in E. subst k0.
    destruct (N.eqb k' k) eqn:E'; auto.
    apply N.eqb_eq in E'. congruence.
  - now rewrite IH.
Qed.

Lemma dict_set_set {V} (k : UUID) (v1 v2 : V) (d : dict V) :
  dict_set k v2 (dict_set k v1 d) = dict_set k v2 d.
Proof.
  induction d as [|[k' v'] d IH]; simpl.
  - now rewrite N.eqb_refl.
  - destruct (N.eqb k k') eqn:E; simpl; rewrite ?N.eqb_refl, ?E; auto.
    now rewrite IH.
Qed.

Lemma dict_get_In {V} (k : UUID) (v : V) (d : dict V) :
  dict_get k d = Some v -> In (k, v) d.
Proof.
  induction d as [|[k' v'] d IH]; simpl; [discriminate|].
  destruct (N.eqb k k') eqn:E; intros H.
  - apply N.eqb_eq in E. inversion H. subst. now left.
  - right. auto.
Qed.

Lemma In_dict_set {V} (k k0 : UUID) (v v0 : V) (d : dict V) :
  In (k0, v0) (dict_set k v d) -> (k0, v0) = (k, v) \/ In (k0, v0) d.
Proof.
  induction d as [|[k' v'] d IH]; simpl.
  - intros [H|[]]. now left.
  - destruct (N.eqb k k'); simpl; intros [H|H]; auto.
    destruct (IH H); auto.
Qed.

Lemma In_dict_del {V} (k k0 : UUID) (v0 : V) (d : dict V) :
  In (k0, v0) (dict_del k d) -> In (k0, v0) d /\ k0 <> k.
Proof.
  unfold dict_del. rewrite filter_In. simpl. intros [H E]. split; auto.
  intros ->. now rewrite N.eqb_refl in E.
Qed.

(** ** Running the monad *)

Ltac run_py :=
  unfold bind, ret, raise, get_TASKS, put_TASKS, set_TASKS, mutate_task,
    uuid4, read_clock; simpl.

Lemma _get_task_or_404_found task_id task w :
  dict_get task_id (TASKS w) = Some task ->
  _get_task_or_404 task_id w = (Ok task, w).
Proof. unfold _get_task_or_404. run_py. now intros ->. Qed.

Lemma _get_task_or_404_absent task_id w :
  dict_get task_id (TASKS w) = None ->
  _get_task_or_404 task_id w = (Raise (HTTPException 404 "Task not found"), w).
Proof. unfold _get_task_or_404. run_py. now intros ->. Qed.

Lemma _get_subtask_or_404_found task subtask_id st w :
  find_subtask subtask_id (Task.subtasks task) = Some st ->
  _get_subtask_or_404 task subtask_id w = (Ok st, w).
Proof. unfold _get_subtask_or_404. now intros ->. Qed.

Lemma _get_subtask_or_404_absent task subtask_id w :
  find_subtask subtask_id (Task.subtasks task) = None ->
  _get_subtask_or_404 task subtask_id w
  = (Raise (HTTPException 404 "Subtask not found"), w).
Proof. unfold _get_subtask_or_404. now intros ->. Qed.

(** ** C1: the calendar event of a task patch *)

Lemma fake_provider_event_id_run w :
  _fake_provider_event_id w
  = (Ok ("evt_" ++ uuid_canonical (entropy w O))%string,
     mkWorld (TASKS w) (fun n => entropy w (S n)) (clock w)).
Proof. reflexivity. Qed.

(** [_apply_task_update] never raises and leaves the store alone. *)
Lemma apply_task_update_total task patch w :
  exists task',
    fst (_apply_task_update task patch w) = Ok task' /\
    TASKS (snd (_apply_task_update task patch w)) = TASKS w /\
    clock (snd (_apply_task_update task patch w)) = clock w /\
    Task.id task' = Task.id task /\
    Task.subtasks task' = Task.subtasks task /\
    exists k, forall n,
      entropy (snd (_apply_task_update task patch w)) n
      = entropy w (k + n)%nat.
Proof.
  unfold _apply_task_update.
  assert (Hs : Task.id (apply_task_scalars task patch) = Task.id task /\
               Task.subtasks (apply_task_scalars task patch)
               = Task.subtasks task).
  { unfold apply_task_scalars.
    destruct (TaskUpdate.title patch), (TaskUpdate.note patch),
      (TaskUpdate.due_datetime patch), (TaskUpdate.completed patch); auto. }
  destruct Hs as [Hid Hsub].
  destruct (in_fields_set _ _);
    [destruct (TaskUpdate.calendar_event patch) as [[c|e]|]|].
  2-4: eexists; repeat split; eauto; exists O; reflexivity.
  eexists; repeat split; eauto. exists 1%nat. reflexivity.
Qed.

Lemma update_task_found task_id task patch w :
  dict_get task_id (TASKS w) = Some task ->
  update_task task_id patch w
  = match _apply_task_update task patch w with
    | (Ok task', w') => (Ok task', set_TASKS (dict_set task_id task' (TASKS w')) w')
    | (Raise e, w') => (Raise e, w')
    end.
Proof.
  intros H. unfold update_task, bind at 1.
  rewrite (_get_task_or_404_found _ _ _ H).
  unfold bind at 1.
  destruct (_apply_task_update task patch w) as [[t'|e] w']; reflexivity.
Qed.

(** C1. Updating a stored task: when the patch does not supply
    [calendar_event] the task's calendar event is unchanged; when it
    supplies null the event is cleared; when it supplies a create-request
    the event becomes that request's fields with a newly issued, non-empty
    simulated event id (the generator moves on), whatever event the task
    had; when it supplies an event with its [event_id] that event is stored
    as it is. *)
Theorem update_task_calendar_event_presence :
  forall (w : World) (task_id : UUID) (task : Task) (patch : TaskUpdate),
    dict_get task_id (TASKS w) = Some task ->
    exists task' : Task,
      fst (update_task task_id patch w) = Ok task' /\
      dict_get task_id (TASKS (snd (update_task task_id patch w)))
      = Some task' /\
      if in_fields_set "calendar_event" (TaskUpdate.model_fields_set patch)
      then
        match TaskUpdate.calendar_event patch with
        | None => Task.calendar_event task' = None
        | Some (IsCalendarEventCreate c) =>
            exists eid : string,
              fst (_fake_provider_event_id w) = Ok eid /\
              eid <> EmptyString /\
              Task.calendar_event task' = Some (CalendarEvent.mk c eid) /\
              forall n,
                entropy (snd (update_task task_id patch w)) n
                = entropy w (S n)
        | Some (IsCalendarEvent e) => Task.calendar_event task' = Some e
        end
      else Task.calendar_event task' = Task.calendar_event task.
Proof.
  intros w task_id task patch Hget.
  rewrite (update_task_found _ _ patch _ Hget).
  unfold _apply_task_update.
  assert (Hev : Task.calendar_event (apply_task_scalars task patch)
                = Task.calendar_event task).
  { unfold apply_task_scalars.
    destruct (TaskUpdate.title patch), (TaskUpdate.note patch),
      (TaskUpdate.due_datetime patch), (TaskUpdate.completed patch); auto. }
  destruct (in_fields_set _ _).
  - destruct (TaskUpdate.calendar_event patch) as [[c|e]|]; run_py;
      eexists; (split; [reflexivity|]);
      (split; [apply dict_get_set_same|]); simpl; auto.
    eexists. split; [reflexivity|]. repeat split; auto. discriminate.
  - run_py. eexists. split; [reflexivity|].
    split; [apply dict_get_set_same|]. exact Hev.
Qed.

(** ** C10: a null scalar is an omitted scalar *)

Lemma apply_task_scalars_fields_set fs task patch :
  apply_task_scalars task (TaskUpdate.set_model_fields_set fs patch)
  = apply_task_scalars task patch.
Proof. reflexivity. Qed.

Lemma apply_subtask_fields_fields_set fs st patch :
  apply_subtask_fields st (SubTaskUpdate.set_model_fields_set fs patch)
  = apply_subtask_fields st patch.
Proof. reflexivity. Qed.

Lemma update_task_fields_set task_id patch fs w :
  in_fields_set "calendar_event" fs
  = in_fields_set "calendar_event" (TaskUpdate.model_fields_set patch) ->
  update_task task_id (TaskUpdate.set_model_fields_set fs patch) w
  = update_task task_id patch w.
Proof.
  intros H. unfold update_task, _apply_task_update.
  simpl TaskUpdate.model_fields_set. rewrite H. reflexivity.
Qed.

Lemma update_subtask_fields_set task_id subtask_id patch fs w :
  update_subtask task_id subtask_id
    (SubTaskUpdate.set_model_fields_set fs patch) w
  = update_subtask task_id subtask_id patch w.
Proof. reflexivity. Qed.

(** What the scalar assignments of a task patch leave in place. *)
Lemma apply_task_scalars_frame task patch :
  let task' := apply_task_scalars task patch in
  (TaskUpdate.title patch = None -> Task.title task' = Task.title task) /\
  (TaskUpdate.note patch = None -> Task.note task' = Task.note task) /\
  (TaskUpdate.due_datetime patch = None ->
   Task.due_datetime task' = Task.due_datetime task) /\
  (TaskUpdate.completed patch = None ->
   Task.completed task' = Task.completed task) /\
  (Task.note task <> None -> Task.note task' <> None) /\
  (Task.due_datetime task <> None -> Task.due_datetime task' <> None).
Proof.
  unfold apply_task_scalars.
  destruct (TaskUpdate.title patch), (TaskUpdate.note patch),
    (TaskUpdate.due_datetime patch), (TaskUpdate.completed patch); simpl;
    repeat split; intros; try discriminate; auto.
Qed.

(** [_apply_task_update] touches no scalar after the scalar assignments. *)
Lemma apply_task_update_scalars task patch w task' :
  fst (_apply_task_update task patch w) = Ok task' ->
  Task.title task' = Task.title (apply_task_scalars task patch) /\
  Task.note task' = Task.note (apply_task_scalars task patch) /\
  Task.due_datetime task' = Task.due_datetime (apply_task_scalars task patch) /\
  Task.completed task' = Task.completed (apply_task_scalars task patch).
Proof.
  unfold _apply_task_update.
  destruct (in_fields_set _ _);
    [destruct (TaskUpdate.calendar_event patch) as [[c|e]|]|];
    run_py; intros H; inversion H; subst; auto.
Qed.

(** What the assignments of a subtask patch leave in place. *)
Lemma apply_subtask_fields_frame st patch :
  let st' := apply_subtask_fields st patch in
  (SubTaskUpdate.title patch = None -> SubTask.title st' = SubTask.title st) /\
  (SubTaskUpdate.due_datetime patch = None ->
   SubTask.due_datetime st' = SubTask.due_datetime st) /\
  (SubTaskUpdate.completed patch = None ->
   SubTask.completed st' = SubTask.completed st) /\
  (SubTaskUpdate.add_to_calendar patch = None ->
   SubTask.add_to_calendar st' = SubTask.add_to_calendar st) /\
  (SubTaskUpdate.event_duration_minutes patch = None ->
   SubTask.event_duration_minutes st' = SubTask.event_duration_minutes st) /\
  (SubTaskUpdate.calendar_id patch = None ->
   SubTask.calendar_id st' = SubTask.calendar_id st) /\
  (SubTaskUpdate.calendar_event_id patch = None ->
   SubTask.calendar_event_id st' = SubTask.calendar_event_id st) /\
  (SubTask.due_datetime st <> None -> SubTask.due_datetime st' <> None) /\
  (SubTask.calendar_id st <> None -> SubTask.calendar_id st' <> None) /\
  (SubTask.calendar_event_id st <> None ->
   SubTask.calendar_event_id st' <> None) /\
  SubTask.id st' = SubTask.id st /\
  SubTask.task_id st' = SubTask.task_id st /\
  SubTask.created_at st' = SubTask.created_at st.
Proof.
  unfold apply_subtask_fields.
  destruct (SubTaskUpdate.title patch), (SubTaskUpdate.due_datetime patch),
    (SubTaskUpdate.completed patch), (SubTaskUpdate.add_to_calendar patch),
    (SubTaskUpdate.event_duration_minutes patch),
    (SubTaskUpdate.calendar_id patch),
    (SubTaskUpdate.calendar_event_id patch); simpl;
    repeat split; intros; try discriminate; auto.
Qed.

(** [update_subtask] on a stored subtask: what it returns and stores. *)
Lemma update_subtask_found task_id subtask_id task st patch w :
  dict_get task_id (TASKS w) = Some task ->
  find_subtask subtask_id (Task.subtasks task) = Some st ->
  let st1 := apply_subtask_fields st patch in
  let assign := SubTask.add_to_calendar st1
                && opt_str_truthy (SubTask.calendar_id st1)
                && negb (opt_str_truthy (SubTask.calendar_event_id st1)) in
  let st2 :=
    if assign
    then SubTask.set_calendar_event_id
           (Some ("evt_" ++ uuid_canonical (entropy w O))%string) st1
    else st1 in
  let st3 := SubTask.set_updated_at (clock w O) st2 in
  update_subtask task_id subtask_id patch w
  = (Ok st3,
     mkWorld
       (dict_set task_id
          (Task.set_subtasks
             (mutate_subtask subtask_id st3 (Task.subtasks task)) task)
          (TASKS w))
       (if assign then fun n => entropy w (S n) else entropy w)
       (fun n => clock w (S n))).
Proof.
  intros Hget Hfind. cbv zeta. unfold update_subtask, bind at 1.
  rewrite (_get_task_or_404_found _ _ _ Hget).
  unfold bind at 1. rewrite (_get_subtask_or_404_found _ _ _ _ Hfind).
  destruct (SubTask.add_to_calendar (apply_subtask_fields st patch)
            && opt_str_truthy (SubTask.calendar_id (apply_subtask_fields st patch))
            && negb (opt_str_truthy
                       (SubTask.calendar_event_id (apply_subtask_fields st patch))));
    reflexivity.
Qed.

Lemma find_subtask_id subtask_id l st :
  find_subtask subtask_id l = Some st -> SubTask.id st = subtask_id.
Proof.
  induction l as [|x l IH]; simpl; [discriminate|].
  destruct (N.eqb (SubTask.id x) subtask_id) eqn:E; auto.
  intros H. inversion H. subst. now apply N.eqb_eq.
Qed.

Lemma find_subtask_In subtask_id l st :
  find_subtask subtask_id l = Some st -> In st l.
Proof.
  induction l as [|x l IH]; simpl; [discriminate|].
  destruct (N.eqb (SubTask.id x) subtask_id); auto.
  intros H. inversion H. now left.
Qed.

Lemma find_mutate_subtask subtask_id l st st' :
  find_subtask subtask_id l = Some st ->
  SubTask.id st' = subtask_id ->
  find_subtask subtask_id (mutate_subtask subtask_id st' l) = Some st'.
Proof.
  intros Hfind Hid. induction l as [|x l IH]; simpl in *; [discriminate|].
  destruct (N.eqb (SubTask.id x) subtask_id) eqn:E; simpl.
  - rewrite Hid, N.eqb_refl. reflexivity.
  - rewrite E. auto.
Qed.

(** C10 (amended). In a task patch only the presence of [calendar_event]
    is looked at, and in a subtask patch no presence at all: a patch that
    supplies a scalar as null returns and stores what the patch omitting it
    does.  A scalar that is null in the patch keeps its stored value, but
    for a subtask's calendar event id that is absent or empty while the
    patched subtask is flagged for the calendar and has a non-empty
    calendar id: that one gets a generated id.  So a note or a due date of
    a task, and a due date, a calendar id or a calendar event id of a
    subtask, once set, stay set under every patch.  For [calendar_event]
    the presence does matter. *)
Theorem null_scalar_behaves_as_omitted :
  (forall (w : World) (task_id : UUID) (patch : TaskUpdate)
          (fs : list string),
      in_fields_set "calendar_event" fs
      = in_fields_set "calendar_event" (TaskUpdate.model_fields_set patch) ->
      update_task task_id (TaskUpdate.set_model_fields_set fs patch) w
      = update_task task_id patch w) /\
  (forall (w : World) (task_id subtask_id : UUID) (patch : SubTaskUpdate)
          (fs : list string),
      update_subtask task_id subtask_id
        (SubTaskUpdate.set_model_fields_set fs patch) w
      = update_subtask task_id subtask_id patch w) /\
  (forall (w : World) (task_id : UUID) (task : Task) (patch : TaskUpdate),
      dict_get task_id (TASKS w) = Some task ->
      exists task',
        fst (update_task task_id patch w) = Ok task' /\
        dict_get task_id (TASKS (snd (update_task task_id patch w)))
        = Some task' /\
        (TaskUpdate.title patch = None -> Task.title task' = Task.title task) /\
        (TaskUpdate.note patch = None -> Task.note task' = Task.note task) /\
        (TaskUpdate.due_datetime patch = None ->
         Task.due_datetime task' = Task.due_datetime task) /\
        (TaskUpdate.completed patch = None ->
         Task.completed task' = Task.completed task) /\
        (Task.note task <> None -> Task.note task' <> None) /\
        (Task.due_datetime task <> None -> Task.due_datetime task' <> None)) /\
  (forall (w : World) (task_id subtask_id : UUID) (task : Task)
          (st : SubTask) (patch : SubTaskUpdate),
      dict_get task_id (TASKS w) = Some task ->
      find_subtask subtask_id (Task.subtasks task) = Some st ->
      exists st' task',
        fst (update_subtask task_id subtask_id patch w) = Ok st' /\
        dict_get task_id
          (TASKS (snd (update_subtask task_id subtask_id patch w)))
        = Some task' /\
        find_subtask subtask_id (Task.subtasks task') = Some st' /\
        (SubTaskUpdate.title patch = None ->
         SubTask.title st' = SubTask.title st) /\
        (SubTaskUpdate.due_datetime patch = None ->
         SubTask.due_datetime st' = SubTask.due_datetime st) /\
        (SubTaskUpdate.completed patch = None ->
         SubTask.completed st' = SubTask.completed st) /\
        (SubTaskUpdate.add_to_calendar patch = None ->
         SubTask.add_to_calendar st' = SubTask.add_to_calendar st) /\
        (SubTaskUpdate.event_duration_minutes patch = None ->
         SubTask.event_duration_minutes st'
         = SubTask.event_duration_minutes st) /\
        (SubTaskUpdate.calendar_id patch = None ->
         SubTask.calendar_id st' = SubTask.calendar_id st) /\
        (SubTaskUpdate.calendar_event_id patch = None ->
         SubTask.calendar_event_id (apply_subtask_fields st patch)
         = SubTask.calendar_event_id st) /\
        (SubTaskUpdate.calendar_event_id patch = None ->
         opt_str_truthy (SubTask.calendar_event_id st) = true ->
         SubTask.calendar_event_id st' = SubTask.calendar_event_id st) /\
        (SubTaskUpdate.calendar_event_id patch = None ->
         SubTask.add_to_calendar st'
         && opt_str_truthy (SubTask.calendar_id st') = false ->
         SubTask.calendar_event_id st' = SubTask.calendar_event_id st) /\
        (SubTaskUpdate.calendar_event_id patch = None ->
         opt_str_truthy (SubTask.calendar_event_id st) = false ->
         SubTask.add_to_calendar st'
         && opt_str_truthy (SubTask.calendar_id st') = true ->
         exists eid,
           SubTask.calendar_event_id st' = Some eid /\
           str_truthy eid = true) /\
        (SubTask.due_datetime st <> None -> SubTask.due_datetime st' <> None) /\
        (SubTask.calendar_id st <> None -> SubTask.calendar_id st' <> None) /\
        (SubTask.calendar_event_id st <> None ->
         SubTask.calendar_event_id st' <> None)) /\
  (exists (w : World) (task_id : UUID) (patch : TaskUpdate),
      fst (update_task task_id
             (TaskUpdate.set_model_fields_set ["calendar_event"%string] patch)
             w)
      <> fst (update_task task_id
                (TaskUpdate.set_model_fields_set [] patch) w)).
Proof.
  split; [intros; now apply update_task_fields_set|].
  split; [intros; apply update_subtask_fields_set|].
  split; [|split].
  - intros w task_id task patch Hget.
    rewrite (update_task_found _ _ patch _ Hget).
    destruct (apply_task_update_total task patch w)
      as (task' & Hok & Hstore & _).
    pose proof (apply_task_update_scalars task patch w task' Hok)
      as (Ht & Hn & Hd & Hc).
    pose proof (apply_task_scalars_frame task patch) as F. cbv zeta in F.
    destruct (_apply_task_update task patch w) as [[t'|e] w'];
      simpl in Hok; inversion Hok; subst t'. simpl.
    exists task'. split; [reflexivity|].
    split; [apply dict_get_set_same|].
    rewrite Ht, Hn, Hd, Hc. tauto.
  - intros w task_id subtask_id task st patch Hget Hfind.
    rewrite (update_subtask_found _ _ _ _ patch _ Hget Hfind). cbv zeta.
    pose proof (apply_subtask_fields_frame st patch) as F. cbv zeta in F.
    destruct F as (F1 & F2 & F3 & F4 & F5 & F6 & F7 & F8 & F9 & F10 & Fid & _).
    pose proof (find_subtask_id _ _ _ Hfind) as Hid.
    simpl fst. simpl snd. simpl TASKS.
    eexists. eexists. split; [reflexivity|].
    split; [apply dict_get_set_same|].
    split.
    { simpl. apply (find_mutate_subtask _ _ st); auto.
      destruct (_ && _ && _); simpl; congruence. }
    destruct (opt_str_truthy
                (SubTask.calendar_event_id (apply_subtask_fields st patch)))
      eqn:Hev;
      destruct (SubTask.add_to_calendar (apply_subtask_fields st patch))
        eqn:Hadd;
      destruct (opt_str_truthy
                  (SubTask.calendar_id (apply_subtask_fields st patch)))
        eqn:Hcal;
      simpl; rewrite ?Hadd, ?Hcal; simpl;
      repeat match goal with |- _ /\ _ => split end; auto;
      try discriminate;
      try (intros Hp Ht; rewrite (F7 Hp) in Hev; congruence);
      try (intros Hp Ht Hflag; rewrite (F7 Hp) in Hev; congruence).
    intros _ _ _. eexists. split; reflexivity.
  - exists sample_world, 1%N,
      (TaskUpdate.mk None None None None None []).
    vm_compute. discriminate.
Qed.

(** ** C2: not found, and nothing applied on failure *)

(** The scan of [list_tasks] never raises; it only reads the clock. *)
Lemma scan_tasks_total tasks lf q f t w :
  exists items w',
    scan_tasks tasks lf q f t w = (Ok items, w') /\
    TASKS w' = TASKS w /\ entropy w' = entropy w.
Proof.
  revert w. induction tasks as [|task rest IH]; intros w; simpl.
  - exists [], w. auto.
  - destruct (negb (_matches_query task q)); [apply IH|].
    destruct (negb (_in_due_range task f t)); [apply IH|].
    assert (Hm : exists b w1,
               _matches_list_filter task lf w = (Ok b, w1) /\
               TASKS w1 = TASKS w /\ entropy w1 = entropy w).
    { unfold _matches_list_filter.
      destruct lf as [[| |]|]; try destruct (Task.due_datetime task);
        run_py; eauto. }
    destruct Hm as (b & w1 & Hm & HT & HE).
    destruct (IH w1) as (items & w2 & Hs & HT' & HE').
    unfold bind. rewrite Hm, Hs. unfold ret.
    eexists. eexists. split; [reflexivity|]. split; congruence.
Qed.

Ltac unfold_handlers :=
  unfold handle, get_task, delete_task, complete_task, undo_task,
    list_subtasks, create_subtask, update_subtask, delete_subtask,
    complete_subtask, undo_subtask, mutate_subtask_of,
    _fake_provider_event_id, _get_task_or_404, _get_subtask_or_404.

(** A request addressed to a task id the store does not hold raises 404
    and leaves the world as it was. *)
Lemma handle_task_absent r task_id w :
  request_task_id r = Some task_id ->
  dict_get task_id (TASKS w) = None ->
  exists detail,
    handle r w = (Raise (HTTPException 404 detail), w).
Proof.
  intros Hr Hget.
  destruct r; simpl in Hr; inversion Hr; subst; clear Hr;
    unfold_handlers; unfold update_task; unfold_handlers; run_py;
    rewrite Hget; eauto.
Qed.

(** A request addressed to a subtask id the task does not hold raises 404
    and leaves the world as it was. *)
Lemma handle_subtask_absent r task_id subtask_id task w :
  request_task_id r = Some task_id ->
  request_subtask_id r = Some subtask_id ->
  dict_get task_id (TASKS w) = Some task ->
  find_subtask subtask_id (Task.subtasks task) = None ->
  exists detail,
    handle r w = (Raise (HTTPException 404 detail), w).
Proof.
  intros Hr Hs Hget Hfind.
  destruct r; simpl in Hr, Hs; inversion Hr; inversion Hs; subst;
    clear Hr Hs; unfold_handlers; run_py; rewrite Hget; simpl;
    rewrite Hfind; eauto.
Qed.

(** A request that raises leaves the world as it was. *)
Lemma handle_raises_unchanged r w :
  raises (fst (handle r w)) = true -> snd (handle r w) = w.
Proof.
  destruct r as [lf q f t|p|i|i p|i|i|i|i|i p|i s p|i s|i s|i s].
  - (* GET /tasks *)
    unfold handle, list_tasks, TaskListQuery_check_range.
    destruct (range_inverted f t); [reflexivity|].
    run_py.
    destruct (scan_tasks_total (dict_values (TASKS w)) lf q f t w)
      as (items & w' & -> & _).
    simpl. discriminate.
  - (* POST /tasks *)
    unfold handle, create_task, _fake_provider_event_id. run_py.
    destruct (TaskCreate.calendar_event p); simpl; discriminate.
  - (* GET /tasks/{task_id} *)
    unfold_handlers. run_py.
    destruct (dict_get i (TASKS w)); simpl; [discriminate|reflexivity].
  - (* PATCH /tasks/{task_id} *)
    destruct (dict_get i (TASKS w)) as [task|] eqn:Hget.
    + unfold handle, bind at 1. rewrite (update_task_found _ _ p _ Hget).
      destruct (apply_task_update_total task p w) as (t' & Hok & _).
      destruct (_apply_task_update task p w) as [[x|e] w'];
        simpl in *; discriminate.
    + destruct (handle_task_absent (PATCH_task i p) i w eq_refl Hget)
        as (d & ->). reflexivity.
  - (* DELETE /tasks/{task_id} *)
    unfold_handlers. run_py.
    destruct (dict_get i (TASKS w)); simpl; [discriminate|reflexivity].
  - unfold_handlers. run_py.
    destruct (dict_get i (TASKS w)); simpl; [discriminate|reflexivity].
  - unfold_handlers. run_py.
    destruct (dict_get i (TASKS w)); simpl; [discriminate|reflexivity].
  - unfold_handlers. run_py.
    destruct (dict_get i (TASKS w)); simpl; [discriminate|reflexivity].
  - (* POST /tasks/{task_id}/subtasks *)
    unfold_handlers. run_py.
    destruct (dict_get i (TASKS w)); simpl; [|reflexivity].
    destruct (_ && _ && _); simpl; discriminate.
  - (* PATCH /tasks/{task_id}/subtasks/{subtask_id} *)
    unfold_handlers. run_py.
    destruct (dict_get i (TASKS w)) as [task|]; simpl; [|reflexivity].
    destruct (find_subtask s (Task.subtasks task)); simpl; [|reflexivity].
    destruct (_ && _ && _); simpl; discriminate.
  - unfold_handlers. run_py.
    destruct (dict_get i (TASKS w)) as [task|]; simpl; [|reflexivity].
    destruct (find_subtask s (Task.subtasks task)); simpl;
      [discriminate|reflexivity].
  - unfold_handlers. run_py.
    destruct (dict_get i (TASKS w)) as [task|]; simpl; [|reflexivity].
    destruct (find_subtask s (Task.subtasks task)); simpl;
      [discriminate|reflexivity].
  - unfold_handlers. run_py.
    destruct (dict_get i (TASKS w)) as [task|]; simpl; [|reflexivity].
    destruct (find_subtask s (Task.subtasks task)); simpl;
      [discriminate|reflexivity].
Qed.

(** C2. Every request addressed by a task id raises NotFound when the
    store holds no task under that id; every request addressed by a subtask
    id raises NotFound when the task holds no subtask with that id; and a
    request that raises, for whatever reason, leaves the store (and the
    rest of the world) exactly as it was. *)
Theorem failed_request_not_found_and_nothing_applied :
  forall (r : Request) (w : World),
    (forall task_id,
        request_task_id r = Some task_id ->
        dict_get task_id (TASKS w) = None ->
        raises_NotFound (fst (handle r w)) = true) /\
    (forall task_id subtask_id task,
        request_task_id r = Some task_id ->
        request_subtask_id r = Some subtask_id ->
        dict_get task_id (TASKS w) = Some task ->
        find_subtask subtask_id (Task.subtasks task) = None ->
        raises_NotFound (fst (handle r w)) = true) /\
    (raises (fst (handle r w)) = true -> snd (handle r w) = w).
Proof.
  intros r w. split; [|split].
  - intros task_id Hr Hget.
    destruct (handle_task_absent r task_id w Hr Hget) as (d & ->).
    reflexivity.
  - intros task_id subtask_id task Hr Hs Hget Hfind.
    destruct (handle_subtask_absent r task_id subtask_id task w Hr Hs Hget
                Hfind) as (d & ->).
    reflexivity.
  - apply handle_raises_unchanged.
Qed.

(** ** C5: the simulated event id of a subtask *)

Lemma opt_str_truthy_true o :
  opt_str_truthy o = true <-> exists c, o = Some c /\ c <> EmptyString.
Proof.
  unfold opt_str_truthy, str_truthy. destruct o as [c|].
  - rewrite negb_true_iff. split.
    + intros H. exists c. split; auto. intros ->. discriminate.
    + intros (c' & Hc & Hne). inversion Hc. subst c'.
      destruct (String.eqb_spec c EmptyString); congruence.
  - split; [discriminate|]. intros (c & Hc & _). discriminate.
Qed.

(** [create_subtask] on a stored task: what it returns and stores. *)
Lemma create_subtask_found task_id task payload w :
  dict_get task_id (TASKS w) = Some task ->
  let st1 :=
    SubTask.mk (SubTaskCreate.title payload)
               (SubTaskCreate.due_datetime payload)
               (SubTaskCreate.completed payload)
               (SubTaskCreate.add_to_calendar payload)
               (SubTaskCreate.event_duration_minutes payload)
               (SubTaskCreate.calendar_id payload)
               (SubTaskCreate.calendar_event_id payload)
               (entropy w O) (Task.id task) (clock w O) (clock w 1%nat) in
  let assign := SubTaskCreate.add_to_calendar payload
                && is_None (SubTaskCreate.calendar_event_id payload)
                && opt_str_truthy (SubTaskCreate.calendar_id payload) in
  let st2 :=
    if assign
    then SubTask.set_calendar_event_id
           (Some ("evt_" ++ uuid_canonical (entropy w 1%nat))%string) st1
    else st1 in
  create_subtask task_id payload w
  = (Ok st2,
     mkWorld
       (dict_set task_id
          (Task.set_subtasks (Task.subtasks task ++ [st2]) task) (TASKS w))
       (if assign then fun n => entropy w (S (S n))
        else fun n => entropy w (S n))
       (fun n => clock w (S (S n)))).
Proof.
  intros Hget. cbv zeta. unfold create_subtask, bind at 1.
  rewrite (_get_task_or_404_found _ _ _ Hget).
  unfold _fake_provider_event_id. run_py.
  destruct (SubTaskCreate.add_to_calendar payload
            && is_None (SubTaskCreate.calendar_event_id payload)
            && opt_str_truthy (SubTaskCreate.calendar_id payload));
    reflexivity.
Qed.

(** C5 (amended). On a stored task, Create Subtask appends the new subtask
    and, when [add_to_calendar] is true, [calendar_id] is a non-empty
    string and [calendar_event_id] is absent, gives it a non-empty
    simulated event id taken from the generator.  Update Subtask on a
    stored subtask does the same for the subtask as patched, and always
    sets [updated_at] to the clock reading of the call. *)
Theorem subtask_event_id_auto_assigned :
  forall (w : World) (task_id : UUID) (task : Task),
    dict_get task_id (TASKS w) = Some task ->
    (forall payload : SubTaskCreate,
        exists st task',
          fst (create_subtask task_id payload w) = Ok st /\
          dict_get task_id (TASKS (snd (create_subtask task_id payload w)))
          = Some task' /\
          Task.subtasks task' = Task.subtasks task ++ [st] /\
          (SubTaskCreate.add_to_calendar payload = true ->
           (exists c, SubTaskCreate.calendar_id payload = Some c /\
                      c <> EmptyString) ->
           SubTaskCreate.calendar_event_id payload = None ->
           exists eid,
             SubTask.calendar_event_id st = Some eid /\
             eid <> EmptyString /\
             eid = ("evt_" ++ uuid_canonical (entropy w 1%nat))%string)) /\
    (forall (subtask_id : UUID) (st : SubTask) (patch : SubTaskUpdate),
        find_subtask subtask_id (Task.subtasks task) = Some st ->
        exists st' task',
          fst (update_subtask task_id subtask_id patch w) = Ok st' /\
          dict_get task_id
            (TASKS (snd (update_subtask task_id subtask_id patch w)))
          = Some task' /\
          find_subtask subtask_id (Task.subtasks task') = Some st' /\
          SubTask.updated_at st' = clock w O /\
          (SubTask.add_to_calendar (apply_subtask_fields st patch) = true ->
           (exists c,
               SubTask.calendar_id (apply_subtask_fields st patch) = Some c /\
               c <> EmptyString) ->
           SubTask.calendar_event_id (apply_subtask_fields st patch) = None ->
           exists eid,
             SubTask.calendar_event_id st' = Some eid /\
             eid <> EmptyString /\
             eid = ("evt_" ++ uuid_canonical (entropy w O))%string)).
Proof.
  intros w task_id task Hget. split.
  - intros payload.
    rewrite (create_subtask_found _ _ payload _ Hget). cbv zeta.
    simpl fst. simpl snd. simpl TASKS.
    eexists. eexists. split; [reflexivity|].
    split; [apply dict_get_set_same|].
    split; [reflexivity|].
    intros Hadd Hcal Hev. apply opt_str_truthy_true in Hcal.
    rewrite Hadd, Hcal, Hev. simpl.
    eexists. split; [reflexivity|]. split; [discriminate|reflexivity].
  - intros subtask_id st patch Hfind.
    rewrite (update_subtask_found _ _ _ _ patch _ Hget Hfind). cbv zeta.
    simpl fst. simpl snd. simpl TASKS.
    pose proof (apply_subtask_fields_frame st patch) as F. cbv zeta in F.
    destruct F as (_ & _ & _ & _ & _ & _ & _ & _ & _ & _ & Fid & _).
    pose proof (find_subtask_id _ _ _ Hfind) as Hid.
    eexists. eexists. split; [reflexivity|].
    split; [apply dict_get_set_same|].
    split.
    { simpl. apply (find_mutate_subtask _ _ st); auto.
      destruct (_ && _ && _); simpl; congruence. }
    split.
    { destruct (_ && _ && _); reflexivity. }
    intros Hadd Hcal Hev. apply opt_str_truthy_true in Hcal.
    rewrite Hadd, Hcal, Hev. simpl.
    eexists. split; [reflexivity|]. split; [discriminate|reflexivity].
Qed.

(** ** C6: complete and undo *)

Lemma mutate_subtask_twice subtask_id st1 st2 l :
  SubTask.id st1 = subtask_id ->
  mutate_subtask subtask_id st2 (mutate_subtask subtask_id st1 l)
  = mutate_subtask subtask_id st2 l.
Proof.
  intros Hid. induction l as [|x l IH]; simpl; auto.
  destruct (N.eqb (SubTask.id x) subtask_id) eqn:E; simpl.
  - now rewrite Hid, N.eqb_refl.
  - now rewrite E, IH.
Qed.

(** The body shared by [complete_task] and [undo_task]. *)
Lemma set_task_completed_found (b : bool) task_id task w :
  dict_get task_id (TASKS w) = Some task ->
  (if b then complete_task else undo_task) task_id w
  = (Ok (Task.set_completed b task),
     set_TASKS (dict_set task_id (Task.set_completed b task) (TASKS w)) w).
Proof.
  intros Hget.
  destruct b; unfold complete_task, undo_task, _get_task_or_404; run_py;
    rewrite Hget; reflexivity.
Qed.

(** The body shared by [complete_subtask] and [undo_subtask]. *)
Lemma set_subtask_completed_found (b : bool) task_id subtask_id task st w :
  dict_get task_id (TASKS w) = Some task ->
  find_subtask subtask_id (Task.subtasks task) = Some st ->
  let st' := SubTask.set_updated_at (clock w O) (SubTask.set_completed b st) in
  (if b then complete_subtask else undo_subtask) task_id subtask_id w
  = (Ok st',
     mkWorld
       (dict_set task_id
          (Task.set_subtasks
             (mutate_subtask subtask_id st' (Task.subtasks task)) task)
          (TASKS w))
       (entropy w) (fun n => clock w (S n))).
Proof.
  intros Hget Hfind.
  destruct b; unfold complete_subtask, undo_subtask, mutate_subtask_of,
    _get_task_or_404, _get_subtask_or_404; run_py;
    rewrite Hget; simpl; rewrite Hfind; reflexivity.
Qed.

(** C6. On a stored task, Complete ([b = true]) and Undo ([b = false])
    return the task with [completed = b] and store it; applied again they
    raise nothing and leave the world exactly as the first application left
    it.  On a stored subtask they set [completed = b] and set [updated_at]
    to the clock reading of the call; applied again they raise nothing,
    change nothing but [updated_at], and leave the store as one application
    at the later reading leaves it (the very same store when both readings
    agree). *)
Theorem complete_undo_idempotent :
  forall (b : bool) (w : World) (task_id : UUID) (task : Task),
    dict_get task_id (TASKS w) = Some task ->
    let set_task := if b then complete_task else undo_task in
    let set_subtask := if b then complete_subtask else undo_subtask in
    (exists task',
        set_task task_id w
        = (Ok task', set_TASKS (dict_set task_id task' (TASKS w)) w) /\
        task' = Task.set_completed b task /\
        Task.completed task' = b /\
        dict_get task_id (TASKS (snd (set_task task_id w))) = Some task' /\
        set_task task_id (snd (set_task task_id w))
        = (Ok task', snd (set_task task_id w))) /\
    (forall (subtask_id : UUID) (st : SubTask),
        find_subtask subtask_id (Task.subtasks task) = Some st ->
        let w1 := snd (set_subtask task_id subtask_id w) in
        let w2 := snd (set_subtask task_id subtask_id w1) in
        exists st1 st2 task1,
          fst (set_subtask task_id subtask_id w) = Ok st1 /\
          st1 = SubTask.set_updated_at (clock w O)
                  (SubTask.set_completed b st) /\
          SubTask.completed st1 = b /\
          SubTask.updated_at st1 = clock w O /\
          dict_get task_id (TASKS w1) = Some task1 /\
          find_subtask subtask_id (Task.subtasks task1) = Some st1 /\
          fst (set_subtask task_id subtask_id w1) = Ok st2 /\
          st2 = SubTask.set_updated_at (clock w 1%nat) st1 /\
          SubTask.completed st2 = b /\
          TASKS w2 = TASKS (snd (set_subtask task_id subtask_id (tick w))) /\
          (clock w 1%nat = clock w O -> TASKS w2 = TASKS w1)).
Proof.
  intros b w task_id task Hget. cbv zeta. split.
  - rewrite (set_task_completed_found b _ _ _ Hget). simpl snd.
    eexists. split; [reflexivity|]. split; [reflexivity|].
    split; [reflexivity|].
    split; [apply dict_get_set_same|].
    rewrite (set_task_completed_found b task_id
               (Task.set_completed b task)).
    + unfold set_TASKS. simpl. now rewrite dict_set_set.
    + apply dict_get_set_same.
  - intros subtask_id st Hfind.
    pose proof (find_subtask_id _ _ _ Hfind) as Hid.
    rewrite (set_subtask_completed_found b _ _ _ _ _ Hget Hfind). cbv zeta.
    simpl fst. simpl snd.
    set (st1 := SubTask.set_updated_at (clock w O)
                  (SubTask.set_completed b st)).
    set (task1 := Task.set_subtasks
                    (mutate_subtask subtask_id st1 (Task.subtasks task)) task).
    assert (Hfind1 : find_subtask subtask_id (Task.subtasks task1) = Some st1).
    { apply (find_mutate_subtask _ _ st); auto. }
    rewrite (set_subtask_completed_found b task_id subtask_id task1 st1);
      [|apply dict_get_set_same|exact Hfind1].
    cbv zeta. simpl fst. simpl snd. simpl TASKS. simpl clock.
    rewrite (set_subtask_completed_found b task_id subtask_id task st (tick w));
      [|exact Hget|exact Hfind].
    cbv zeta. simpl snd. simpl TASKS. simpl clock.
    exists st1, (SubTask.set_updated_at (clock w 1%nat) st1), task1.
    split; [reflexivity|]. split; [reflexivity|].
    split; [reflexivity|]. split; [reflexivity|].
    split; [apply dict_get_set_same|]. split; [exact Hfind1|].
    split; [reflexivity|]. split; [reflexivity|].
    split; [reflexivity|].
    assert (Hsame : dict_set task_id
                (Task.set_subtasks
                   (mutate_subtask subtask_id
                      (SubTask.set_updated_at (clock w 1%nat)
                         (SubTask.set_completed b st1))
                      (Task.subtasks task1)) task1)
                (dict_set task_id task1 (TASKS w))
              = dict_set task_id
                  (Task.set_subtasks
                     (mutate_subtask subtask_id
                        (SubTask.set_updated_at (clock w 1%nat)
                           (SubTask.set_completed b st))
                        (Task.subtasks task)) task)
                  (TASKS w)).
    { rewrite dict_set_set. f_equal. unfold task1. simpl.
      rewrite mutate_subtask_twice by (simpl; exact Hid). reflexivity. }
    split; [exact Hsame|].
    intros Hclock. etransitivity; [exact Hsame|].
    unfold task1, st1. now rewrite Hclock.
Qed.

(** ** How a request changes the store *)

Lemma In_mutate_subtask subtask_id st' l x :
  In x (mutate_subtask subtask_id st' l) -> x = st' \/ In x l.
Proof.
  induction l as [|y l IH]; simpl; auto.
  destruct (N.eqb (SubTask.id y) subtask_id); simpl; intros [H|H]; auto.
  destruct (IH H); auto.
Qed.

Lemma delete_task_found task_id task w :
  dict_get task_id (TASKS w) = Some task ->
  delete_task task_id w = (Ok tt, set_TASKS (dict_del task_id (TASKS w)) w).
Proof.
  intros Hget. unfold delete_task, _get_task_or_404. run_py.
  now rewrite Hget.
Qed.

Lemma delete_subtask_found task_id subtask_id task st w :
  dict_get task_id (TASKS w) = Some task ->
  find_subtask subtask_id (Task.subtasks task) = Some st ->
  delete_subtask task_id subtask_id w
  = (Ok tt,
     set_TASKS
       (dict_set task_id
          (Task.set_subtasks
             (filter (fun x => negb (N.eqb (SubTask.id x) (SubTask.id st)))
                     (Task.subtasks task)) task)
          (TASKS w)) w).
Proof.
  intros Hget Hfind.
  unfold delete_subtask, _get_task_or_404, _get_subtask_or_404. run_py.
  rewrite Hget. simpl. now rewrite Hfind.
Qed.

Ltac unchanged_world :=
  simpl; split; [apply change_none; reflexivity | exists O; reflexivity].

Ltac absent_task r i w Hget :=
  let d := fresh "d" in
  let E := fresh "E" in
  destruct (handle_task_absent r i w eq_refl Hget) as (d & E);
  rewrite E; unchanged_world.

Ltac absent_subtask r i s task w Hget Hfind :=
  let d := fresh "d" in
  let E := fresh "E" in
  destruct (handle_subtask_absent r i s task w eq_refl eq_refl Hget Hfind)
    as (d & E);
  rewrite E; unchanged_world.

Lemma handle_store_change r w :
  store_change w (snd (handle r w)) /\
  exists k, forall n, entropy (snd (handle r w)) n = entropy w (k + n)%nat.
Proof.
  destruct r as [lf q f t|p|i|i p|i|i|i|i|i p|i s p|i s|i s|i s].
  - (* GET /tasks *)
    unfold handle, list_tasks, TaskListQuery_check_range.
    destruct (range_inverted f t); [unchanged_world|].
    run_py.
    destruct (scan_tasks_total (dict_values (TASKS w)) lf q f t w)
      as (items & w' & -> & HT & HE).
    simpl. split; [now apply change_none|].
    exists O. intros n. now rewrite HE.
  - (* POST /tasks *)
    unfold handle, create_task, _fake_provider_event_id. run_py.
    destruct (TaskCreate.calendar_event p); simpl.
    + split; [|exists 2%nat; reflexivity].
      eapply (change_create _ _ 1%nat); reflexivity.
    + split; [|exists 1%nat; reflexivity].
      eapply (change_create _ _ O); reflexivity.
  - (* GET /tasks/{task_id} *)
    destruct (dict_get i (TASKS w)) as [task|] eqn:Hget;
      [|absent_task (GET_task i) i w Hget].
    unfold handle, get_task, bind.
    rewrite (_get_task_or_404_found _ _ _ Hget). unchanged_world.
  - (* PATCH /tasks/{task_id} *)
    destruct (dict_get i (TASKS w)) as [task|] eqn:Hget;
      [|absent_task (PATCH_task i p) i w Hget].
    unfold handle, bind. rewrite (update_task_found _ _ p _ Hget).
    destruct (apply_task_update_total task p w)
      as (t' & Hok & HT & _ & Hid & Hsub & k & HE).
    destruct (_apply_task_update task p w) as [[x|e] w'];
      simpl in *; [|discriminate].
    inversion Hok; subst x. split; [|exists k; exact HE].
    eapply (change_mutate _ _ i task t'); simpl; auto.
    + now rewrite HT.
    + intros st' Hin. right. exists st'. rewrite <- Hsub. auto.
  - (* DELETE /tasks/{task_id} *)
    destruct (dict_get i (TASKS w)) as [task|] eqn:Hget;
      [|absent_task (DELETE_task i) i w Hget].
    unfold handle, bind. rewrite (delete_task_found _ _ _ Hget). simpl.
    split; [|exists O; reflexivity].
    apply (change_delete _ _ i); simpl; congruence.
  - (* POST /tasks/{task_id}/complete *)
    destruct (dict_get i (TASKS w)) as [task|] eqn:Hget;
      [|absent_task (POST_task_complete i) i w Hget].
    unfold handle, bind.
    rewrite (set_task_completed_found true _ _ _ Hget). simpl.
    split; [|exists O; reflexivity].
    eapply (change_mutate _ _ i task); simpl; eauto.
  - (* POST /tasks/{task_id}/undo *)
    destruct (dict_get i (TASKS w)) as [task|] eqn:Hget;
      [|absent_task (POST_task_undo i) i w Hget].
    unfold handle, bind.
    rewrite (set_task_completed_found false _ _ _ Hget). simpl.
    split; [|exists O; reflexivity].
    eapply (change_mutate _ _ i task); simpl; eauto.
  - (* GET /tasks/{task_id}/subtasks *)
    destruct (dict_get i (TASKS w)) as [task|] eqn:Hget;
      [|absent_task (GET_subtasks i) i w Hget].
    unfold handle, list_subtasks, bind.
    rewrite (_get_task_or_404_found _ _ _ Hget). unchanged_world.
  - (* POST /tasks/{task_id}/subtasks *)
    destruct (dict_get i (TASKS w)) as [task|] eqn:Hget;
      [|absent_task (POST_subtasks i p) i w Hget].
    unfold handle, bind. rewrite (create_subtask_found _ _ p _ Hget).
    cbv zeta. simpl fst. simpl snd. split.
    + eapply (change_mutate _ _ i task); simpl; eauto.
      intros st' Hin. apply in_app_or in Hin. destruct Hin as [Hin|[<-|[]]].
      * right. eauto.
      * left. destruct (_ && _ && _); reflexivity.
    + simpl entropy. destruct (_ && _ && _);
        [exists 2%nat|exists 1%nat]; reflexivity.
  - (* PATCH /tasks/{task_id}/subtasks/{subtask_id} *)
    destruct (dict_get i (TASKS w)) as [task|] eqn:Hget;
      [|absent_task (PATCH_subtask i s p) i w Hget].
    destruct (find_subtask s (Task.subtasks task)) as [st|] eqn:Hfind;
      [|absent_subtask (PATCH_subtask i s p) i s task w Hget Hfind].
    unfold handle, bind.
    rewrite (update_subtask_found _ _ _ _ p _ Hget Hfind).
    cbv zeta. simpl fst. simpl snd. split.
    + eapply (change_mutate _ _ i task); simpl; eauto.
      intros st' Hin. apply In_mutate_subtask in Hin.
      destruct Hin as [->|Hin]; right; [|eauto].
      exists st. split; [eapply find_subtask_In; eauto|].
      pose proof (apply_subtask_fields_frame st p) as F. cbv zeta in F.
      destruct F as (_ & _ & _ & _ & _ & _ & _ & _ & _ & _ & _ & Ft & _).
      destruct (_ && _ && _); simpl; exact Ft.
    + simpl entropy. destruct (_ && _ && _);
        [exists 1%nat|exists O]; reflexivity.
  - (* DELETE /tasks/{task_id}/subtasks/{subtask_id} *)
    destruct (dict_get i (TASKS w)) as [task|] eqn:Hget;
      [|absent_task (DELETE_subtask i s) i w Hget].
    destruct (find_subtask s (Task.subtasks task)) as [st|] eqn:Hfind;
      [|absent_subtask (DELETE_subtask i s) i s task w Hget Hfind].
    unfold handle, bind. rewrite (delete_subtask_found _ _ _ _ _ Hget Hfind).
    simpl. split; [|exists O; reflexivity].
    eapply (change_mutate _ _ i task); simpl; eauto.
    intros st' Hin. apply filter_In in Hin. right. exists st'. tauto.
  - (* POST .../complete *)
    destruct (dict_get i (TASKS w)) as [task|] eqn:Hget;
      [|absent_task (POST_subtask_complete i s) i w Hget].
    destruct (find_subtask s (Task.subtasks task)) as [st|] eqn:Hfind;
      [|absent_subtask (POST_subtask_complete i s) i s task w Hget Hfind].
    unfold handle, bind.
    rewrite (set_subtask_completed_found true _ _ _ _ _ Hget Hfind).
    cbv zeta. simpl. split; [|exists O; reflexivity].
    eapply (change_mutate _ _ i task); simpl; eauto.
    intros st' Hin. apply In_mutate_subtask in Hin.
    destruct Hin as [->|Hin]; right; [|eauto].
    exists st. split; [eapply find_subtask_In; eauto|reflexivity].
  - (* POST .../undo *)
    destruct (dict_get i (TASKS w)) as [task|] eqn:Hget;
      [|absent_task (POST_subtask_undo i s) i w Hget].
    destruct (find_subtask s (Task.subtasks task)) as [st|] eqn:Hfind;
      [|absent_subtask (POST_subtask_undo i s) i s task w Hget Hfind].
    unfold handle, bind.
    rewrite (set_subtask_completed_found false _ _ _ _ _ Hget Hfind).
    cbv zeta. simpl. split; [|exists O; reflexivity].
    eapply (change_mutate _ _ i task); simpl; eauto.
    intros st' Hin. apply In_mutate_subtask in Hin.
    destruct Hin as [->|Hin]; right; [|eauto].
    exists st. split; [eapply find_subtask_In; eauto|reflexivity].
Qed.

(** ** C9: every subtask carries the id of its task *)

Lemma subtasks_ownedb_true w :
  subtasks_ownedb w = true <-> subtasks_owned w.
Proof.
  unfold subtasks_ownedb, subtasks_owned. rewrite forallb_forall. split.
  - intros H k t st Hin Hst. specialize (H _ Hin). simpl in H.
    rewrite forallb_forall in H. apply N.eqb_eq. now apply H.
  - intros H [k t] Hin. simpl. rewrite forallb_forall. intros st Hst.
    apply N.eqb_eq. eauto.
Qed.

Lemma handle_preserves_owned r w :
  subtasks_owned w -> subtasks_owned (snd (handle r w)).
Proof.
  intros Hinv. destruct (handle_store_change r w) as [Hc _].
  unfold subtasks_owned in *.
  destruct Hc as [E|i t t' Hget E Hid Hsub|j t E Hid Hsub|i _ E];
    rewrite E; intros k t0 st Hin Hst.
  - eauto.
  - apply In_dict_set in Hin. destruct Hin as [Heq|Hin]; [|eauto].
    inversion Heq; subst k t0. rewrite Hid.
    destruct (Hsub _ Hst) as [H|(st0 & Hst0 & H)]; [exact H|].
    rewrite H. eapply Hinv; eauto using dict_get_In.
  - apply In_dict_set in Hin. destruct Hin as [Heq|Hin]; [|eauto].
    inversion Heq; subst k t0. rewrite Hsub in Hst. destruct Hst.
  - apply In_dict_del in Hin. destruct Hin. eauto.
Qed.

Lemma handle_preserves_keyed r w :
  keyed_by_id w -> keyed_by_id (snd (handle r w)).
Proof.
  intros Hinv. destruct (handle_store_change r w) as [Hc _].
  unfold keyed_by_id in *.
  destruct Hc as [E|i t t' Hget E Hid Hsub|j t E Hid Hsub|i _ E];
    rewrite E; intros k t0 Hin.
  - eauto.
  - apply In_dict_set in Hin. destruct Hin as [Heq|Hin]; [|eauto].
    inversion Heq; subst k t0. rewrite Hid.
    eauto using dict_get_In.
  - apply In_dict_set in Hin. destruct Hin as [Heq|Hin]; [|eauto].
    inversion Heq; subst k t0. exact Hid.
  - apply In_dict_del in Hin. destruct Hin. eauto.
Qed.

Lemma reachable_invariants w :
  reachable w -> subtasks_owned w /\ keyed_by_id w.
Proof.
  induction 1 as [e c|w r Hr [IHo IHk]].
  - split; intros k t; simpl; intros; contradiction.
  - split; [now apply handle_preserves_owned|now apply handle_preserves_keyed].
Qed.

(** C9. In every reachable world every subtask's [task_id] is the id of
    the task that owns it (and every task is stored under its own id).
    Create Subtask takes [task_id] from the owning task; Update Task keeps
    the task's id; Update Subtask keeps the subtask's [task_id] and id. *)
Theorem subtask_task_id_is_owner_id :
  forall w : World,
    reachable w ->
    subtasks_owned w /\
    keyed_by_id w /\
    (forall r : Request, subtasks_owned (snd (handle r w))) /\
    (forall task_id task payload,
        dict_get task_id (TASKS w) = Some task ->
        exists st,
          fst (create_subtask task_id payload w) = Ok st /\
          SubTask.task_id st = Task.id task /\
          Task.id task = task_id) /\
    (forall task_id task patch,
        dict_get task_id (TASKS w) = Some task ->
        exists task',
          fst (update_task task_id patch w) = Ok task' /\
          Task.id task' = Task.id task) /\
    (forall task_id subtask_id task st patch,
        dict_get task_id (TASKS w) = Some task ->
        find_subtask subtask_id (Task.subtasks task) = Some st ->
        exists st',
          fst (update_subtask task_id subtask_id patch w) = Ok st' /\
          SubTask.task_id st' = SubTask.task_id st /\
          SubTask.id st' = SubTask.id st).
Proof.
  intros w Hr. destruct (reachable_invariants w Hr) as [Ho Hk].
  split; [exact Ho|]. split; [exact Hk|].
  split; [intros r; now apply handle_preserves_owned|].
  split; [|split].
  - intros task_id task payload Hget.
    rewrite (create_subtask_found _ _ payload _ Hget). cbv zeta. simpl fst.
    eexists. split; [reflexivity|].
    split; [destruct (_ && _ && _); reflexivity|].
    apply Hk. now apply dict_get_In.
  - intros task_id task patch Hget.
    rewrite (update_task_found _ _ patch _ Hget).
    destruct (apply_task_update_total task patch w)
      as (t' & Hok & _ & _ & Hid & _).
    destruct (_apply_task_update task patch w) as [[x|e] w'];
      simpl in *; [|discriminate].
    inversion Hok; subst x. eauto.
  - intros task_id subtask_id task st patch Hget Hfind.
    rewrite (update_subtask_found _ _ _ _ patch _ Hget Hfind).
    cbv zeta. simpl fst.
    pose proof (apply_subtask_fields_frame st patch) as F. cbv zeta in F.
    destruct F as (_ & _ & _ & _ & _ & _ & _ & _ & _ & _ & Fi & Ft & _).
    eexists. split; [reflexivity|].
    destruct (_ && _ && _); simpl; auto.
Qed.

(** ** C8: deleting a task *)

Lemma handle_keeps_absent r w task_id :
  (forall n, entropy w n <> task_id) ->
  dict_get task_id (TASKS w) = None ->
  (forall n, entropy (snd (handle r w)) n <> task_id) /\
  dict_get task_id (TASKS (snd (handle r w))) = None.
Proof.
  intros Hent Habs. destruct (handle_store_change r w) as [Hc (k & Hk)].
  split; [intros n; rewrite Hk; apply Hent|].
  destruct Hc as [E|i t t' Hget E Hid Hsub|j t E Hid Hsub|i _ E]; rewrite E.
  - exact Habs.
  - rewrite dict_get_set_other; [exact Habs|]. intros ->. congruence.
  - rewrite dict_get_set_other; [exact Habs|]. apply Hent.
  - destruct (N.eq_dec i task_id) as [->|Hne].
    + apply dict_get_del_same.
    + now rewrite dict_get_del_other.
Qed.

Lemma run_keeps_absent rs w task_id :
  (forall n, entropy w n <> task_id) ->
  dict_get task_id (TASKS w) = None ->
  dict_get task_id (TASKS (run rs w)) = None.
Proof.
  revert w. induction rs as [|r rs IH]; intros w Hent Habs; simpl; auto.
  destruct (handle_keeps_absent r w task_id Hent Habs). now apply IH.
Qed.

(** C8. Delete Task on an id the store does not hold raises NotFound and
    changes nothing.  On an id it holds, it removes that entry, subtasks
    included, and nothing else: every request addressed by that id (Get,
    Update, Delete, and all the subtask requests) then raises NotFound, and
    keeps doing so after any further requests, as long as the generator
    does not issue that id again; and no subtask left in the store refers
    to the deleted task. *)
Theorem delete_task_removes_permanently :
  forall (w : World) (task_id : UUID),
    (dict_get task_id (TASKS w) = None ->
     raises_NotFound (fst (delete_task task_id w)) = true /\
     snd (delete_task task_id w) = w) /\
    (forall task : Task,
        dict_get task_id (TASKS w) = Some task ->
        fst (delete_task task_id w) = Ok tt /\
        TASKS (snd (delete_task task_id w)) = dict_del task_id (TASKS w) /\
        dict_get task_id (TASKS (snd (delete_task task_id w))) = None /\
        (forall k, k <> task_id ->
           dict_get k (TASKS (snd (delete_task task_id w)))
           = dict_get k (TASKS w)) /\
        (forall r, request_task_id r = Some task_id ->
           raises_NotFound (fst (handle r (snd (delete_task task_id w))))
           = true) /\
        ((forall n, entropy w n <> task_id) ->
         forall rs r, request_task_id r = Some task_id ->
           raises_NotFound
             (fst (handle r (run rs (snd (delete_task task_id w))))) = true) /\
        (reachable w ->
         forall k t st,
           In (k, t) (TASKS (snd (delete_task task_id w))) ->
           In st (Task.subtasks t) ->
           SubTask.task_id st <> task_id)).
Proof.
  intros w task_id. split.
  - intros Habs. unfold delete_task, bind.
    rewrite (_get_task_or_404_absent _ _ Habs). auto.
  - intros task Hget. rewrite (delete_task_found _ _ _ Hget).
    simpl fst. simpl snd. simpl TASKS.
    split; [reflexivity|]. split; [reflexivity|].
    split; [apply dict_get_del_same|].
    split; [intros k Hk; apply dict_get_del_other; congruence|].
    split; [|split].
    + intros r Hr.
      destruct (handle_task_absent r task_id
                  (set_TASKS (dict_del task_id (TASKS w)) w) Hr)
        as (d & ->); [apply dict_get_del_same|reflexivity].
    + intros Hent rs r Hr.
      destruct (handle_task_absent r task_id
                  (run rs (set_TASKS (dict_del task_id (TASKS w)) w)) Hr)
        as (d & ->); [|reflexivity].
      apply run_keeps_absent; [exact Hent|apply dict_get_del_same].
    + intros Hreach k t st Hin Hst.
      destruct (reachable_invariants w Hreach) as [Ho Hk].
      apply In_dict_del in Hin. destruct Hin as [Hin Hne].
      rewrite (Ho _ _ _ Hin Hst), (Hk _ _ Hin). exact Hne.
Qed.

(** ** The stable sort *)

Section SortFacts.
Context {A K : Type} (key : A -> K) (lt : K -> K -> bool).

Hypothesis lt_asym : forall a b, lt a b = true -> lt b a = false.

Lemma insert_by_key_perm x l :
  Permutation (insert_by_key key lt x l) (x :: l).
Proof.
  induction l as [|y l IH]; simpl; auto.
  destruct (lt (key y) (key x)); auto.
  rewrite IH. apply perm_swap.
Qed.

Lemma sort_by_key_perm l : Permutation (sort_by_key key lt l) l.
Proof.
  induction l as [|x l IH]; simpl; auto.
  rewrite insert_by_key_perm. now constructor.
Qed.

Lemma insert_by_key_sorted x l :
  Sorted (key_le key lt) l -> Sorted (key_le key lt) (insert_by_key key lt x l).
Proof.
  induction 1 as [|y l Hs IH Hhd]; simpl.
  - repeat constructor.
  - destruct (lt (key y) (key x)) eqn:E.
    + constructor; [exact IH|].
      destruct Hhd as [|z l' Hyz]; simpl.
      * constructor. unfold key_le. now apply lt_asym.
      * destruct (lt (key z) (key x)); constructor; auto.
        unfold key_le. now apply lt_asym.
    + repeat constructor; auto.
Qed.

Lemma sort_by_key_sorted l : Sorted (key_le key lt) (sort_by_key key lt l).
Proof.
  induction l as [|x l IH]; simpl; [constructor|].
  now apply insert_by_key_sorted.
Qed.

(** Stability: the elements of one class of equal keys come out in the
    order they went in. *)
Lemma insert_by_key_filter (p : A -> bool) x l :
  (forall y, p x = true -> p y = true -> lt (key y) (key x) = false) ->
  filter p (insert_by_key key lt x l) = filter p (x :: l).
Proof.
  intros Hp. induction l as [|y l IH]; simpl; auto.
  destruct (lt (key y) (key x)) eqn:E; simpl; auto.
  simpl in IH. rewrite IH.
  destruct (p x) eqn:Px, (p y) eqn:Py; auto.
  rewrite (Hp y eq_refl Py) in E. discriminate.
Qed.

Lemma sort_by_key_stable (p : A -> bool) l :
  (forall x y, p x = true -> p y = true -> lt (key y) (key x) = false) ->
  filter p (sort_by_key key lt l) = filter p l.
Proof.
  intros Hp. induction l as [|x l IH]; simpl; auto.
  rewrite insert_by_key_filter by (intros y; apply Hp).
  simpl. now rewrite IH.
Qed.

End SortFacts.

Lemma key2_lt_asym a b : key2_lt a b = true -> key2_lt b a = false.
Proof.
  unfold key2_lt, bool_lt. destruct a as [[|] x], b as [[|] y]; simpl;
    try discriminate; auto; intros H; apply Z.ltb_lt in H;
    apply Z.ltb_ge; lia.
Qed.

Lemma _matches_list_filter_run task lf w :
  exists w',
    _matches_list_filter task lf w
    = (Ok (matches_list_filter_on (colombo_date (clock w O)) task lf), w') /\
    TASKS w' = TASKS w /\
    (w' = w \/ w' = tick w).
Proof.
  unfold _matches_list_filter, matches_list_filter_on.
  destruct lf as [[| |]|]; try destruct (Task.due_datetime task);
    run_py; eauto.
Qed.

(** * Further properties of the handlers *)

(** ** What a request stores *)

(** The task [create_task] builds: the event id is drawn first, then the
    task id. *)
Definition created_task (w : World) (payload : TaskCreate) : Task :=
  match TaskCreate.calendar_event payload with
  | Some c =>
      Task.mk (TaskCreate.title payload) (TaskCreate.note payload)
        (TaskCreate.due_datetime payload) (TaskCreate.completed payload)
        (entropy w 1%nat)
        (Some (CalendarEvent.mk c
                 ("evt_" ++ uuid_canonical (entropy w O))%string))
        []
  | None =>
      Task.mk (TaskCreate.title payload) (TaskCreate.note payload)
        (TaskCreate.due_datetime payload) (TaskCreate.completed payload)
        (entropy w O) None []
  end.

(** The task [_apply_task_update] returns. *)
Definition patched_task (w : World) (task : Task) (patch : TaskUpdate) : Task :=
  match fst (_apply_task_update task patch w) with
  | Ok task' => task'
  | Raise _ => task
  end.

(** The subtask [create_subtask] builds for the stored task [task]. *)
Definition created_subtask (w : World) (task : Task) (payload : SubTaskCreate)
  : SubTask :=
  let st :=
    SubTask.mk (SubTaskCreate.title payload)
               (SubTaskCreate.due_datetime payload)
               (SubTaskCreate.completed payload)
               (SubTaskCreate.add_to_calendar payload)
               (SubTaskCreate.event_duration_minutes payload)
               (SubTaskCreate.calendar_id payload)
               (SubTaskCreate.calendar_event_id payload)
               (entropy w O) (Task.id task) (clock w O) (clock w 1%nat) in
  if SubTaskCreate.add_to_calendar payload
     && is_None (SubTaskCreate.calendar_event_id payload)
     && opt_str_truthy (SubTaskCreate.calendar_id payload)
  then SubTask.set_calendar_event_id
         (Some ("evt_" ++ uuid_canonical (entropy w 1%nat))%string) st
  else st.

(** The subtask [update_subtask] leaves in place of [st]. *)
Definition updated_subtask (w : World) (st : SubTask) (patch : SubTaskUpdate)
  : SubTask :=
  let st1 := apply_subtask_fields st patch in
  SubTask.set_updated_at (clock w O)
    (if SubTask.add_to_calendar st1
        && opt_str_truthy (SubTask.calendar_id st1)
        && negb (opt_str_truthy (SubTask.calendar_event_id st1))
     then SubTask.set_calendar_event_id
            (Some ("evt_" ++ uuid_canonical (entropy w O))%string) st1
     else st1).

(** The subtask [complete_subtask] ([b = true]) and [undo_subtask] leave in
    place of [st]. *)
Definition toggled_subtask (w : World) (b : bool) (st : SubTask) : SubTask :=
  SubTask.set_updated_at (clock w O) (SubTask.set_completed b st).

(** The value the stored task [task] has after the request, for the
    requests that write to a task they are addressed to. *)
Definition written_task (r : Request) (w : World) (task : Task)
  : option Task :=
  let rewrite_subtask s f :=
    match find_subtask s (Task.subtasks task) with
    | Some st =>
        Some (Task.set_subtasks
                (mutate_subtask s (f st) (Task.subtasks task)) task)
    | None => None
    end in
  match r with
  | PATCH_task _ patch => Some (patched_task w task patch)
  | POST_task_complete _ => Some (Task.set_completed true task)
  | POST_task_undo _ => Some (Task.set_completed false task)
  | POST_subtasks _ payload =>
      Some (Task.set_subtasks
              (Task.subtasks task ++ [created_subtask w task payload]) task)
  | PATCH_subtask _ s patch =>
      rewrite_subtask s (fun st => updated_subtask w st patch)
  | POST_subtask_complete _ s => rewrite_subtask s (toggled_subtask w true)
  | POST_subtask_undo _ s => rewrite_subtask s (toggled_subtask w false)
  | DELETE_subtask _ s =>
      match find_subtask s (Task.subtasks task) with
      | Some st =>
          Some (Task.set_subtasks
                  (filter
                     (fun x => negb (N.eqb (SubTask.id x) (SubTask.id st)))
                     (Task.subtasks task)) task)
      | None => None
      end
  | _ => None
  end.

(** The store after the request. *)
Definition next_store (r : Request) (w : World) : dict Task :=
  match r with
  | POST_tasks payload =>
      dict_set (Task.id (created_task w payload)) (created_task w payload)
               (TASKS w)
  | DELETE_task i =>
      match dict_get i (TASKS w) with
      | Some _ => dict_del i (TASKS w)
      | None => TASKS w
      end
  | _ =>
      match request_task_id r with
      | Some i =>
          match dict_get i (TASKS w) with
          | Some task =>
              match written_task r w task with
              | Some task' => dict_set i task' (TASKS w)
              | None => TASKS w
              end
          | None => TASKS w
          end
      | None => TASKS w
      end
  end.

(** The store does not hold what the request is addressed to: no task
    under its task id, or no subtask with its subtask id in that task. *)
Definition request_fails (r : Request) (w : World) : bool :=
  match request_task_id r with
  | Some i =>
      match dict_get i (TASKS w) with
      | Some task =>
          match request_subtask_id r with
          | Some s => is_None (find_subtask s (Task.subtasks task))
          | None => false
          end
      | None => true
      end
  | None => false
  end.

(** The two listings: they compare datetimes, and List Tasks converts
    them. *)
Definition is_listing (r : Request) : bool :=
  match r with
  | GET_tasks _ _ _ _ | GET_subtasks _ => true
  | _ => false
  end.

(** The requests that only read. *)
Definition is_read (r : Request) : bool :=
  match r with
  | GET_tasks _ _ _ _ | GET_task _ | GET_subtasks _ => true
  | _ => false
  end.

Lemma create_task_run payload w :
  create_task payload w
  = (Ok (created_task w payload),
     mkWorld
       (dict_set (Task.id (created_task w payload)) (created_task w payload)
                 (TASKS w))
       (match TaskCreate.calendar_event payload with
        | Some _ => fun n => entropy w (S (S n))
        | None => fun n => entropy w (S n)
        end)
       (clock w)).
Proof.
  unfold create_task, created_task, _fake_provider_event_id. run_py.
  destruct (TaskCreate.calendar_event payload); reflexivity.
Qed.

Lemma update_task_run task_id task patch w :
  dict_get task_id (TASKS w) = Some task ->
  update_task task_id patch w
  = (Ok (patched_task w task patch),
     mkWorld (dict_set task_id (patched_task w task patch) (TASKS w))
             (entropy (snd (_apply_task_update task patch w)))
             (clock w)).
Proof.
  intros Hget. rewrite (update_task_found _ _ patch _ Hget).
  unfold patched_task.
  destruct (apply_task_update_total task patch w)
    as (t' & Hok & HT & HC & _).
  destruct (_apply_task_update task patch w) as [[x|e] w'];
    simpl in *; [|discriminate].
  unfold set_TASKS. now rewrite HT, HC.
Qed.

(** The handlers against the store transition [next_store]. *)
Lemma handle_next_store r w : TASKS (snd (handle r w)) = next_store r w.
Proof.
  destruct r as [lf q f t|p|i|i p|i|i|i|i|i p|i s p|i s|i s|i s];
    cbn [next_store request_task_id].
  - unfold handle, list_tasks, TaskListQuery_check_range.
    destruct (range_inverted f t); [reflexivity|]. run_py.
    destruct (scan_tasks_total (dict_values (TASKS w)) lf q f t w)
      as (items & w' & -> & HT & _). exact HT.
  - unfold handle, bind. now rewrite create_task_run.
  - destruct (dict_get i (TASKS w)) as [task|] eqn:Hget.
    + unfold handle, get_task, bind.
      now rewrite (_get_task_or_404_found _ _ _ Hget).
    + destruct (handle_task_absent (GET_task i) i w eq_refl Hget)
        as (d & ->). reflexivity.
  - destruct (dict_get i (TASKS w)) as [task|] eqn:Hget.
    + unfold handle, bind. now rewrite (update_task_run _ _ p _ Hget).
    + destruct (handle_task_absent (PATCH_task i p) i w eq_refl Hget)
        as (d & ->). reflexivity.
  - destruct (dict_get i (TASKS w)) as [task|] eqn:Hget.
    + unfold handle, bind. now rewrite (delete_task_found _ _ _ Hget).
    + destruct (handle_task_absent (DELETE_task i) i w eq_refl Hget)
        as (d & ->). reflexivity.
  - destruct (dict_get i (TASKS w)) as [task|] eqn:Hget.
    + unfold handle, bind.
      now rewrite (set_task_completed_found true _ _ _ Hget).
    + destruct (handle_task_absent (POST_task_complete i) i w eq_refl Hget)
        as (d & ->). reflexivity.
  - destruct (dict_get i (TASKS w)) as [task|] eqn:Hget.
    + unfold handle, bind.
      now rewrite (set_task_completed_found false _ _ _ Hget).
    + destruct (handle_task_absent (POST_task_undo i) i w eq_refl Hget)
        as (d & ->). reflexivity.
  - destruct (dict_get i (TASKS w)) as [task|] eqn:Hget.
    + unfold handle, list_subtasks, bind.
      now rewrite (_get_task_or_404_found _ _ _ Hget).
    + destruct (handle_task_absent (GET_subtasks i) i w eq_refl Hget)
        as (d & ->). reflexivity.
  - destruct (dict_get i (TASKS w)) as [task|] eqn:Hget.
    + unfold handle, bind. rewrite (create_subtask_found _ _ p _ Hget).
      reflexivity.
    + destruct (handle_task_absent (POST_subtasks i p) i w eq_refl Hget)
        as (d & ->). reflexivity.
  - destruct (dict_get i (TASKS w)) as [task|] eqn:Hget.
    + unfold written_task.
      destruct (find_subtask s (Task.subtasks task)) as [st|] eqn:Hfind.
      * unfold handle, bind.
        rewrite (update_subtask_found _ _ _ _ p _ Hget Hfind). reflexivity.
      * destruct (handle_subtask_absent (PATCH_subtask i s p) i s task w
                    eq_refl eq_refl Hget Hfind) as (d & ->). reflexivity.
    + destruct (handle_task_absent (PATCH_subtask i s p) i w eq_refl Hget)
        as (d & ->). reflexivity.
  - destruct (dict_get i (TASKS w)) as [task|] eqn:Hget.
    + unfold written_task.
      destruct (find_subtask s (Task.subtasks task)) as [st|] eqn:Hfind.
      * unfold handle, bind.
        rewrite (delete_subtask_found _ _ _ _ _ Hget Hfind). reflexivity.
      * destruct (handle_subtask_absent (DELETE_subtask i s) i s task w
                    eq_refl eq_refl Hget Hfind) as (d & ->). reflexivity.
    + destruct (handle_task_absent (DELETE_subtask i s) i w eq_refl Hget)
        as (d & ->). reflexivity.
  - destruct (dict_get i (TASKS w)) as [task|] eqn:Hget.
    + unfold written_task.
      destruct (find_subtask s (Task.subtasks task)) as [st|] eqn:Hfind.
      * unfold handle, bind.
        rewrite (set_subtask_completed_found true _ _ _ _ _ Hget Hfind).
        reflexivity.
      * destruct (handle_subtask_absent (POST_subtask_complete i s) i s task
                    w eq_refl eq_refl Hget Hfind) as (d & ->). reflexivity.
    + destruct (handle_task_absent (POST_subtask_complete i s) i w eq_refl
                  Hget) as (d & ->). reflexivity.
  - destruct (dict_get i (TASKS w)) as [task|] eqn:Hget.
    + unfold written_task.
      destruct (find_subtask s (Task.subtasks task)) as [st|] eqn:Hfind.
      * unfold handle, bind.
        rewrite (set_subtask_completed_found false _ _ _ _ _ Hget Hfind).
        reflexivity.
      * destruct (handle_subtask_absent (POST_subtask_undo i s) i s task
                    w eq_refl eq_refl Hget Hfind) as (d & ->). reflexivity.
    + destruct (handle_task_absent (POST_subtask_undo i s) i w eq_refl
                  Hget) as (d & ->). reflexivity.
Qed.

(** ** When a request raises, and what a read changes *)

Ltac found_by L :=
  unfold handle, get_task, list_subtasks, bind; rewrite L; reflexivity.

Ltac absent_by L :=
  let d := fresh "d" in
  let E := fresh "E" in
  destruct L as (d & E); rewrite E; reflexivity.

(** X1. A request other than the two listings raises exactly in these
    cases: it is addressed by a task id and the store holds no task under
    it; it is addressed by a subtask id and the task holds no subtask with
    it.  So Create Task never raises.  What is raised is HTTP 404. *)
Theorem handle_raises_exactly_when :
  forall (r : Request) (w : World),
    is_listing r = false ->
    raises (fst (handle r w)) = request_fails r w /\
    raises_NotFound (fst (handle r w)) = request_fails r w.
Proof.
  intros r w Hr.
  destruct r as [lf q f t|p|i|i p|i|i|i|i|i p|i s p|i s|i s|i s];
    try discriminate Hr; clear Hr;
    cbn [request_fails request_task_id request_subtask_id].
  - unfold handle, bind. rewrite create_task_run. split; reflexivity.
  - destruct (dict_get i (TASKS w)) as [task|] eqn:Hget.
    + split; found_by (_get_task_or_404_found _ _ _ Hget).
    + split; absent_by (handle_task_absent (GET_task i) i w eq_refl Hget).
  - destruct (dict_get i (TASKS w)) as [task|] eqn:Hget.
    + split; found_by (update_task_run _ _ p _ Hget).
    + split; absent_by (handle_task_absent (PATCH_task i p) i w eq_refl Hget).
  - destruct (dict_get i (TASKS w)) as [task|] eqn:Hget.
    + split; found_by (delete_task_found _ _ _ Hget).
    + split; absent_by (handle_task_absent (DELETE_task i) i w eq_refl Hget).
  - destruct (dict_get i (TASKS w)) as [task|] eqn:Hget.
    + split; found_by (set_task_completed_found true _ _ _ Hget).
    + split; absent_by
               (handle_task_absent (POST_task_complete i) i w eq_refl Hget).
  - destruct (dict_get i (TASKS w)) as [task|] eqn:Hget.
    + split; found_by (set_task_completed_found false _ _ _ Hget).
    + split; absent_by
               (handle_task_absent (POST_task_undo i) i w eq_refl Hget).
  - destruct (dict_get i (TASKS w)) as [task|] eqn:Hget.
    + split; found_by (create_subtask_found _ _ p _ Hget).
    + split; absent_by
               (handle_task_absent (POST_subtasks i p) i w eq_refl Hget).
  - destruct (dict_get i (TASKS w)) as [task|] eqn:Hget;
      [destruct (find_subtask s (Task.subtasks task)) as [st|] eqn:Hfind|].
    + split; found_by (update_subtask_found _ _ _ _ p _ Hget Hfind).
    + split; absent_by
               (handle_subtask_absent (PATCH_subtask i s p) i s task w
                  eq_refl eq_refl Hget Hfind).
    + split; absent_by
               (handle_task_absent (PATCH_subtask i s p) i w eq_refl Hget).
  - destruct (dict_get i (TASKS w)) as [task|] eqn:Hget;
      [destruct (find_subtask s (Task.subtasks task)) as [st|] eqn:Hfind|].
    + split; found_by (delete_subtask_found _ _ _ _ _ Hget Hfind).
    + split; absent_by
               (handle_subtask_absent (DELETE_subtask i s) i s task w
                  eq_refl eq_refl Hget Hfind).
    + split; absent_by
               (handle_task_absent (DELETE_subtask i s) i w eq_refl Hget).
  - destruct (dict_get i (TASKS w)) as [task|] eqn:Hget;
      [destruct (find_subtask s (Task.subtasks task)) as [st|] eqn:Hfind|].
    + split; found_by (set_subtask_completed_found true _ _ _ _ _ Hget Hfind).
    + split; absent_by
               (handle_subtask_absent (POST_subtask_complete i s) i s task w
                  eq_refl eq_refl Hget Hfind).
    + split; absent_by
               (handle_task_absent (POST_subtask_complete i s) i w eq_refl
                  Hget).
  - destruct (dict_get i (TASKS w)) as [task|] eqn:Hget;
      [destruct (find_subtask s (Task.subtasks task)) as [st|] eqn:Hfind|].
    + split; found_by (set_subtask_completed_found false _ _ _ _ _ Hget Hfind).
    + split; absent_by
               (handle_subtask_absent (POST_subtask_undo i s) i s task w
                  eq_refl eq_refl Hget Hfind).
    + split; absent_by
               (handle_task_absent (POST_subtask_undo i s) i w eq_refl Hget).
Qed.

(** The scan of [list_tasks] reads the clock at most once per task. *)
Lemma scan_tasks_clock (tasks : list Task) lf q f t w :
  exists items w' k,
    scan_tasks tasks lf q f t w = (Ok items, w') /\
    TASKS w' = TASKS w /\
    entropy w' = entropy w /\
    (k <= List.length tasks)%nat /\
    forall n, clock w' n = clock w (k + n)%nat.
Proof.
  revert w. induction tasks as [|task rest IH]; intros w; simpl.
  - exists [], w, O. repeat split; auto.
  - assert (Hskip : exists items w' k,
               scan_tasks rest lf q f t w = (Ok items, w') /\
               TASKS w' = TASKS w /\ entropy w' = entropy w /\
               (k <= S (List.length rest))%nat /\
               forall n, clock w' n = clock w (k + n)%nat).
    { destruct (IH w) as (items & w' & k & H1 & H2 & H3 & H4 & H5).
      exists items, w', k. repeat split; auto. }
    destruct (negb (_matches_query task q)); [exact Hskip|].
    destruct (negb (_in_due_range task f t)); [exact Hskip|].
    destruct (_matches_list_filter_run task lf w) as (w1 & Hm & HT & Hw1).
    destruct (IH w1) as (items & w2 & k & Hs & HT2 & HE2 & Hk & Hc).
    unfold bind. rewrite Hm, Hs. unfold ret.
    destruct Hw1 as [->| ->].
    + eexists. exists w2, k. repeat split; auto.
    + eexists. exists w2, (S k). repeat split; auto; lia.
Qed.

(** X2. The three GET requests never change the store and never draw an
    identifier.  Get Task and List Subtasks leave the whole world as it
    was, raised or not; List Tasks only moves the clock on, by at most one
    reading per stored task. *)
Theorem read_requests_change_nothing :
  forall (r : Request) (w : World),
    is_read r = true ->
    TASKS (snd (handle r w)) = TASKS w /\
    entropy (snd (handle r w)) = entropy w /\
    match r with
    | GET_tasks _ _ _ _ =>
        exists k,
          (k <= List.length (TASKS w))%nat /\
          forall n, clock (snd (handle r w)) n = clock w (k + n)%nat
    | _ => snd (handle r w) = w
    end.
Proof.
  intros r w Hread.
  destruct r as [lf q f t|p|i|i p|i|i|i|i|i p|i s p|i s|i s|i s];
    try discriminate.
  - unfold handle, list_tasks, TaskListQuery_check_range.
    destruct (range_inverted f t).
    { simpl. repeat split. exists O. split; [lia|reflexivity]. }
    run_py.
    destruct (scan_tasks_clock (dict_values (TASKS w)) lf q f t w)
      as (items & w' & k & -> & HT & HE & Hk & Hc).
    simpl. repeat split; auto.
    exists k. split; auto.
    unfold dict_values in Hk. now rewrite length_map in Hk.
  - destruct (dict_get i (TASKS w)) as [task|] eqn:Hget.
    + unfold handle, get_task, bind.
      rewrite (_get_task_or_404_found _ _ _ Hget). repeat split.
    + destruct (handle_task_absent (GET_task i) i w eq_refl Hget)
        as (d & ->). repeat split.
  - destruct (dict_get i (TASKS w)) as [task|] eqn:Hget.
    + unfold handle, list_subtasks, bind.
      rewrite (_get_task_or_404_found _ _ _ Hget). repeat split.
    + destruct (handle_task_absent (GET_subtasks i) i w eq_refl Hget)
        as (d & ->). repeat split.
Qed.

(** ** Creating a task, and the tasks a request leaves alone *)

Lemma dict_set_fresh {V} (k : UUID) (v : V) (d : dict V) :
  dict_get k d = None -> dict_set k v d = d ++ [(k, v)].
Proof.
  induction d as [|[k' v'] d IH]; simpl; auto.
  destruct (N.eqb k k'); [discriminate|]. intros H. now rewrite IH.
Qed.

Lemma dict_set_keys {V} (k : UUID) (v v0 : V) (d : dict V) :
  dict_get k d = Some v0 -> map fst (dict_set k v d) = map fst d.
Proof.
  induction d as [|[k' v'] d IH]; simpl; [discriminate|].
  destruct (N.eqb k k') eqn:E; simpl; intros H.
  - apply N.eqb_eq in E. now subst.
  - now rewrite IH.
Qed.

Lemma dict_set_same_value {V} (k : UUID) (v : V) (d : dict V) :
  dict_get k d = Some v -> dict_set k v d = d.
Proof.
  induction d as [|[k' v'] d IH]; simpl; [discriminate|].
  destruct (N.eqb k k') eqn:E; intros H.
  - apply N.eqb_eq in E. inversion H. now subst.
  - now rewrite IH.
Qed.

Lemma dict_del_keys {V} (k : UUID) (d : dict V) :
  map fst (dict_del k d) = filter (fun k' => negb (N.eqb k k')) (map fst d).
Proof.
  unfold dict_del. induction d as [|[k' v'] d IH]; simpl; auto.
  destruct (N.eqb k k'); simpl; now rewrite IH.
Qed.

(** X3. Create Task never raises.  The task it returns carries the
    payload's title, note, due date and completed flag, no subtasks, and a
    calendar event exactly when the payload asks for one, made of the
    requested fields and a non-empty issued event id.  Fetching the
    returned id right afterwards gives that very task back, and the tasks
    stored under other ids are as they were. *)
Theorem create_task_then_get :
  forall (w : World) (payload : TaskCreate),
  exists task : Task,
    fst (create_task payload w) = Ok task /\
    Task.title task = TaskCreate.title payload /\
    Task.note task = TaskCreate.note payload /\
    Task.due_datetime task = TaskCreate.due_datetime payload /\
    Task.completed task = TaskCreate.completed payload /\
    Task.subtasks task = [] /\
    match TaskCreate.calendar_event payload with
    | None => Task.calendar_event task = None
    | Some c =>
        exists eid,
          fst (_fake_provider_event_id w) = Ok eid /\
          eid <> EmptyString /\
          Task.calendar_event task = Some (CalendarEvent.mk c eid)
    end /\
    get_task (Task.id task) (snd (create_task payload w))
    = (Ok task, snd (create_task payload w)) /\
    forall k, k <> Task.id task ->
      dict_get k (TASKS (snd (create_task payload w)))
      = dict_get k (TASKS w).
Proof.
  intros w payload. rewrite create_task_run. simpl fst. simpl snd.
  exists (created_task w payload). split; [reflexivity|].
  unfold created_task.
  destruct (TaskCreate.calendar_event payload) as [c|]; simpl;
    repeat split; auto.
  - eexists. split; [reflexivity|]. split; [discriminate|reflexivity].
  - unfold get_task. apply _get_task_or_404_found. simpl.
    apply dict_get_set_same.
  - intros k Hk. apply dict_get_set_other. congruence.
  - unfold get_task. apply _get_task_or_404_found. simpl.
    apply dict_get_set_same.
  - intros k Hk. apply dict_get_set_other. congruence.
Qed.

(** X4. Where Create Task puts the task: under an id the store does not
    hold yet it comes last in the store's order, after all the tasks that
    were there, which stay as they were; under an id the store already
    holds it takes that task's place, and the old task with its subtasks
    is gone. *)
Theorem create_task_placement :
  forall (w : World) (payload : TaskCreate),
  exists task : Task,
    fst (create_task payload w) = Ok task /\
    (dict_get (Task.id task) (TASKS w) = None ->
     TASKS (snd (create_task payload w))
     = TASKS w ++ [(Task.id task, task)]) /\
    (forall old,
        dict_get (Task.id task) (TASKS w) = Some old ->
        map fst (TASKS (snd (create_task payload w))) = map fst (TASKS w) /\
        dict_get (Task.id task) (TASKS (snd (create_task payload w)))
        = Some task /\
        Task.subtasks task = []).
Proof.
  intros w payload. rewrite create_task_run. simpl fst. simpl snd.
  exists (created_task w payload). split; [reflexivity|]. simpl TASKS.
  split.
  - apply dict_set_fresh.
  - intros old Hold. split; [now apply (dict_set_keys _ _ old)|].
    split; [apply dict_get_set_same|].
    unfold created_task. now destruct (TaskCreate.calendar_event payload).
Qed.

(** X5. A request addressed by a task id leaves every task stored under
    another id exactly as it was.  Unless it is Delete Task it also leaves
    the set and the order of the stored ids as they were; Delete Task
    removes its id from them and nothing else. *)
Theorem request_touches_only_its_task :
  forall (r : Request) (w : World) (i : UUID),
    request_task_id r = Some i ->
    (forall k, k <> i ->
       dict_get k (TASKS (snd (handle r w))) = dict_get k (TASKS w)) /\
    map fst (TASKS (snd (handle r w)))
    = match r with
      | DELETE_task _ =>
          filter (fun k => negb (N.eqb i k)) (map fst (TASKS w))
      | _ => map fst (TASKS w)
      end.
Proof.
  intros r w i Hr. rewrite handle_next_store.
  assert (Hdel : forall d : dict Task,
             dict_get i d = None ->
             map fst d = filter (fun k => negb (N.eqb i k)) (map fst d)).
  { intros d. induction d as [|[k' v'] d IH]; simpl; auto.
    destruct (N.eqb i k'); [discriminate|]. simpl. intros H.
    now rewrite <- IH. }
  destruct r as [lf q f t|p|j|j p|j|j|j|j|j p|j s p|j s|j s|j s];
    simpl in Hr; inversion Hr; subst j; clear Hr;
    cbn [next_store request_task_id];
    destruct (dict_get i (TASKS w)) as [task|] eqn:Hget;
    try (split; [reflexivity|auto]; fail);
    try (destruct (written_task _ w task) as [task'|];
         [split; [intros k Hk; now apply dict_get_set_other
                 |now apply (dict_set_keys _ _ task)]
         |split; reflexivity]).
  split; [intros k Hk; now apply dict_get_del_other|apply dict_del_keys].
Qed.

(** ** Updating a task; completing and undoing *)

Lemma world_eta w : mkWorld (TASKS w) (entropy w) (clock w) = w.
Proof. now destruct w. Qed.

Lemma task_set_completed_same task :
  Task.set_completed (Task.completed task) task = task.
Proof. now destruct task. Qed.

Lemma apply_task_scalars_fields task patch :
  let task' := apply_task_scalars task patch in
  Task.title task'
  = match TaskUpdate.title patch with
    | Some v => v
    | None => Task.title task
    end /\
  Task.note task'
  = match TaskUpdate.note patch with
    | Some v => Some v
    | None => Task.note task
    end /\
  Task.due_datetime task'
  = match TaskUpdate.due_datetime patch with
    | Some v => Some v
    | None => Task.due_datetime task
    end /\
  Task.completed task'
  = match TaskUpdate.completed patch with
    | Some v => v
    | None => Task.completed task
    end.
Proof.
  unfold apply_task_scalars.
  destruct (TaskUpdate.title patch), (TaskUpdate.note patch),
    (TaskUpdate.due_datetime patch), (TaskUpdate.completed patch);
    repeat split.
Qed.

(** X6. Update Task on a stored task never raises.  Each of title, note,
    due date and completed that the patch gives a value takes that value,
    the others keep theirs; the id and the subtasks are kept; and fetching
    the task right afterwards returns the task the update returned. *)
Theorem update_task_overwrites_supplied_scalars :
  forall (w : World) (task_id : UUID) (task : Task) (patch : TaskUpdate),
    dict_get task_id (TASKS w) = Some task ->
    exists task' : Task,
      fst (update_task task_id patch w) = Ok task' /\
      get_task task_id (snd (update_task task_id patch w))
      = (Ok task', snd (update_task task_id patch w)) /\
      Task.title task'
      = match TaskUpdate.title patch with
        | Some v => v
        | None => Task.title task
        end /\
      Task.note task'
      = match TaskUpdate.note patch with
        | Some v => Some v
        | None => Task.note task
        end /\
      Task.due_datetime task'
      = match TaskUpdate.due_datetime patch with
        | Some v => Some v
        | None => Task.due_datetime task
        end /\
      Task.completed task'
      = match TaskUpdate.completed patch with
        | Some v => v
        | None => Task.completed task
        end /\
      Task.id task' = Task.id task /\
      Task.subtasks task' = Task.subtasks task.
Proof.
  intros w task_id task patch Hget.
  rewrite (update_task_run _ _ patch _ Hget). simpl fst. simpl snd.
  exists (patched_task w task patch). split; [reflexivity|].
  split.
  { unfold get_task. apply _get_task_or_404_found. simpl.
    apply dict_get_set_same. }
  unfold patched_task.
  destruct (apply_task_update_total task patch w)
    as (t' & Hok & _ & _ & Hid & Hsub & _).
  pose proof (apply_task_update_scalars task patch w t' Hok)
    as (Ht & Hn & Hd & Hc).
  pose proof (apply_task_scalars_fields task patch) as F. cbv zeta in F.
  destruct F as (Ft & Fn & Fd & Fc).
  rewrite Hok. repeat split; congruence.
Qed.

(** X7. A patch that gives no scalar a value and does not supply
    [calendar_event] (an empty patch, or one that supplies scalars as
    null) returns the stored task and leaves the world exactly as it
    was. *)
Theorem update_task_empty_patch_is_noop :
  forall (w : World) (task_id : UUID) (task : Task) (patch : TaskUpdate),
    dict_get task_id (TASKS w) = Some task ->
    TaskUpdate.title patch = None ->
    TaskUpdate.note patch = None ->
    TaskUpdate.due_datetime patch = None ->
    TaskUpdate.completed patch = None ->
    in_fields_set "calendar_event" (TaskUpdate.model_fields_set patch)
    = false ->
    update_task task_id patch w = (Ok task, w).
Proof.
  intros w task_id task patch Hget Ht Hn Hd Hc Hset.
  rewrite (update_task_found _ _ patch _ Hget).
  unfold _apply_task_update, apply_task_scalars.
  rewrite Ht, Hn, Hd, Hc, Hset. run_py.
  rewrite (dict_set_same_value _ _ _ Hget). now rewrite world_eta.
Qed.

(** X8. Complete and Undo undo each other on a task: after setting
    [completed] to [b] and then to its opposite, the stored task has the
    opposite of [b]; and when the task had that value to begin with, the
    second request returns the original task and the world is exactly the
    one before the two requests. *)
Theorem complete_then_undo_restores :
  forall (b : bool) (w : World) (task_id : UUID) (task : Task),
    dict_get task_id (TASKS w) = Some task ->
    let first := if b then complete_task else undo_task in
    let second := if b then undo_task else complete_task in
    exists task',
      fst (second task_id (snd (first task_id w))) = Ok task' /\
      task' = Task.set_completed (negb b) task /\
      dict_get task_id (TASKS (snd (second task_id (snd (first task_id w)))))
      = Some task' /\
      (Task.completed task = negb b ->
       second task_id (snd (first task_id w)) = (Ok task, w)).
Proof.
  intros b w task_id task Hget. cbv zeta.
  assert (Hsecond : (if b then undo_task else complete_task)
                    = (if negb b then complete_task else undo_task))
    by now destruct b.
  rewrite Hsecond.
  rewrite (set_task_completed_found b _ _ _ Hget). simpl snd.
  rewrite (set_task_completed_found (negb b) task_id
             (Task.set_completed b task))
    by apply dict_get_set_same.
  unfold set_TASKS. simpl. rewrite dict_set_set.
  eexists. split; [reflexivity|]. split; [reflexivity|].
  split; [apply dict_get_set_same|].
  intros Hc.
  assert (Hback : Task.set_completed (negb b) task = task).
  { rewrite <- Hc. apply task_set_completed_same. }
  change (Task.set_completed (negb b) (Task.set_completed b task))
    with (Task.set_completed (negb b) task).
  rewrite Hback. f_equal.
  transitivity (mkWorld (TASKS w) (entropy w) (clock w));
    [f_equal; now apply dict_set_same_value|apply world_eta].
Qed.

(** ** Deleting subtasks *)

Lemma find_subtask_filter_same s (l : list SubTask) :
  find_subtask s (filter (fun x => negb (N.eqb (SubTask.id x) s)) l) = None.
Proof.
  induction l as [|x l IH]; simpl; auto.
  destruct (N.eqb (SubTask.id x) s) eqn:E; simpl; auto.
  now rewrite E.
Qed.

Lemma find_subtask_filter_other s s' (l : list SubTask) :
  s' <> s ->
  find_subtask s' (filter (fun x => negb (N.eqb (SubTask.id x) s)) l)
  = find_subtask s' l.
Proof.
  intros Hne. induction l as [|x l IH]; simpl; auto.
  destruct (N.eqb (SubTask.id x) s) eqn:E; simpl.
  - apply N.eqb_eq in E.
    destruct (N.eqb (SubTask.id x) s') eqn:E'; auto.
    apply N.eqb_eq in E'. congruence.
  - now rewrite IH.
Qed.

Lemma filter_removes_found s (l : list SubTask) st :
  find_subtask s l = Some st ->
  (List.length (filter (fun x => negb (N.eqb (SubTask.id x) s)) l)
   < List.length l)%nat.
Proof.
  induction l as [|x l IH]; simpl; [discriminate|].
  destruct (N.eqb (SubTask.id x) s) eqn:E; simpl; intros H.
  - apply Nat.lt_succ_r, filter_length_le.
  - apply -> Nat.succ_lt_mono. now apply IH.
Qed.

(** X9. Delete Subtask on a stored subtask never raises.  It removes from
    the task every subtask that has the given id, so the list gets shorter
    and every later request addressed by that task id and subtask id
    raises NotFound; the other subtasks are kept, in their order, and can
    be found as before; the task's own fields, the generator and the clock
    are untouched. *)
Theorem delete_subtask_removes :
  forall (w : World) (task_id subtask_id : UUID) (task : Task)
         (st : SubTask),
    dict_get task_id (TASKS w) = Some task ->
    find_subtask subtask_id (Task.subtasks task) = Some st ->
    exists task' : Task,
      delete_subtask task_id subtask_id w
      = (Ok tt, set_TASKS (dict_set task_id task' (TASKS w)) w) /\
      task'
      = Task.set_subtasks
          (filter (fun x => negb (N.eqb (SubTask.id x) subtask_id))
                  (Task.subtasks task)) task /\
      find_subtask subtask_id (Task.subtasks task') = None /\
      (forall s, s <> subtask_id ->
         find_subtask s (Task.subtasks task')
         = find_subtask s (Task.subtasks task)) /\
      (List.length (Task.subtasks task')
       < List.length (Task.subtasks task))%nat /\
      forall r,
        request_task_id r = Some task_id ->
        request_subtask_id r = Some subtask_id ->
        raises_NotFound
          (fst (handle r (snd (delete_subtask task_id subtask_id w))))
        = true.
Proof.
  intros w task_id subtask_id task st Hget Hfind.
  pose proof (find_subtask_id _ _ _ Hfind) as Hid.
  rewrite (delete_subtask_found _ _ _ _ _ Hget Hfind). rewrite Hid.
  eexists. split; [reflexivity|]. split; [reflexivity|]. simpl.
  split; [apply find_subtask_filter_same|].
  split; [intros s Hs; now apply find_subtask_filter_other|].
  split; [eapply filter_removes_found; eauto|].
  intros r Hr Hs.
  destruct (handle_subtask_absent r task_id subtask_id
              (Task.set_subtasks
                 (filter (fun x => negb (N.eqb (SubTask.id x) subtask_id))
                         (Task.subtasks task)) task)
              (set_TASKS
                 (dict_set task_id
                    (Task.set_subtasks
                       (filter
                          (fun x => negb (N.eqb (SubTask.id x) subtask_id))
                          (Task.subtasks task)) task) (TASKS w)) w)
              Hr Hs) as (d & ->).
  - apply dict_get_set_same.
  - apply find_subtask_filter_same.
  - reflexivity.
Qed.

Lemma key3_lt_asym a b : key3_lt a b = true -> key3_lt b a = false.
Proof.
  unfold key3_lt, bool_lt. destruct a as [[[|] x] c], b as [[[|] y] c'];
    simpl; try discriminate; auto.
  all: destruct (Z.eqb_spec x y), (Z.eqb_spec y x); try congruence;
    intros H; apply Z.ltb_lt in H; apply Z.ltb_ge; lia.
Qed.

(** ** The free-text query *)

(** [sub] occurs in [s]. *)
Definition occurs_in (sub s : string) : Prop :=
  exists pre post, s = (pre ++ sub ++ post)%string.

Lemma prefix_app sub s :
  String.prefix sub s = true <-> exists post, s = (sub ++ post)%string.
Proof.
  revert s. induction sub as [|a sub IH]; intros s.
  - destruct s; simpl; split; eauto.
  - destruct s as [|b s]; simpl.
    + split; [discriminate|]. intros (post & H). discriminate.
    + destruct (ascii_dec a b) as [->|Hne].
      * rewrite IH. split; intros (post & H); exists post.
        -- now rewrite H.
        -- now inversion H.
      * split; [discriminate|]. intros (post & H). inversion H. congruence.
Qed.

Lemma str_contains_occurs sub s :
  str_contains sub s = true <-> occurs_in sub s.
Proof.
  unfold occurs_in. induction s as [|c s IH].
  - change (str_contains sub EmptyString)
      with (String.prefix sub EmptyString || false).
    rewrite orb_false_r, prefix_app. split.
    + intros (post & H). exists EmptyString, post. exact H.
    + intros (pre & post & H). destruct pre; simpl in H; [eauto|discriminate].
  - change (str_contains sub (String c s))
      with (String.prefix sub (String c s) || str_contains sub s).
    rewrite orb_true_iff, prefix_app, IH. split.
    + intros [(post & H)|(pre & post & H)].
      * exists EmptyString, post. exact H.
      * exists (String c pre), post. simpl. now rewrite H.
    + intros (pre & post & H). destruct pre as [|c' pre]; simpl in H.
      * left. eauto.
      * right. inversion H. eauto.
Qed.

(** X11. The free-text predicate: no query and the empty query match every
    task.  A non-empty query matches exactly when its lower-cased text
    occurs in the lower-cased title, or the task has a non-empty note in
    whose lower-cased text it occurs; so a task without a note is matched
    by its title alone, and two queries with the same lower-cased text
    match the same tasks. *)
Theorem matches_query_by_substring :
  forall (task : Task),
    _matches_query task None = true /\
    _matches_query task (Some EmptyString) = true /\
    (forall q, q <> EmptyString ->
       (_matches_query task (Some q) = true <->
        occurs_in (str_lower q) (str_lower (Task.title task)) \/
        exists note,
          Task.note task = Some note /\ note <> EmptyString /\
          occurs_in (str_lower q) (str_lower note))) /\
    (forall q q', q <> EmptyString -> q' <> EmptyString ->
       str_lower q = str_lower q' ->
       _matches_query task (Some q) = _matches_query task (Some q')).
Proof.
  intros task. split; [reflexivity|]. split; [reflexivity|].
  assert (Htruthy : forall q, q <> EmptyString -> str_truthy q = true).
  { intros q Hq. unfold str_truthy.
    destruct (String.eqb_spec q EmptyString); [contradiction|reflexivity]. }
  split.
  - intros q Hq. unfold _matches_query. rewrite (Htruthy q Hq). simpl.
    rewrite orb_true_iff, str_contains_occurs.
    destruct (Task.note task) as [note|].
    + rewrite andb_true_iff, str_contains_occurs. split.
      * intros [H|[Hn H]]; [now left|right].
        exists note. repeat split; auto.
        intros ->. discriminate.
      * intros [H|(n & Hn & Hne & H)]; [now left|right].
        inversion Hn; subst n. split; auto.
    + split.
      * intros [H|H]; [now left|discriminate].
      * intros [H|(n & Hn & _)]; [now left|discriminate].
  - intros q q' Hq Hq' Hl. unfold _matches_query.
    rewrite (Htruthy q Hq), (Htruthy q' Hq'). simpl. now rewrite Hl.
Qed.

(** ** Creating and rewriting subtasks *)

Lemma find_subtask_app_fresh s (l : list SubTask) st :
  find_subtask s l = None -> SubTask.id st = s ->
  find_subtask s (l ++ [st]) = Some st.
Proof.
  intros Hnone Hid. induction l as [|x l IH]; simpl in *.
  - now rewrite Hid, N.eqb_refl.
  - destruct (N.eqb (SubTask.id x) s); [discriminate|auto].
Qed.

Lemma find_subtask_app_old s (l : list SubTask) st x :
  find_subtask s l = Some x -> find_subtask s (l ++ [st]) = Some x.
Proof.
  induction l as [|y l IH]; simpl; [discriminate|].
  destruct (N.eqb (SubTask.id y) s); auto.
Qed.

(** X12. Create Subtask on a stored task: the new subtask copies the
    payload's fields, takes the next generated id, the owning task's id,
    and the next two clock readings as [created_at] and [updated_at].  A
    [calendar_event_id] the payload supplies, even an empty one, is kept
    as it is, and so is an absent one when [add_to_calendar] is false.
    The subtasks the task had stay first and findable as before, and the
    new one is found under its id when no older subtask has that id. *)
Theorem create_subtask_exact :
  forall (w : World) (task_id : UUID) (task : Task)
         (payload : SubTaskCreate),
    dict_get task_id (TASKS w) = Some task ->
    exists (st : SubTask) (task' : Task),
      fst (create_subtask task_id payload w) = Ok st /\
      dict_get task_id (TASKS (snd (create_subtask task_id payload w)))
      = Some task' /\
      task' = Task.set_subtasks (Task.subtasks task ++ [st]) task /\
      SubTask.title st = SubTaskCreate.title payload /\
      SubTask.due_datetime st = SubTaskCreate.due_datetime payload /\
      SubTask.completed st = SubTaskCreate.completed payload /\
      SubTask.add_to_calendar st = SubTaskCreate.add_to_calendar payload /\
      SubTask.event_duration_minutes st
      = SubTaskCreate.event_duration_minutes payload /\
      SubTask.calendar_id st = SubTaskCreate.calendar_id payload /\
      SubTask.id st = entropy w O /\
      SubTask.task_id st = Task.id task /\
      SubTask.created_at st = clock w O /\
      SubTask.updated_at st = clock w 1%nat /\
      (forall x, SubTaskCreate.calendar_event_id payload = Some x ->
         SubTask.calendar_event_id st = Some x) /\
      (SubTaskCreate.add_to_calendar payload = false ->
       SubTask.calendar_event_id st
       = SubTaskCreate.calendar_event_id payload) /\
      (forall s x, find_subtask s (Task.subtasks task) = Some x ->
         find_subtask s (Task.subtasks task') = Some x) /\
      (find_subtask (SubTask.id st) (Task.subtasks task) = None ->
       find_subtask (SubTask.id st) (Task.subtasks task') = Some st).
Proof.
  intros w task_id task payload Hget.
  rewrite (create_subtask_found _ _ payload _ Hget). cbv zeta.
  simpl fst. simpl snd. simpl TASKS.
  eexists. eexists. split; [reflexivity|].
  split; [apply dict_get_set_same|]. split; [reflexivity|].
  destruct (SubTaskCreate.add_to_calendar payload) eqn:Hadd;
    destruct (SubTaskCreate.calendar_event_id payload) as [x|] eqn:Hev;
    destruct (opt_str_truthy (SubTaskCreate.calendar_id payload));
    simpl; repeat split; auto; try discriminate;
    try (intros s y Hy; now apply find_subtask_app_old);
    try (intros Hnone; now apply find_subtask_app_fresh).
Qed.

(** The requests that rewrite one stored subtask. *)
Definition rewrites_subtask (r : Request) : bool :=
  match r with
  | PATCH_subtask _ _ _ | POST_subtask_complete _ _
  | POST_subtask_undo _ _ => true
  | _ => false
  end.

Lemma mutate_subtask_ids s st' (l : list SubTask) :
  SubTask.id st' = s ->
  map SubTask.id (mutate_subtask s st' l) = map SubTask.id l.
Proof.
  intros Hid. induction l as [|x l IH]; simpl; auto.
  destruct (N.eqb (SubTask.id x) s) eqn:E; simpl.
  - apply N.eqb_eq in E. congruence.
  - now rewrite IH.
Qed.

Lemma find_mutate_subtask_other s s' st' (l : list SubTask) :
  s' <> s -> SubTask.id st' = s ->
  find_subtask s' (mutate_subtask s st' l) = find_subtask s' l.
Proof.
  intros Hne Hid. induction l as [|x l IH]; simpl; auto.
  destruct (N.eqb (SubTask.id x) s) eqn:E; simpl.
  - apply N.eqb_eq in E.
    destruct (N.eqb (SubTask.id st') s') eqn:E1;
      [apply N.eqb_eq in E1; congruence|].
    destruct (N.eqb (SubTask.id x) s') eqn:E2;
      [apply N.eqb_eq in E2; congruence|reflexivity].
  - now rewrite IH.
Qed.

Lemma updated_subtask_fixed w st patch :
  SubTask.id (updated_subtask w st patch) = SubTask.id st /\
  SubTask.task_id (updated_subtask w st patch) = SubTask.task_id st /\
  SubTask.created_at (updated_subtask w st patch) = SubTask.created_at st /\
  SubTask.updated_at (updated_subtask w st patch) = clock w O.
Proof.
  unfold updated_subtask.
  pose proof (apply_subtask_fields_frame st patch) as F. cbv zeta in F.
  destruct F as (_ & _ & _ & _ & _ & _ & _ & _ & _ & _ & Fi & Ft & Fc).
  destruct (_ && _ && _); simpl; auto.
Qed.

(** X13. Update, Complete and Undo Subtask on a stored subtask rewrite
    that one subtask and nothing else in the task: the subtask keeps its
    id, its [task_id] and its [created_at] and gets the clock reading of
    the call as [updated_at]; the task keeps its own fields, and its list
    keeps the same ids in the same order, with every subtask under
    another id unchanged. *)
Theorem subtask_rewrite_frame :
  forall (r : Request) (w : World) (task_id subtask_id : UUID)
         (task : Task) (st : SubTask),
    rewrites_subtask r = true ->
    request_task_id r = Some task_id ->
    request_subtask_id r = Some subtask_id ->
    dict_get task_id (TASKS w) = Some task ->
    find_subtask subtask_id (Task.subtasks task) = Some st ->
    exists (st' : SubTask) (task' : Task),
      fst (handle r w) = Ok (SubTaskBody st') /\
      dict_get task_id (TASKS (snd (handle r w))) = Some task' /\
      find_subtask subtask_id (Task.subtasks task') = Some st' /\
      SubTask.id st' = SubTask.id st /\
      SubTask.task_id st' = SubTask.task_id st /\
      SubTask.created_at st' = SubTask.created_at st /\
      SubTask.updated_at st' = clock w O /\
      Task.set_subtasks (Task.subtasks task) task' = task /\
      map SubTask.id (Task.subtasks task')
      = map SubTask.id (Task.subtasks task) /\
      forall s, s <> subtask_id ->
        find_subtask s (Task.subtasks task')
        = find_subtask s (Task.subtasks task).
Proof.
  intros r w task_id subtask_id task st Hrw Hr Hs Hget Hfind.
  pose proof (find_subtask_id _ _ _ Hfind) as Hid.
  assert (Hframe : forall st' : SubTask,
             SubTask.id st' = SubTask.id st ->
             let task' :=
               Task.set_subtasks
                 (mutate_subtask subtask_id st' (Task.subtasks task)) task in
             find_subtask subtask_id (Task.subtasks task') = Some st' /\
             Task.set_subtasks (Task.subtasks task) task' = task /\
             map SubTask.id (Task.subtasks task')
             = map SubTask.id (Task.subtasks task) /\
             forall s, s <> subtask_id ->
               find_subtask s (Task.subtasks task')
               = find_subtask s (Task.subtasks task)).
  { intros st' Hid'. cbv zeta. simpl.
    split; [apply (find_mutate_subtask _ _ st); congruence|].
    split; [now destruct task|].
    split; [apply mutate_subtask_ids; congruence|].
    intros s Hne. apply find_mutate_subtask_other; congruence. }
  destruct r as [lf q f t|p|i|i p|i|i|i|i|i p|i s p|i s|i s|i s];
    try discriminate; simpl in Hr, Hs; inversion Hr; inversion Hs; subst;
    clear Hr Hs Hrw; unfold handle, bind.
  - rewrite (update_subtask_found _ _ _ _ p _ Hget Hfind). cbv zeta.
    simpl fst. simpl snd. simpl TASKS.
    destruct (updated_subtask_fixed w st p) as (Fi & Ft & Fc & Fu).
    unfold updated_subtask in Fi, Ft, Fc, Fu.
    eexists. eexists. split; [reflexivity|].
    split; [apply dict_get_set_same|].
    destruct (Hframe _ Fi) as (H1 & H2 & H3 & H4).
    repeat split; auto.
  - rewrite (set_subtask_completed_found true _ _ _ _ _ Hget Hfind).
    cbv zeta. simpl fst. simpl snd. simpl TASKS.
    eexists. eexists. split; [reflexivity|].
    split; [apply dict_get_set_same|].
    destruct (Hframe (SubTask.set_updated_at (clock w O)
                        (SubTask.set_completed true st)) eq_refl)
      as (H1 & H2 & H3 & H4).
    repeat split; auto.
  - rewrite (set_subtask_completed_found false _ _ _ _ _ Hget Hfind).
    cbv zeta. simpl fst. simpl snd. simpl TASKS.
    eexists. eexists. split; [reflexivity|].
    split; [apply dict_get_set_same|].
    destruct (Hframe (SubTask.set_updated_at (clock w O)
                        (SubTask.set_completed false st)) eq_refl)
      as (H1 & H2 & H3 & H4).
    repeat split; auto.
Qed.

Lemma apply_subtask_fields_values st patch :
  let st' := apply_subtask_fields st patch in
  SubTask.title st'
  = match SubTaskUpdate.title patch with
    | Some v => v
    | None => SubTask.title st
    end /\
  SubTask.due_datetime st'
  = match SubTaskUpdate.due_datetime patch with
    | Some v => Some v
    | None => SubTask.due_datetime st
    end /\
  SubTask.completed st'
  = match SubTaskUpdate.completed patch with
    | Some v => v
    | None => SubTask.completed st
    end /\
  SubTask.add_to_calendar st'
  = match SubTaskUpdate.add_to_calendar patch with
    | Some v => v
    | None => SubTask.add_to_calendar st
    end /\
  SubTask.event_duration_minutes st'
  = match SubTaskUpdate.event_duration_minutes patch with
    | Some v => v
    | None => SubTask.event_duration_minutes st
    end /\
  SubTask.calendar_id st'
  = match SubTaskUpdate.calendar_id patch with
    | Some v => Some v
    | None => SubTask.calendar_id st
    end /\
  SubTask.calendar_event_id st'
  = match SubTaskUpdate.calendar_event_id patch with
    | Some v => Some v
    | None => SubTask.calendar_event_id st
    end.
Proof.
  unfold apply_subtask_fields.
  destruct (SubTaskUpdate.title patch), (SubTaskUpdate.due_datetime patch),
    (SubTaskUpdate.completed patch), (SubTaskUpdate.add_to_calendar patch),
    (SubTaskUpdate.event_duration_minutes patch),
    (SubTaskUpdate.calendar_id patch),
    (SubTaskUpdate.calendar_event_id patch); repeat split.
Qed.

(** X14. Update Subtask on a stored subtask: each of title, due date,
    completed, add_to_calendar, event duration and calendar id that the
    patch gives a value takes that value, the others keep theirs.  A
    non-empty [calendar_event_id] given by the patch is stored as given;
    an empty one is stored too unless the subtask is then flagged for a
    non-empty calendar, in which case a generated id replaces it; and the
    generator is used only when an id is generated. *)
Theorem update_subtask_overwrites_supplied :
  forall (w : World) (task_id subtask_id : UUID) (task : Task)
         (st : SubTask) (patch : SubTaskUpdate),
    dict_get task_id (TASKS w) = Some task ->
    find_subtask subtask_id (Task.subtasks task) = Some st ->
    exists st' : SubTask,
      fst (update_subtask task_id subtask_id patch w) = Ok st' /\
      SubTask.title st'
      = match SubTaskUpdate.title patch with
        | Some v => v
        | None => SubTask.title st
        end /\
      SubTask.due_datetime st'
      = match SubTaskUpdate.due_datetime patch with
        | Some v => Some v
        | None => SubTask.due_datetime st
        end /\
      SubTask.completed st'
      = match SubTaskUpdate.completed patch with
        | Some v => v
        | None => SubTask.completed st
        end /\
      SubTask.add_to_calendar st'
      = match SubTaskUpdate.add_to_calendar patch with
        | Some v => v
        | None => SubTask.add_to_calendar st
        end /\
      SubTask.event_duration_minutes st'
      = match SubTaskUpdate.event_duration_minutes patch with
        | Some v => v
        | None => SubTask.event_duration_minutes st
        end /\
      SubTask.calendar_id st'
      = match SubTaskUpdate.calendar_id patch with
        | Some v => Some v
        | None => SubTask.calendar_id st
        end /\
      (forall v, SubTaskUpdate.calendar_event_id patch = Some v ->
         v <> EmptyString -> SubTask.calendar_event_id st' = Some v) /\
      (SubTaskUpdate.calendar_event_id patch = Some EmptyString ->
       SubTask.calendar_event_id st'
       = if SubTask.add_to_calendar st'
            && opt_str_truthy (SubTask.calendar_id st')
         then Some ("evt_" ++ uuid_canonical (entropy w O))%string
         else Some EmptyString) /\
      (SubTask.calendar_event_id st'
       = SubTask.calendar_event_id (apply_subtask_fields st patch) ->
       entropy (snd (update_subtask task_id subtask_id patch w))
       = entropy w).
Proof.
  intros w task_id subtask_id task st patch Hget Hfind.
  rewrite (update_subtask_found _ _ _ _ patch _ Hget Hfind). cbv zeta.
  simpl fst. simpl snd. simpl entropy.
  pose proof (apply_subtask_fields_values st patch) as F. cbv zeta in F.
  destruct F as (F1 & F2 & F3 & F4 & F5 & F6 & F7).
  eexists. split; [reflexivity|].
  destruct (SubTask.add_to_calendar (apply_subtask_fields st patch)) eqn:Ha;
    destruct (opt_str_truthy
                (SubTask.calendar_id (apply_subtask_fields st patch)))
      eqn:Hc;
    destruct (opt_str_truthy
                (SubTask.calendar_event_id (apply_subtask_fields st patch)))
      eqn:He;
    simpl; rewrite ?Ha, ?Hc; simpl;
    repeat split; auto.
  all: try (intros v Hv Hne;
            first
              [ rewrite F7, Hv; reflexivity
              | rewrite F7, Hv in He; simpl in He; unfold str_truthy in He;
                destruct (String.eqb_spec v EmptyString);
                [contradiction|discriminate] ]).
  all: try (intros Hv;
            first
              [ rewrite F7, Hv; reflexivity
              | rewrite F7, Hv in He; discriminate ]).
  all: try (intros Heq; exfalso; rewrite <- Heq in He; discriminate).
Qed.

(** ** Invariants of the reachable stores *)

Lemma dict_get_None_keys {V} (k : UUID) (d : dict V) :
  dict_get k d = None <-> ~ In k (map fst d).
Proof.
  induction d as [|[k' v'] d IH]; simpl; [tauto|].
  destruct (N.eqb k k') eqn:E.
  - apply N.eqb_eq in E. subst. split; [discriminate|tauto].
  - apply N.eqb_neq in E. rewrite IH. split.
    + intros H [Heq|Hin]; auto.
    + tauto.
Qed.

Lemma dict_set_NoDup {V} (k : UUID) (v : V) (d : dict V) :
  NoDup (map fst d) -> NoDup (map fst (dict_set k v d)).
Proof.
  intros Hnd. destruct (dict_get k d) as [v0|] eqn:Hget.
  - now rewrite (dict_set_keys _ _ _ _ Hget).
  - rewrite (dict_set_fresh _ _ _ Hget), map_app. simpl.
    apply NoDup_app.
    + exact Hnd.
    + repeat constructor. simpl. tauto.
    + intros x Hx [<-|[]]. now apply dict_get_None_keys in Hget.
Qed.

Lemma dict_get_of_In {V} (k : UUID) (v : V) (d : dict V) :
  NoDup (map fst d) -> In (k, v) d -> dict_get k d = Some v.
Proof.
  induction d as [|[k' v'] d IH]; simpl; [tauto|].
  intros Hnd [Heq|Hin].
  - inversion Heq. subst. now rewrite N.eqb_refl.
  - inversion Hnd as [|? ? Hnotin Hnd']; subst.
    destruct (N.eqb k k') eqn:E; auto.
    apply N.eqb_eq in E. subst k'. exfalso. apply Hnotin.
    apply (in_map fst) in Hin. exact Hin.
Qed.

(** X15. In every reachable world no two stored tasks share a key, and
    every stored task is the one a lookup by its own id returns. *)
Theorem stored_tasks_are_found_by_id :
  forall w : World,
    reachable w ->
    NoDup (map fst (TASKS w)) /\
    forall k t,
      In (k, t) (TASKS w) ->
      Task.id t = k /\ dict_get (Task.id t) (TASKS w) = Some t.
Proof.
  intros w Hr.
  assert (Hnd : NoDup (map fst (TASKS w))).
  { induction Hr as [e c|w r Hr IH]; [constructor|].
    destruct (handle_store_change r w) as [Hc _].
    destruct Hc as [E|i t t' Hget E Hid Hsub|j t E Hid Hsub|i _ E];
      rewrite E; auto using dict_set_NoDup.
    rewrite dict_del_keys. now apply NoDup_filter. }
  split; [exact Hnd|].
  intros k t Hin.
  destruct (reachable_invariants w Hr) as [_ Hk].
  rewrite (Hk _ _ Hin). split; [reflexivity|].
  now apply dict_get_of_In.
Qed.

(** Every stored subtask has the property. *)
Definition all_subtasks (P : SubTask -> Prop) (w : World) : Prop :=
  forall k t st, In (k, t) (TASKS w) -> In st (Task.subtasks t) -> P st.

Lemma patched_task_subtasks w task patch :
  Task.subtasks (patched_task w task patch) = Task.subtasks task.
Proof.
  unfold patched_task.
  destruct (apply_task_update_total task patch w)
    as (t' & Hok & _ & _ & _ & Hsub & _).
  now rewrite Hok.
Qed.

(** A property of subtasks that creating, patching and toggling establish
    or keep holds of every stored subtask after the request. *)
Lemma handle_preserves_subtasks (P : SubTask -> Prop) r w :
  (forall i payload task,
      r = POST_subtasks i payload -> P (created_subtask w task payload)) ->
  (forall i s patch st,
      r = PATCH_subtask i s patch -> P st -> P (updated_subtask w st patch)) ->
  (forall b st, P st -> P (toggled_subtask w b st)) ->
  all_subtasks P w -> all_subtasks P (snd (handle r w)).
Proof.
  intros Hcreate Hpatch Htoggle Hinv. unfold all_subtasks.
  rewrite handle_next_store.
  assert (Hset : forall i task task',
             dict_get i (TASKS w) = Some task ->
             (forall st, In st (Task.subtasks task') ->
                         In st (Task.subtasks task) \/ P st) ->
             forall k t st,
               In (k, t) (dict_set i task' (TASKS w)) ->
               In st (Task.subtasks t) -> P st).
  { intros i task task' Hget Hsub k t st Hin Hst.
    apply In_dict_set in Hin. destruct Hin as [Heq|Hin]; [|eauto].
    inversion Heq; subst k t.
    destruct (Hsub _ Hst) as [Hold|HP]; [|exact HP].
    eapply Hinv; eauto using dict_get_In. }
  assert (Hmut : forall i s task st f,
             dict_get i (TASKS w) = Some task ->
             find_subtask s (Task.subtasks task) = Some st ->
             (P st -> P (f st)) ->
             forall k t x,
               In (k, t)
                  (dict_set i
                     (Task.set_subtasks
                        (mutate_subtask s (f st) (Task.subtasks task)) task)
                     (TASKS w)) ->
               In x (Task.subtasks t) -> P x).
  { intros i s task st f Hget Hfind Hf. apply (Hset i task); auto.
    simpl. intros x Hx. apply In_mutate_subtask in Hx.
    destruct Hx as [->|Hx]; [right|now left].
    apply Hf. eapply Hinv; eauto using dict_get_In, find_subtask_In. }
  destruct r as [lf q f t|p|i|i p|i|i|i|i|i p|i s p|i s|i s|i s];
    cbn [next_store request_task_id written_task];
    try (destruct (dict_get i (TASKS w)) as [task|] eqn:Hget;
         [|exact Hinv]);
    try (destruct (find_subtask s (Task.subtasks task)) as [st|] eqn:Hfind;
         [|exact Hinv]);
    try exact Hinv.
  - intros k t st Hin Hst. apply In_dict_set in Hin.
    destruct Hin as [Heq|Hin]; [|eauto].
    inversion Heq; subst k t. unfold created_task in Hst.
    destruct (TaskCreate.calendar_event p); destruct Hst.
  - apply (Hset i task); auto. intros st.
    rewrite patched_task_subtasks. auto.
  - intros k t st Hin Hst. apply In_dict_del in Hin. destruct Hin. eauto.
  - apply (Hset i task); auto.
  - apply (Hset i task); auto.
  - apply (Hset i task); auto. simpl. intros st Hst.
    apply in_app_or in Hst. destruct Hst as [Hst|[<-|[]]]; eauto.
  - apply (Hmut i s task st (fun st => updated_subtask w st p)); eauto.
  - apply (Hset i task); auto. simpl. intros x Hx.
    apply filter_In in Hx. tauto.
  - apply (Hmut i s task st (toggled_subtask w true)); auto.
  - apply (Hmut i s task st (toggled_subtask w false)); auto.
Qed.

(** The subtask is flagged for a non-empty calendar only with an event
    id. *)
Definition calendar_linked (st : SubTask) : Prop :=
  SubTask.add_to_calendar st = true ->
  opt_str_truthy (SubTask.calendar_id st) = true ->
  SubTask.calendar_event_id st <> None.

(** X16. In every reachable world every stored subtask that is flagged
    [add_to_calendar] and has a non-empty calendar id also has a calendar
    event id. *)
Theorem flagged_subtasks_have_event_id :
  forall w : World, reachable w -> all_subtasks calendar_linked w.
Proof.
  intros w Hr. induction Hr as [e c|w r Hr IH].
  - intros k t st [].
  - apply handle_preserves_subtasks; auto.
    + intros i payload task _. unfold calendar_linked, created_subtask.
      destruct (SubTaskCreate.add_to_calendar payload) eqn:Ha;
        destruct (SubTaskCreate.calendar_event_id payload) eqn:He;
        destruct (opt_str_truthy (SubTaskCreate.calendar_id payload)) eqn:Hc;
        simpl; rewrite ?Ha, ?He, ?Hc; try discriminate; auto.
    + intros i s patch st _ _. unfold calendar_linked, updated_subtask.
      destruct (SubTask.add_to_calendar (apply_subtask_fields st patch))
        eqn:Ha;
        destruct (opt_str_truthy
                    (SubTask.calendar_id (apply_subtask_fields st patch)))
          eqn:Hc;
        destruct (SubTask.calendar_event_id (apply_subtask_fields st patch))
          as [x|] eqn:He;
        simpl; try destruct (str_truthy x); simpl;
        rewrite ?Ha, ?Hc, ?He; try discriminate; auto.
Qed.

(** ** model.py: the constraints, and the stored data *)

(** [ZoneInfo(v)] returns a zone: the name is one the timezone database
    knows. *)
Variable ZoneInfo_resolves : string -> bool.

(** [Field(..., min_length=1)] on a string. *)
Definition min_length_1 (s : string) : bool := Nat.leb 1 (String.length s).

(** A constraint on an optional field binds the value when there is one. *)
Definition when_set {A} (p : A -> bool) (o : option A) : bool :=
  match o with
  | Some a => p a
  | None => true
  end.

(** [CalendarEventBase]: the field constraints, [_validate_timezone] and
    [_validate_time_order]. *)
Definition CalendarEventBase_accepts (c : CalendarEventBase.t) : bool :=
  min_length_1 (CalendarEventBase.calendar_id c)
  && min_length_1 (CalendarEventBase.summary c)
  && ZoneInfo_resolves (CalendarEventBase.timezone c)
  && when_set (fun m => 0 <=? m) (CalendarEventBase.reminder_minutes_before c)
  && negb (CalendarEventBase.end_datetime c
           <=? CalendarEventBase.start_datetime c).

Definition CalendarEvent_accepts (e : CalendarEvent) : bool :=
  CalendarEventBase_accepts (CalendarEvent.base e)
  && min_length_1 (CalendarEvent.event_id e).

(** [Field(ge=1, le=24 * 60)]. *)
Definition duration_in_range (m : Z) : bool := (1 <=? m) && (m <=? 24 * 60).

Definition SubTaskCreate_accepts (p : SubTaskCreate) : bool :=
  min_length_1 (SubTaskCreate.title p)
  && duration_in_range (SubTaskCreate.event_duration_minutes p).

Definition SubTaskUpdate_accepts (p : SubTaskUpdate) : bool :=
  when_set min_length_1 (SubTaskUpdate.title p)
  && when_set duration_in_range (SubTaskUpdate.event_duration_minutes p).

Definition SubTask_accepts (st : SubTask) : bool :=
  min_length_1 (SubTask.title st)
  && duration_in_range (SubTask.event_duration_minutes st).

Definition TaskCreate_accepts (p : TaskCreate) : bool :=
  min_length_1 (TaskCreate.title p)
  && when_set CalendarEventBase_accepts (TaskCreate.calendar_event p).

Definition CalendarEventPatch_accepts (c : CalendarEventPatch) : bool :=
  match c with
  | IsCalendarEventCreate c => CalendarEventBase_accepts c
  | IsCalendarEvent e => CalendarEvent_accepts e
  end.

Definition TaskUpdate_accepts (p : TaskUpdate) : bool :=
  when_set min_length_1 (TaskUpdate.title p)
  && when_set CalendarEventPatch_accepts (TaskUpdate.calendar_event p).

Definition Task_accepts (t : Task) : bool :=
  min_length_1 (Task.title t)
  && when_set CalendarEvent_accepts (Task.calendar_event t)
  && forallb SubTask_accepts (Task.subtasks t).

(** The body of the request passes the model it is parsed into. *)
Definition Request_accepts (r : Request) : bool :=
  match r with
  | POST_tasks p => TaskCreate_accepts p
  | PATCH_task _ p => TaskUpdate_accepts p
  | POST_subtasks _ p => SubTaskCreate_accepts p
  | PATCH_subtask _ _ p => SubTaskUpdate_accepts p
  | _ => true
  end.

(** Every stored task, with its event and subtasks, satisfies the
    constraints of its model. *)
Definition store_accepts (w : World) : bool :=
  forallb (fun kv => Task_accepts (snd kv)) (TASKS w).

Lemma forallb_dict_set (p : Task -> bool) i t (d : dict Task) :
  p t = true ->
  forallb (fun kv => p (snd kv)) d = true ->
  forallb (fun kv => p (snd kv)) (dict_set i t d) = true.
Proof.
  intros Ht. induction d as [|[k v] d IH]; simpl.
  - now rewrite Ht.
  - rewrite andb_true_iff. intros [Hv Hd].
    destruct (N.eqb i k); simpl; rewrite ?Ht, ?Hv; auto.
Qed.

Lemma forallb_dict_get (p : Task -> bool) i t (d : dict Task) :
  forallb (fun kv => p (snd kv)) d = true ->
  dict_get i d = Some t -> p t = true.
Proof.
  intros Hd Hget. apply dict_get_In in Hget.
  rewrite forallb_forall in Hd. exact (Hd _ Hget).
Qed.

Lemma forallb_mutate_subtask s st' (l : list SubTask) :
  SubTask_accepts st' = true ->
  forallb SubTask_accepts l = true ->
  forallb SubTask_accepts (mutate_subtask s st' l) = true.
Proof.
  intros Hst. induction l as [|x l IH]; simpl; auto.
  rewrite andb_true_iff. intros [Hx Hl].
  destruct (N.eqb (SubTask.id x) s); simpl; rewrite ?Hst, ?Hx; auto.
Qed.

Lemma patched_task_accepts w task patch :
  TaskUpdate_accepts patch = true ->
  Task_accepts task = true ->
  Task_accepts (patched_task w task patch) = true.
Proof.
  unfold TaskUpdate_accepts, Task_accepts, patched_task, _apply_task_update.
  rewrite !andb_true_iff. intros [Hpt Hpe] [[Ht He] Hs].
  assert (Hsc : min_length_1 (Task.title (apply_task_scalars task patch))
                = true /\
                Task.calendar_event (apply_task_scalars task patch)
                = Task.calendar_event task /\
                Task.subtasks (apply_task_scalars task patch)
                = Task.subtasks task).
  { unfold apply_task_scalars.
    destruct (TaskUpdate.title patch), (TaskUpdate.note patch),
      (TaskUpdate.due_datetime patch), (TaskUpdate.completed patch);
      simpl in *; auto. }
  destruct Hsc as (Ht' & He' & Hs').
  destruct (in_fields_set _ _);
    [destruct (TaskUpdate.calendar_event patch) as [[c|e]|]|];
    run_py; rewrite ?Ht', ?He', ?Hs', ?He, ?Hs; simpl in *; auto.
  unfold CalendarEvent_accepts. simpl. now rewrite Hpe.
Qed.

Lemma updated_subtask_accepts w st patch :
  SubTaskUpdate_accepts patch = true ->
  SubTask_accepts st = true ->
  SubTask_accepts (updated_subtask w st patch) = true.
Proof.
  unfold SubTaskUpdate_accepts, SubTask_accepts, updated_subtask.
  rewrite !andb_true_iff. intros [Hpt Hpd] [Ht Hd].
  pose proof (apply_subtask_fields_values st patch) as F. cbv zeta in F.
  destruct F as (F1 & _ & _ & _ & F5 & _).
  assert (H1 : min_length_1 (SubTask.title (apply_subtask_fields st patch))
               = true).
  { rewrite F1. destruct (SubTaskUpdate.title patch); auto. }
  assert (H5 : duration_in_range
                 (SubTask.event_duration_minutes
                    (apply_subtask_fields st patch)) = true).
  { rewrite F5.
    destruct (SubTaskUpdate.event_duration_minutes patch); auto. }
  destruct (_ && _ && _); simpl; auto.
Qed.

(** X17. The handlers keep the stored data within the constraints of
    model.py although they assign fields without validation: when every
    request body passes the model it is parsed into, every task stored
    after any sequence of requests has a non-empty title, a calendar event
    (if any) with non-empty calendar id, summary and event id, a known
    timezone, a non-negative reminder and an end after its start, and
    subtasks with non-empty titles and a duration within 1..1440. *)
Theorem stored_data_stays_valid :
  forall (rs : list Request) (w : World),
    forallb Request_accepts rs = true ->
    store_accepts w = true ->
    store_accepts (run rs w) = true.
Proof.
  induction rs as [|r rs IH]; intros w Hrs Hw; simpl; auto.
  simpl in Hrs. apply andb_true_iff in Hrs. destruct Hrs as [Hr Hrs].
  apply IH; auto. clear IH Hrs rs.
  unfold store_accepts in *. rewrite handle_next_store.
  assert (Hsub : forall i task,
             dict_get i (TASKS w) = Some task ->
             min_length_1 (Task.title task) = true /\
             when_set CalendarEvent_accepts (Task.calendar_event task)
             = true /\
             forallb SubTask_accepts (Task.subtasks task) = true).
  { intros i task Hget.
    pose proof (forallb_dict_get Task_accepts _ _ _ Hw Hget) as H.
    unfold Task_accepts in H. rewrite !andb_true_iff in H. tauto. }
  assert (Hfound : forall s (l : list SubTask) st,
             forallb SubTask_accepts l = true ->
             find_subtask s l = Some st -> SubTask_accepts st = true).
  { intros s l st Hl Hfind. rewrite forallb_forall in Hl.
    eauto using find_subtask_In. }
  destruct r as [lf q f t|p|i|i p|i|i|i|i|i p|i s p|i s|i s|i s];
    cbn [next_store request_task_id written_task];
    try (destruct (dict_get i (TASKS w)) as [task|] eqn:Hget;
         [destruct (Hsub _ _ Hget) as (Ht & He & Hs)|exact Hw]);
    try (destruct (find_subtask s (Task.subtasks task)) as [st|] eqn:Hfind;
         [pose proof (Hfound _ _ _ Hs Hfind) as Hst|exact Hw]);
    try exact Hw;
    try (apply forallb_dict_set; [|exact Hw]).
  - (* POST /tasks *)
    simpl in Hr. unfold TaskCreate_accepts in Hr.
    apply andb_true_iff in Hr. destruct Hr as [Hpt Hpe].
    unfold created_task, Task_accepts.
    destruct (TaskCreate.calendar_event p) as [c|]; simpl in *;
      rewrite Hpt; auto.
    unfold CalendarEvent_accepts. simpl. now rewrite Hpe.
  - (* PATCH /tasks/{task_id} *)
    apply patched_task_accepts; auto.
    eapply forallb_dict_get; eauto.
  - (* DELETE /tasks/{task_id} *)
    unfold dict_del. rewrite forallb_forall in *. intros kv Hin.
    apply filter_In in Hin. apply Hw. tauto.
  - unfold Task_accepts. simpl. now rewrite Ht, He, Hs.
  - unfold Task_accepts. simpl. now rewrite Ht, He, Hs.
  - (* POST /tasks/{task_id}/subtasks *)
    unfold Task_accepts. simpl. rewrite Ht, He, forallb_app, Hs. simpl.
    rewrite andb_true_r. simpl in Hr.
    unfold SubTaskCreate_accepts in Hr. unfold created_subtask, SubTask_accepts.
    destruct (_ && _ && _); simpl; exact Hr.
  - (* PATCH /tasks/{task_id}/subtasks/{subtask_id} *)
    unfold Task_accepts. simpl. rewrite Ht, He. simpl.
    apply forallb_mutate_subtask; auto.
    apply updated_subtask_accepts; auto.
  - (* DELETE /tasks/{task_id}/subtasks/{subtask_id} *)
    unfold Task_accepts. simpl. rewrite Ht, He. simpl.
    rewrite forallb_forall in *. intros x Hx. apply filter_In in Hx.
    apply Hs. tauto.
  - unfold Task_accepts. simpl. rewrite Ht, He. simpl.
    apply forallb_mutate_subtask; auto.
  - unfold Task_accepts. simpl. rewrite Ht, He. simpl.
    apply forallb_mutate_subtask; auto.
Qed.

(** ** Listing after creating and after deleting *)

(** The scan returns stored tasks only, whatever the clock shows. *)
Lemma scan_tasks_subset (tasks : list Task) lf q f t w :
  exists items w',
    scan_tasks tasks lf q f t w = (Ok items, w') /\
    forall x, In x items -> In x tasks.
Proof.
  revert w. induction tasks as [|task rest IH]; intros w; simpl.
  - exists [], w. split; auto.
  - assert (Hskip : exists items w',
               scan_tasks rest lf q f t w = (Ok items, w') /\
               forall x, In x items -> task = x \/ In x rest).
    { destruct (IH w) as (items & w' & H1 & H2). eauto 6. }
    destruct (negb (_matches_query task q)); [exact Hskip|].
    destruct (negb (_in_due_range task f t)); [exact Hskip|].
    destruct (_matches_list_filter_run task lf w) as (w1 & Hm & _).
    destruct (IH w1) as (items & w2 & Hs & Hsub).
    unfold bind. rewrite Hm, Hs. unfold ret.
    eexists. exists w2. split; [reflexivity|].
    intros x Hx. destruct (matches_list_filter_on _ task lf).
    + destruct Hx as [->|Hx]; auto.
    + auto.
Qed.

(** Without filters the scan returns every stored task. *)
Lemma scan_tasks_unfiltered (tasks : list Task) w :
  scan_tasks tasks None None None None w = (Ok tasks, w).
Proof.
  revert w. induction tasks as [|task rest IH]; intros w; simpl; auto.
  assert (Hr : _in_due_range task None None = true).
  { unfold _in_due_range. now destruct (Task.due_datetime task). }
  rewrite Hr. simpl. run_py. now rewrite IH.
Qed.

(** X18. A listing without filters that returns has read no clock and
    returns every stored task, each as often as it is stored; so the task
    Create Task has just returned is in the next unfiltered listing that
    returns, together with the tasks stored before under other ids. *)
Theorem created_task_is_listed :
  forall (w : World) (payload : TaskCreate),
    (forall items w',
        list_tasks None None None None w = (Ok items, w') ->
        w' = w /\ Permutation items (dict_values (TASKS w))) /\
    exists task,
      fst (create_task payload w) = Ok task /\
      forall items,
        fst (list_tasks None None None None (snd (create_task payload w)))
        = Ok items ->
        In task items /\
        forall k t, dict_get k (TASKS w) = Some t -> k <> Task.id task ->
                    In t items.
Proof.
  intros w payload.
  assert (Hlist : forall w0,
             list_tasks None None None None w0
             = (Ok (sort_by_key task_sort_key key2_lt
                      (dict_values (TASKS w0))), w0)).
  { intros w0. unfold list_tasks, TaskListQuery_check_range. run_py.
    now rewrite scan_tasks_unfiltered. }
  split.
  - intros items w' Hrun. rewrite Hlist in Hrun. inversion Hrun.
    split; [reflexivity|apply sort_by_key_perm].
  - rewrite create_task_run. simpl fst. simpl snd. rewrite Hlist.
    simpl fst. simpl TASKS.
    eexists. split; [reflexivity|].
    intros items Hitems. inversion Hitems. subst items. clear Hitems.
    assert (Hin : forall k t,
               dict_get k
                 (dict_set (Task.id (created_task w payload))
                    (created_task w payload) (TASKS w)) = Some t ->
               In t (sort_by_key task_sort_key key2_lt
                       (dict_values
                          (dict_set (Task.id (created_task w payload))
                             (created_task w payload) (TASKS w))))).
    { intros k t Hget.
      apply (Permutation_in _ (Permutation_sym (sort_by_key_perm _ _ _))).
      unfold dict_values. apply dict_get_In in Hget.
      apply (in_map snd) in Hget. exact Hget. }
    split.
    + apply (Hin (Task.id (created_task w payload))).
      apply dict_get_set_same.
    + intros k t Hget Hne. apply (Hin k).
      rewrite dict_get_set_other; auto.
Qed.

(** X19. In a reachable world, once Delete Task has removed a task, no
    listing, whatever its filters and whatever the clock shows, contains a
    task with that id; every task it does contain is one that was stored
    before the deletion. *)
Theorem deleted_task_is_never_listed :
  forall (w : World) (task_id : UUID) (task : Task)
         (list_filter : option TaskListFilter) (q : option string)
         (due_from due_to : option datetime) (items : list Task),
    reachable w ->
    dict_get task_id (TASKS w) = Some task ->
    fst (list_tasks list_filter q due_from due_to
           (snd (delete_task task_id w))) = Ok items ->
    forall x, In x items ->
      Task.id x <> task_id /\ In x (dict_values (TASKS w)).
Proof.
  intros w task_id task lf q f t items Hr Hget Hlist x Hx.
  rewrite (delete_task_found _ _ _ Hget) in Hlist. simpl snd in Hlist.
  unfold list_tasks, TaskListQuery_check_range in Hlist.
  destruct (range_inverted f t); [discriminate|].
  revert Hlist. run_py.
  destruct (scan_tasks_subset (dict_values (dict_del task_id (TASKS w)))
              lf q f t
              (mkWorld (dict_del task_id (TASKS w)) (entropy w) (clock w)))
    as (found & w' & -> & Hsub).
  simpl. intros Hlist. inversion Hlist; subst items. clear Hlist.
  apply (Permutation_in _ (sort_by_key_perm _ _ _)) in Hx.
  apply Hsub in Hx. unfold dict_values in Hx. apply in_map_iff in Hx.
  destruct Hx as ([k t0] & Heq & Hin). simpl in Heq. subst t0.
  apply In_dict_del in Hin. destruct Hin as [Hin Hne].
  destruct (reachable_invariants w Hr) as [_ Hk].
  split.
  - now rewrite (Hk _ _ Hin).
  - unfold dict_values. apply (in_map snd) in Hin. exact Hin.
Qed.

End Service.

(** ** The theorems at work on the sample data *)

Lemma reachable_run lower offset rs w :
  reachable lower offset w -> reachable lower offset (run lower offset rs w).
Proof.
  revert w. induction rs as [|r rs IH]; intros w H; simpl; auto.
  apply IH. now constructor.
Qed.

(** C1 at work: a create-request replaces the stored event, and the new
    event carries the id the generator issues. *)
Lemma update_task_calendar_event_presence_witness :
  dict_get 1%N (TASKS sample_world) = Some sample_task /\
  exists task',
    fst (update_task 1%N create_event_patch sample_world) = Ok task' /\
    Task.calendar_event task'
    = Some (CalendarEvent.mk sample_event_request
              "evt_00000000-0000-0000-0000-000000000064").
Proof.
  split; [reflexivity|].
  destruct (update_task_calendar_event_presence sample_world 1%N sample_task
              create_event_patch eq_refl) as (task' & Hok & _ & Hev).
  exists task'. split; [exact Hok|].
  simpl in Hev. destruct Hev as (eid & Heid & _ & Hev & _).
  rewrite Hev. vm_compute in Heid. inversion Heid. reflexivity.
Defined.

(** C2 at work: a patch for an id the store does not hold. *)
Lemma failed_request_witness :
  dict_get 9%N (TASKS sample_world) = None /\
  raises_NotFound
    (fst (handle str_lower_ascii utcoffset_0530
            (PATCH_task 9%N null_note_patch) sample_world)) = true /\
  snd (handle str_lower_ascii utcoffset_0530
         (PATCH_task 9%N null_note_patch) sample_world) = sample_world.
Proof.
  split; [reflexivity|].
  destruct (failed_request_not_found_and_nothing_applied
              str_lower_ascii utcoffset_0530
              (PATCH_task 9%N null_note_patch) sample_world)
    as (Habsent & _ & Hunchanged).
  split.
  - apply (Habsent 9%N); reflexivity.
  - apply Hunchanged. reflexivity.
Defined.

(** C5, the claim as stated fails: [calendar_id] is set, to the empty
    string, and no event id is assigned. *)
Lemma create_subtask_empty_calendar_id_unassigned :
  SubTaskCreate.add_to_calendar empty_calendar_payload = true /\
  SubTaskCreate.calendar_id empty_calendar_payload <> None /\
  SubTaskCreate.calendar_event_id empty_calendar_payload = None /\
  exists st,
    fst (create_subtask 1%N empty_calendar_payload sample_world) = Ok st /\
    SubTask.calendar_event_id st = None.
Proof.
  split; [reflexivity|]. split; [discriminate|]. split; [reflexivity|].
  eexists. split; reflexivity.
Qed.

(** C5 at work: a subtask for calendar [cal1] gets an event id. *)
Lemma subtask_event_id_auto_assigned_witness :
  dict_get 1%N (TASKS sample_world) = Some sample_task /\
  exists st,
    fst (create_subtask 1%N calendar_payload sample_world) = Ok st /\
    SubTask.calendar_event_id st
    = Some "evt_00000000-0000-0000-0000-000000000065"%string.
Proof.
  split; [reflexivity|].
  destruct (subtask_event_id_auto_assigned sample_world 1%N sample_task
              eq_refl) as [Hcreate _].
  destruct (Hcreate calendar_payload) as (st & task' & Hok & _ & _ & Hid).
  exists st. split; [exact Hok|].
  destruct Hid as (eid & Hev & _ & Heid).
  - reflexivity.
  - exists "cal1"%string. split; [reflexivity|discriminate].
  - reflexivity.
  - rewrite Hev, Heid. reflexivity.
Defined.

(** C6 at work: completing the sample task twice. *)
Lemma complete_undo_idempotent_witness :
  dict_get 1%N (TASKS sample_world) = Some sample_task /\
  exists task',
    fst (complete_task 1%N sample_world) = Ok task' /\
    Task.completed task' = true /\
    complete_task 1%N (snd (complete_task 1%N sample_world))
    = (Ok task', snd (complete_task 1%N sample_world)).
Proof.
  split; [reflexivity|].
  destruct (complete_undo_idempotent true sample_world 1%N sample_task
              eq_refl) as [(task' & Hrun & _ & Hdone & _ & Htwice) _].
  exists task'. split; [now rewrite Hrun|]. split; [exact Hdone|exact Htwice].
Defined.

(** C8 at work: after deleting task 1, fetching it raises NotFound. *)
Lemma delete_task_removes_permanently_witness :
  dict_get 1%N (TASKS sample_world) = Some sample_task /\
  fst (delete_task 1%N sample_world) = Ok tt /\
  raises_NotFound
    (fst (handle str_lower_ascii utcoffset_0530 (GET_task 1%N)
            (run str_lower_ascii utcoffset_0530
               [POST_tasks (TaskCreate.mk "again" None None false None)]
               (snd (delete_task 1%N sample_world))))) = true.
Proof.
  split; [reflexivity|].
  destruct (delete_task_removes_permanently str_lower_ascii utcoffset_0530
              sample_world 1%N) as [_ Hfound].
  destruct (Hfound sample_task eq_refl) as (Hok & _ & _ & _ & _ & Hlater & _).
  split; [exact Hok|].
  apply Hlater; [|reflexivity].
  intros n. change ((100 + N.of_nat n)%N <> 1%N). lia.
Defined.

(** C9 at work: the world after the first session. *)
Lemma subtask_task_id_is_owner_id_witness :
  reachable str_lower_ascii utcoffset_0530
    (run str_lower_ascii utcoffset_0530 first_session started_world) /\
  subtasks_owned
    (run str_lower_ascii utcoffset_0530 first_session started_world).
Proof.
  assert (Hr : reachable str_lower_ascii utcoffset_0530
                 (run str_lower_ascii utcoffset_0530 first_session
                    started_world)).
  { apply reachable_run. constructor. }
  split; [exact Hr|].
  exact (proj1 (subtask_task_id_is_owner_id str_lower_ascii utcoffset_0530
                  _ Hr)).
Defined.

(** The first session leaves one task with its two subtasks. *)
Example first_session_store :
  map (fun kv => (fst kv, map SubTask.task_id (Task.subtasks (snd kv))))
      (TASKS (run str_lower_ascii utcoffset_0530 first_session started_world))
  = [(101%N, [101%N; 101%N])] /\
  subtasks_ownedb
    (run str_lower_ascii utcoffset_0530 first_session started_world) = true.
Proof. split; reflexivity. Qed.

(** C10 at work: a patch with [note] and [due_datetime] null keeps both. *)
Lemma null_scalar_behaves_as_omitted_witness :
  dict_get 1%N (TASKS sample_world) = Some sample_task /\
  exists task',
    fst (update_task 1%N null_note_patch sample_world) = Ok task' /\
    Task.note task' = Some "for Monday"%string /\
    Task.due_datetime task' = Some mar_1_2024.
Proof.
  split; [reflexivity|].
  destruct null_scalar_behaves_as_omitted as (_ & _ & Htask & _).
  destruct (Htask sample_world 1%N sample_task null_note_patch eq_refl)
    as (task' & Hok & _ & _ & Hnote & Hdue & _).
  exists task'. split; [exact Hok|].
  split; [exact (Hnote eq_refl)|exact (Hdue eq_refl)].
Defined.

(** A subtask request for calendar [cal1] that brings an empty event id. *)
Definition empty_event_id_payload : SubTaskCreate :=
  SubTaskCreate.mk "book room" None false true 60 (Some "cal1"%string)
    (Some EmptyString).

(** A subtask patch that supplies [calendar_event_id] as null. *)
Definition null_event_id_patch : SubTaskUpdate :=
  SubTaskUpdate.mk None None None None None None None
    ["calendar_event_id"%string].

Definition empty_event_id_session : list Request :=
  [POST_tasks (TaskCreate.mk "write report" None None false None);
   POST_subtasks 100%N empty_event_id_payload].

(** C10, the claim as stated fails: after this session the subtask's
    [calendar_event_id] is stored as the empty string, and the patch that
    supplies it as null changes the stored field to a generated id. *)
Lemma null_calendar_event_id_replaces_empty :
  reachable str_lower_ascii utcoffset_0530
    (run str_lower_ascii utcoffset_0530 empty_event_id_session started_world)
  /\
  (exists task st,
      dict_get 100%N
        (TASKS (run str_lower_ascii utcoffset_0530 empty_event_id_session
                  started_world)) = Some task /\
      find_subtask 101%N (Task.subtasks task) = Some st /\
      SubTask.calendar_event_id st = Some EmptyString) /\
  exists st' task',
    fst (update_subtask 100%N 101%N null_event_id_patch
           (run str_lower_ascii utcoffset_0530 empty_event_id_session
              started_world)) = Ok st' /\
    dict_get 100%N
      (TASKS (snd (update_subtask 100%N 101%N null_event_id_patch
                     (run str_lower_ascii utcoffset_0530
                        empty_event_id_session started_world))))
    = Some task' /\
    find_subtask 101%N (Task.subtasks task') = Some st' /\
    SubTask.calendar_event_id st'
    = Some "evt_00000000-0000-0000-0000-000000000066"%string /\
    SubTask.calendar_event_id st' <> Some EmptyString.
Proof.
  split; [apply reachable_run; constructor|].
  split.
  - eexists. eexists. split; [reflexivity|]. split; reflexivity.
  - eexists. eexists. split; [reflexivity|]. split; [reflexivity|].
    split; [reflexivity|]. split; [reflexivity|discriminate].
Qed.

(** ** The further properties at work on the sample data *)

(** A patch that supplies only nulls. *)
Definition all_null_patch : TaskUpdate :=
  TaskUpdate.mk None None None None None ["note"; "due_datetime"]%string.

(** A subtask patch that renames the subtask. *)
Definition rename_patch : SubTaskUpdate :=
  SubTaskUpdate.mk (Some "final draft"%string) None None None None None None
    ["title"%string].

(** A timezone database that knows two zones. *)
Definition two_zones (name : string) : bool :=
  String.eqb name "Asia/Colombo" || String.eqb name "UTC".

(** Two tasks created after start. *)
Definition two_tasks : list Request :=
  [POST_tasks (TaskCreate.mk "write report" None (Some mar_1_2024) false None);
   POST_tasks (TaskCreate.mk "call home" None None false None)].

(** X1 at work: a patch for a task the store lacks raises 404, creating a
    task raises nothing. *)
Lemma handle_raises_exactly_when_witness :
  raises_NotFound
    (fst (handle str_lower_ascii utcoffset_0530
            (PATCH_task 9%N all_null_patch) sample_world)) = true /\
  raises
    (fst (handle str_lower_ascii utcoffset_0530
            (POST_tasks (TaskCreate.mk "call home" None None false None))
            sample_world)) = false.
Proof.
  split.
  - now destruct (handle_raises_exactly_when str_lower_ascii utcoffset_0530
                    (PATCH_task 9%N all_null_patch) sample_world eq_refl)
      as [_ ->].
  - now destruct (handle_raises_exactly_when str_lower_ascii utcoffset_0530
                    (POST_tasks
                       (TaskCreate.mk "call home" None None false None))
                    sample_world eq_refl)
      as [-> _].
Defined.

(** X2 at work: fetching a task changes nothing. *)
Lemma read_requests_change_nothing_witness :
  is_read (GET_task 1%N) = true /\
  snd (handle str_lower_ascii utcoffset_0530 (GET_task 1%N) sample_world)
  = sample_world.
Proof.
  split; [reflexivity|].
  destruct (read_requests_change_nothing str_lower_ascii utcoffset_0530
              (GET_task 1%N) sample_world eq_refl) as (_ & _ & H).
  exact H.
Defined.

(** X5 at work: completing task 1 leaves task 2 alone. *)
Lemma request_touches_only_its_task_witness :
  request_task_id (POST_task_complete 1%N) = Some 1%N /\
  dict_get 2%N
    (TASKS (snd (handle str_lower_ascii utcoffset_0530
                   (POST_task_complete 1%N) sample_world)))
  = Some undated_task.
Proof.
  split; [reflexivity|].
  destruct (request_touches_only_its_task str_lower_ascii utcoffset_0530
              (POST_task_complete 1%N) sample_world 1%N eq_refl) as [H _].
  rewrite (H 2%N); [reflexivity|discriminate].
Defined.

(** X6 at work: a patch that renames the sample task. *)
Lemma update_task_overwrites_supplied_scalars_witness :
  dict_get 1%N (TASKS sample_world) = Some sample_task /\
  exists task',
    fst (update_task 1%N null_note_patch sample_world) = Ok task' /\
    Task.title task' = "write the report"%string /\
    Task.subtasks task' = [sample_subtask].
Proof.
  split; [reflexivity|].
  destruct (update_task_overwrites_supplied_scalars sample_world 1%N
              sample_task null_note_patch eq_refl)
    as (task' & Hok & _ & Ht & _ & _ & _ & _ & Hs).
  exists task'. split; [exact Hok|]. split; [exact Ht|exact Hs].
Defined.

(** X7 at work: a patch of nulls. *)
Lemma update_task_empty_patch_is_noop_witness :
  dict_get 1%N (TASKS sample_world) = Some sample_task /\
  in_fields_set "calendar_event" (TaskUpdate.model_fields_set all_null_patch)
  = false /\
  update_task 1%N all_null_patch sample_world = (Ok sample_task, sample_world).
Proof.
  split; [reflexivity|]. split; [reflexivity|].
  exact (update_task_empty_patch_is_noop sample_world 1%N sample_task
           all_null_patch eq_refl eq_refl eq_refl eq_refl eq_refl eq_refl).
Defined.

(** X8 at work: completing the sample task and undoing it. *)
Lemma complete_then_undo_restores_witness :
  dict_get 1%N (TASKS sample_world) = Some sample_task /\
  undo_task 1%N (snd (complete_task 1%N sample_world))
  = (Ok sample_task, sample_world).
Proof.
  split; [reflexivity|].
  destruct (complete_then_undo_restores true sample_world 1%N sample_task
              eq_refl) as (task' & _ & _ & _ & Hback).
  exact (Hback eq_refl).
Defined.

(** X9 at work: the deleted subtask cannot be completed any more. *)
Lemma delete_subtask_removes_witness :
  dict_get 1%N (TASKS sample_world) = Some sample_task /\
  find_subtask 11%N (Task.subtasks sample_task) = Some sample_subtask /\
  fst (delete_subtask 1%N 11%N sample_world) = Ok tt /\
  raises_NotFound
    (fst (handle str_lower_ascii utcoffset_0530
            (POST_subtask_complete 1%N 11%N)
            (snd (delete_subtask 1%N 11%N sample_world)))) = true.
Proof.
  split; [reflexivity|]. split; [reflexivity|].
  destruct (delete_subtask_removes str_lower_ascii utcoffset_0530
              sample_world 1%N 11%N sample_task sample_subtask eq_refl
              eq_refl) as (task' & Hrun & _ & _ & _ & _ & Hlater).
  split; [now rewrite Hrun|].
  apply Hlater; reflexivity.
Defined.

(** X12 at work: the timestamps of a new subtask. *)
Lemma create_subtask_exact_witness :
  dict_get 1%N (TASKS sample_world) = Some sample_task /\
  exists st,
    fst (create_subtask 1%N calendar_payload sample_world) = Ok st /\
    SubTask.id st = 100%N /\
    SubTask.task_id st = 1%N /\
    SubTask.created_at st = jan_1_2024 /\
    SubTask.updated_at st = jan_1_2024 + 1.
Proof.
  split; [reflexivity|].
  destruct (create_subtask_exact sample_world 1%N sample_task
              calendar_payload eq_refl)
    as (st & task' & Hok & _ & _ & _ & _ & _ & _ & _ & _ & Hid & Htid & Hc
        & Hu & _).
  exists st. split; [exact Hok|].
  split; [exact Hid|]. split; [exact Htid|]. split; [exact Hc|exact Hu].
Defined.

(** X13 at work: undoing the sample subtask. *)
Lemma subtask_rewrite_frame_witness :
  rewrites_subtask (POST_subtask_undo 1%N 11%N) = true /\
  dict_get 1%N (TASKS sample_world) = Some sample_task /\
  find_subtask 11%N (Task.subtasks sample_task) = Some sample_subtask /\
  exists st',
    fst (handle str_lower_ascii utcoffset_0530 (POST_subtask_undo 1%N 11%N)
           sample_world) = Ok (SubTaskBody st') /\
    SubTask.created_at st' = jan_1_2023 /\
    SubTask.updated_at st' = jan_1_2024.
Proof.
  split; [reflexivity|]. split; [reflexivity|]. split; [reflexivity|].
  destruct (subtask_rewrite_frame str_lower_ascii utcoffset_0530
              (POST_subtask_undo 1%N 11%N) sample_world 1%N 11%N sample_task
              sample_subtask eq_refl eq_refl eq_refl eq_refl eq_refl)
    as (st' & task' & Hok & _ & _ & _ & _ & Hc & Hu & _).
  exists st'. split; [exact Hok|]. split; [exact Hc|exact Hu].
Defined.

(** X14 at work: renaming the sample subtask. *)
Lemma update_subtask_overwrites_supplied_witness :
  dict_get 1%N (TASKS sample_world) = Some sample_task /\
  find_subtask 11%N (Task.subtasks sample_task) = Some sample_subtask /\
  exists st',
    fst (update_subtask 1%N 11%N rename_patch sample_world) = Ok st' /\
    SubTask.title st' = "final draft"%string /\
    SubTask.calendar_id st' = Some "cal1"%string.
Proof.
  split; [reflexivity|]. split; [reflexivity|].
  destruct (update_subtask_overwrites_supplied sample_world 1%N 11%N
              sample_task sample_subtask rename_patch eq_refl eq_refl)
    as (st' & Hok & Ht & _ & _ & _ & _ & Hc & _).
  exists st'. split; [exact Hok|]. split; [exact Ht|exact Hc].
Defined.

(** X15 at work: the keys after the first session. *)
Lemma stored_tasks_are_found_by_id_witness :
  reachable str_lower_ascii utcoffset_0530
    (run str_lower_ascii utcoffset_0530 first_session started_world) /\
  NoDup
    (map fst
       (TASKS (run str_lower_ascii utcoffset_0530 first_session
                 started_world))).
Proof.
  assert (Hr : reachable str_lower_ascii utcoffset_0530
                 (run str_lower_ascii utcoffset_0530 first_session
                    started_world)).
  { apply reachable_run. constructor. }
  split; [exact Hr|].
  exact (proj1 (stored_tasks_are_found_by_id str_lower_ascii utcoffset_0530
                  _ Hr)).
Defined.

(** X16 at work: the subtasks after the first session. *)
Lemma flagged_subtasks_have_event_id_witness :
  reachable str_lower_ascii utcoffset_0530
    (run str_lower_ascii utcoffset_0530 first_session started_world) /\
  all_subtasks calendar_linked
    (run str_lower_ascii utcoffset_0530 first_session started_world).
Proof.
  assert (Hr : reachable str_lower_ascii utcoffset_0530
                 (run str_lower_ascii utcoffset_0530 first_session
                    started_world)).
  { apply reachable_run. constructor. }
  split; [exact Hr|].
  exact (flagged_subtasks_have_event_id str_lower_ascii utcoffset_0530 _ Hr).
Defined.

(** X17 at work: the first session's bodies are valid, and so is the store
    it leaves. *)
Lemma stored_data_stays_valid_witness :
  forallb (Request_accepts two_zones) first_session = true /\
  store_accepts two_zones started_world = true /\
  store_accepts two_zones
    (run str_lower_ascii utcoffset_0530 first_session started_world) = true.
Proof.
  split; [reflexivity|]. split; [reflexivity|].
  exact (stored_data_stays_valid str_lower_ascii utcoffset_0530 two_zones
           first_session started_world eq_refl eq_refl).
Defined.

(** X19 at work: two tasks, one deleted, the other listed. *)
Lemma deleted_task_is_never_listed_witness :
  reachable str_lower_ascii utcoffset_0530
    (run str_lower_ascii utcoffset_0530 two_tasks started_world) /\
  fst (list_tasks str_lower_ascii utcoffset_0530 None None None None
         (snd (delete_task 100%N
                 (run str_lower_ascii utcoffset_0530 two_tasks
                    started_world))))
  = Ok [Task.mk "call home" None None false 101%N None []] /\
  Task.id (Task.mk "call home" None None false 101%N None []) <> 100%N.
Proof.
  assert (Hr : reachable str_lower_ascii utcoffset_0530
                 (run str_lower_ascii utcoffset_0530 two_tasks
                    started_world)).
  { apply reachable_run. constructor. }
  split; [exact Hr|]. split; [reflexivity|].
  exact (proj1 (deleted_task_is_never_listed str_lower_ascii utcoffset_0530
                  (run str_lower_ascii utcoffset_0530 two_tasks started_world)
                  100%N
                  (Task.mk "write report" None (Some mar_1_2024) false 100%N
                     None [])
                  None None None None
                  [Task.mk "call home" None None false 101%N None []]
                  Hr eq_refl eq_refl
                  (Task.mk "call home" None None false 101%N None [])
                  (or_introl eq_refl))).
Defined.

(** * The read path on Python's datetimes

    [model.py] types every datetime as a plain [datetime]: a request may
    send it with a UTC offset (an aware value) or without one (a naive
    value), and no value leaves the years 1 to 9999.  Python refuses to
    order a naive and an aware value, and a conversion that leaves the
    years 1 to 9999 fails.  The handlers above are embedded over aware
    values in range, each given by its instant, where none of this
    happens.  This part embeds the functions of [main.py] that compare or
    convert datetimes, and [list_tasks] and [list_subtasks] which call
    them, over datetimes as Python has them, with what they raise. *)

Module Py.

(** ** [datetime.datetime] *)

(** A value is naive or aware.  [wall] is what its own calendar and clock
    fields show, in microseconds since 1970-01-01T00:00:00 on that
    calendar and clock; [utcoffset] is what [utcoffset()] returns, in
    microseconds. *)
Inductive datetime :=
| Naive (wall : Z)
| Aware (wall : Z) (utcoffset : Z).

Definition wall (d : datetime) : Z :=
  match d with
  | Naive x => x
  | Aware x _ => x
  end.

Definition is_aware (d : datetime) : bool :=
  match d with
  | Naive _ => false
  | Aware _ _ => true
  end.

(** [datetime.min] is 0001-01-01T00:00:00 and [datetime.max] is
    9999-12-31T23:59:59.999999; arithmetic whose result lies outside
    raises. *)
Definition min_wall : Z := -62135596800000000.
Definition max_wall : Z := 253402300799999999.

Definition representable (x : Z) : bool := (min_wall <=? x) && (x <=? max_wall).

(** [datetime.max] is naive. *)
Definition datetime_max : datetime := Naive max_wall.

Definition naive_and_aware : Exception :=
  TypeError "can't compare offset-naive and offset-aware datetimes".

Definition date_value_out_of_range : Exception :=
  OverflowError "date value out of range".

(** [a < b]: two naive values compare by their wall readings, two aware
    values by their instants, a naive and an aware value not at all. *)
Definition __lt__ (a b : datetime) : Result bool :=
  match a, b with
  | Naive x, Naive y => Ok (x <? y)
  | Aware x ox, Aware y oy => Ok (x - ox <? y - oy)
  | _, _ => Raise naive_and_aware
  end.

(** [a > b]. *)
Definition __gt__ (a b : datetime) : Result bool :=
  match a, b with
  | Naive x, Naive y => Ok (x >? y)
  | Aware x ox, Aware y oy => Ok (x - ox >? y - oy)
  | _, _ => Raise naive_and_aware
  end.

(** [a == b] never raises: a naive and an aware value are unequal. *)
Definition __eq__ (a b : datetime) : bool :=
  match a, b with
  | Naive x, Naive y => x =? y
  | Aware x ox, Aware y oy => x - ox =? y - oy
  | _, _ => false
  end.

(** [datetime.date()], in days since 1970-01-01. *)
Definition date (d : datetime) : Z := wall d / microseconds_per_day.

(** Sequencing of computations that may raise. *)
Definition and_then {A B} (r : Result A) (k : A -> Result B) : Result B :=
  match r with
  | Ok a => k a
  | Raise e => Raise e
  end.

Declare Scope pyread_scope.
Notation "x <~ r ;; k" := (and_then r (fun x => k))
  (at level 100, r at next level, right associativity) : pyread_scope.
Local Open Scope pyread_scope.

(** ** model.py: the entities *)

Module CalendarEventBase.
Record t := mk {
  provider : CalendarProvider;
  calendar_id : string;
  summary : string;
  start_datetime : datetime;
  end_datetime : datetime;
  description : option string;
  timezone : string;
  reminder_minutes_before : option Z
}.
End CalendarEventBase.

Module CalendarEvent.
Record t := mk {
  base : CalendarEventBase.t;
  event_id : string
}.
End CalendarEvent.
Definition CalendarEvent := CalendarEvent.t.

Module SubTask.
Record t := mk {
  title : string;
  due_datetime : option datetime;
  completed : bool;
  add_to_calendar : bool;
  event_duration_minutes : Z;
  calendar_id : option string;
  calendar_event_id : option string;
  id : UUID;
  task_id : UUID;
  created_at : datetime;
  updated_at : datetime
}.
End SubTask.
Definition SubTask := SubTask.t.

Module Task.
Record t := mk {
  title : string;
  note : option string;
  due_datetime : option datetime;
  completed : bool;
  id : UUID;
  calendar_event : option CalendarEvent;
  subtasks : list SubTask
}.
End Task.
Definition Task := Task.t.

(** ** What the read path runs in *)

Record World := mkWorld {
  (** the module-level store [TASKS: Dict[UUID, Task]] *)
  TASKS : dict Task;
  (** the UTC instants the coming readings of the system clock show, in
      microseconds since the epoch *)
  clock : nat -> Z
}.

Definition M (A : Type) : Type := World -> Result A * World.

Definition ret {A} (a : A) : M A := fun w => (Ok a, w).

Definition raise {A} (e : Exception) : M A := fun w => (Raise e, w).

(** A computation that touches neither the store nor the clock. *)
Definition lift {A} (r : Result A) : M A := fun w => (r, w).

Definition bind {A B} (m : M A) (k : A -> M B) : M B :=
  fun w =>
    match m w with
    | (Ok a, w') => k a w'
    | (Raise e, w') => (Raise e, w')
    end.

Notation "x <- m ;; k" := (bind m (fun x => k))
  (at level 100, m at next level, right associativity) : pyread_scope.
Notation "m ;;; k" := (bind m (fun _ => k))
  (at level 100, right associativity) : pyread_scope.

Definition get_TASKS : M (dict Task) := fun w => (Ok (TASKS w), w).

Definition read_clock : M Z :=
  fun w => (Ok (clock w O), mkWorld (TASKS w) (fun n => clock w (S n))).

(** The world one clock reading later. *)
Definition tick (w : World) : World :=
  mkWorld (TASKS w) (fun n => clock w (S n)).

(** ** Sorting with a comparison that may raise

    [list.sort(key=...)] and [sorted(..., key=...)] compare keys with [<],
    and an exception raised by a comparison ends the sort.  Insertion from
    the right is the reference stable sort.  Which keys a sort compares
    depends on the algorithm; whether a comparison of due dates raises
    does not: a sort that never compared a naive due date with an aware
    one could not know which of the two comes first. *)

Section SortOrRaise.
Context {A K : Type} (key : A -> K) (lt : K -> K -> Result bool).

Fixpoint insert_or_raise (x : A) (l : list A) : Result (list A) :=
  match l with
  | [] => Ok [x]
  | y :: rest =>
      below <~ lt (key y) (key x) ;;
      if below then rest' <~ insert_or_raise x rest ;; Ok (y :: rest')
      else Ok (x :: y :: rest)
  end.

Fixpoint sort_or_raise (l : list A) : Result (list A) :=
  match l with
  | [] => Ok []
  | x :: rest => sorted <~ sort_or_raise rest ;; insert_or_raise x sorted
  end.

End SortOrRaise.

(** [t.due_datetime or datetime.max]. *)
Definition or_max (o : option datetime) : datetime :=
  match o with
  | Some d => d
  | None => datetime_max
  end.

(** [<] on the tuples [(bool, datetime)]: the first components that are
    not [==] decide, by their [<]. *)
Definition key2_lt_or_raise (x y : bool * datetime) : Result bool :=
  if Bool.eqb (fst x) (fst y) then
    if __eq__ (snd x) (snd y) then Ok false else __lt__ (snd x) (snd y)
  else Ok (bool_lt (fst x) (fst y)).

(** [<] on the tuples [(bool, datetime, datetime)]. *)
Definition key3_lt_or_raise (x y : bool * datetime * datetime) : Result bool :=
  if Bool.eqb (fst (fst x)) (fst (fst y)) then
    if __eq__ (snd (fst x)) (snd (fst y)) then
      if __eq__ (snd x) (snd y) then Ok false else __lt__ (snd x) (snd y)
    else __lt__ (snd (fst x)) (snd (fst y))
  else Ok (bool_lt (fst (fst x)) (fst (fst y))).

(** The key of [list_tasks]:
    [(t.due_datetime is None, t.due_datetime or datetime.max)]. *)
Definition task_sort_key (t : Task) : bool * datetime :=
  (is_None (Task.due_datetime t), or_max (Task.due_datetime t)).

(** The key of [list_subtasks]. *)
Definition subtask_sort_key (st : SubTask) : bool * datetime * datetime :=
  (is_None (SubTask.due_datetime st), or_max (SubTask.due_datetime st),
   SubTask.created_at st).

(** ** main.py: the read path *)

Section Read.

(** [str.lower], given by the interpreter's Unicode tables. *)
Variable str_lower : string -> string.

(** The UTC offset of Asia/Colombo at a UTC instant, given by the timezone
    database. *)
Variable colombo_utcoffset : Z -> Z.

(** The UTC offset the host's local zone has at a naive reading, or what
    the platform raises for it: [astimezone] reads a naive value in the
    host's zone. *)
Variable local_utcoffset : Z -> Result Z.

Definition utcoffset_of (d : datetime) : Result Z :=
  match d with
  | Naive x => local_utcoffset x
  | Aware _ off => Ok off
  end.

(** [ZoneInfo("Asia/Colombo").fromutc]: the UTC reading plus the zone's
    offset then. *)
Definition fromutc (utc : Z) : Result datetime :=
  let off := colombo_utcoffset utc in
  if representable (utc + off) then Ok (Aware (utc + off) off)
  else Raise date_value_out_of_range.

(** [dt.astimezone(ZoneInfo("Asia/Colombo"))]: [(dt - offset)] read as
    UTC, then [fromutc]. *)
Definition astimezone (dt : datetime) : Result datetime :=
  off <~ utcoffset_of dt ;;
  if representable (wall dt - off) then fromutc (wall dt - off)
  else Raise date_value_out_of_range.

(** [datetime.now(ZoneInfo("Asia/Colombo")).date()]. *)
Definition _colombo_today : M Z :=
  utc <- read_clock ;;
  now <- lift (fromutc utc) ;;
  ret (date now).

Definition _get_task_or_404 (task_id : UUID) : M Task :=
  tasks <- get_TASKS ;;
  match dict_get task_id tasks with
  | Some task => ret task
  | None => raise (HTTPException 404 "Task not found")
  end.

Definition _matches_query (task : Task) (q : option string) : bool :=
  match q with
  | None => true
  | Some q =>
      if negb (str_truthy q) then true
      else
        let ql := str_lower q in
        str_contains ql (str_lower (Task.title task))
        || match Task.note task with
           | Some note => str_truthy note && str_contains ql (str_lower note)
           | None => false
           end
  end.

Definition _in_due_range (task : Task) (due_from due_to : option datetime)
  : Result bool :=
  match Task.due_datetime task with
  | None => Ok true
  | Some due =>
      before <~ match due_from with
                | Some f => __lt__ due f
                | None => Ok false
                end ;;
      if before then Ok false
      else
        after <~ match due_to with
                 | Some t => __gt__ due t
                 | None => Ok false
                 end ;;
        if after then Ok false else Ok true
  end.

Definition _matches_list_filter (task : Task)
    (list_filter : option TaskListFilter) : M bool :=
  match list_filter with
  | None => ret true
  | Some done => ret (Task.completed task)
  | Some today =>
      match Task.due_datetime task with
      | None => ret false
      | Some due =>
          local <- lift (astimezone due) ;;
          current <- _colombo_today ;;
          ret (date local =? current)
      end
  | Some upcoming =>
      match Task.due_datetime task with
      | None => ret false
      | Some due =>
          local <- lift (astimezone due) ;;
          current <- _colombo_today ;;
          ret (date local >? current)
      end
  end.

(** [TaskListQuery(...)]: the model validator [_check_range].  pydantic
    turns the [ValueError] into its validation error; a [TypeError] passes
    through. *)
Definition TaskListQuery_check_range (due_from due_to : option datetime)
  : M unit :=
  match due_from, due_to with
  | Some f, Some t =>
      inverted <- lift (__gt__ f t) ;;
      if inverted then raise (ValidationError "due_from must be <= due_to")
      else ret tt
  | _, _ => ret tt
  end.

(** The [for task in TASKS.values()] loop of [list_tasks]. *)
Fixpoint scan_tasks (tasks : list Task) (list_filter : option TaskListFilter)
    (q : option string) (due_from due_to : option datetime) : M (list Task) :=
  match tasks with
  | [] => ret []
  | task :: rest =>
      if negb (_matches_query task q) then
        scan_tasks rest list_filter q due_from due_to
      else
        in_range <- lift (_in_due_range task due_from due_to) ;;
        if negb in_range then scan_tasks rest list_filter q due_from due_to
        else
          keep <- _matches_list_filter task list_filter ;;
          items <- scan_tasks rest list_filter q due_from due_to ;;
          ret (if keep then task :: items else items)
  end.

Definition list_tasks (list_filter : option TaskListFilter)
    (q : option string) (due_from due_to : option datetime) : M (list Task) :=
  TaskListQuery_check_range due_from due_to ;;;
  tasks <- get_TASKS ;;
  items <- scan_tasks (dict_values tasks) list_filter q due_from due_to ;;
  lift (sort_or_raise task_sort_key key2_lt_or_raise items).

Definition list_subtasks (task_id : UUID) : M (list SubTask) :=
  task <- _get_task_or_404 task_id ;;
  lift (sort_or_raise subtask_sort_key key3_lt_or_raise (Task.subtasks task)).

(** ** The vocabulary of the properties *)

(** [a] is not after [b], for two values Python can order. *)
Definition before_or_at (a b : datetime) : Prop :=
  match a, b with
  | Naive x, Naive y => x <= y
  | Aware x ox, Aware y oy => x - ox <= y - oy
  | _, _ => False
  end.






(** What [_matches_list_filter] answers when the current date in
    Asia/Colombo is [current]. *)
Definition matches_list_filter_on (current : Z) (task : Task)
    (list_filter : option TaskListFilter) : Result bool :=
  match list_filter with
  | None => Ok true
  | Some done => Ok (Task.completed task)
  | Some today =>
      match Task.due_datetime task with
      | None => Ok false
      | Some due => local <~ astimezone due ;; Ok (date local =? current)
      end
  | Some upcoming =>
      match Task.due_datetime task with
      | None => Ok false
      | Some due => local <~ astimezone due ;; Ok (date local >? current)
      end
  end.





(** ** Comparing datetimes *)

(** What two values of one kind are compared by: the wall reading of a
    naive value, the instant of an aware one. *)
Definition rank (d : datetime) : Z :=
  match d with
  | Naive x => x
  | Aware x off => x - off
  end.

Lemma __lt___rank a b :
  is_aware a = is_aware b -> __lt__ a b = Ok (rank a <? rank b).
Proof. destruct a, b; simpl; auto; discriminate. Qed.

Lemma __gt___rank a b :
  is_aware a = is_aware b -> __gt__ a b = Ok (rank a >? rank b).
Proof. destruct a, b; simpl; auto; discriminate. Qed.

Lemma __eq___rank a b :
  is_aware a = is_aware b -> __eq__ a b = (rank a =? rank b).
Proof. destruct a, b; simpl; auto; discriminate. Qed.

Lemma __eq___is_aware a b : __eq__ a b = true -> is_aware a = is_aware b.
Proof. destruct a, b; simpl; auto; discriminate. Qed.


Lemma before_or_at_rank a b :
  is_aware a = is_aware b -> (before_or_at a b <-> rank a <= rank b).
Proof. destruct a, b; simpl; try discriminate; intros _; reflexivity. Qed.


Lemma __lt___mixed a b :
  is_aware a <> is_aware b -> __lt__ a b = Raise naive_and_aware.
Proof. destruct a, b; simpl; auto; intros H; now destruct H. Qed.

Lemma __gt___mixed a b :
  is_aware a <> is_aware b -> __gt__ a b = Raise naive_and_aware.
Proof. destruct a, b; simpl; auto; intros H; now destruct H. Qed.

(** ** C7: the due-range predicate *)

(** What [_in_due_range] computes when the bounds are of the due date's
    kind. *)
Lemma _in_due_range_rank task due due_from due_to :
  Task.due_datetime task = Some due ->
  (forall bound, due_from = Some bound \/ due_to = Some bound ->
                 is_aware bound = is_aware due) ->
  _in_due_range task due_from due_to
  = Ok (negb match due_from with
             | Some f => rank due <? rank f
             | None => false
             end
        && negb match due_to with
                | Some t => rank t <? rank due
                | None => false
                end).
Proof.
  intros E Hkind. unfold _in_due_range. rewrite E.
  destruct due_from as [f|].
  - rewrite __lt___rank by (symmetry; apply Hkind; auto). simpl.
    destruct (rank due <? rank f); simpl; auto.
    destruct due_to as [t|]; simpl; auto.
    rewrite __gt___rank by (symmetry; apply Hkind; auto). simpl.
    rewrite Z.gtb_ltb. now destruct (rank t <? rank due).
  - simpl. destruct due_to as [t|]; simpl; auto.
    rewrite __gt___rank by (symmetry; apply Hkind; auto). simpl.
    rewrite Z.gtb_ltb. now destruct (rank t <? rank due).
Qed.

(** C7 (amended). A task with no due date passes the due-range predicate
    whatever [due_from] and [due_to] are.  When every supplied bound is of
    the due date's kind, both aware or both naive, the predicate returns,
    and it passes the task iff the due date is not before [due_from] (when
    supplied) and not after [due_to] (when supplied). *)
Theorem in_due_range_inclusive_when_comparable :
  forall (task : Task) (due_from due_to : option datetime),
    match Task.due_datetime task with
    | None => _in_due_range task due_from due_to = Ok true
    | Some due =>
        (forall bound, due_from = Some bound \/ due_to = Some bound ->
                       is_aware bound = is_aware due) ->
        exists passes : bool,
          _in_due_range task due_from due_to = Ok passes /\
          (passes = true <->
           (forall f, due_from = Some f -> before_or_at f due) /\
           (forall t, due_to = Some t -> before_or_at due t))
    end.
Proof.
  intros task due_from due_to.
  destruct (Task.due_datetime task) as [due|] eqn:E;
    [|unfold _in_due_range; now rewrite E].
  intros Hkind. rewrite (_in_due_range_rank _ _ _ _ E Hkind).
  eexists. split; [reflexivity|].
  rewrite andb_true_iff, !negb_true_iff.
  assert (Hf : forall f, due_from = Some f ->
                 (before_or_at f due <-> rank f <= rank due)).
  { intros f Ef. apply before_or_at_rank. apply Hkind. auto. }
  assert (Ht : forall t, due_to = Some t ->
                 (before_or_at due t <-> rank due <= rank t)).
  { intros t Et. apply before_or_at_rank. symmetry. apply Hkind. auto. }
  clear Hkind.
  destruct due_from as [f|], due_to as [t|];
    rewrite ?Z.ltb_ge; split.
  all: try (intros [H1 H2]; split; intros x Ex; inversion Ex; subst x;
            first [apply Hf|apply Ht]; auto).
  all: try (intros [H1 H2]; split; auto;
            first [apply Hf|apply Ht]; auto).
Qed.

(** ** C4: the named list filter *)






(** ** C3: listing tasks *)




(** *** The sort *)

Section SortRefines.
Context {A K K' : Type} (key : A -> K) (lt_or_raise : K -> K -> Result bool)
        (key' : A -> K') (lt : K' -> K' -> bool).

(** A sort whose comparisons all return is the sort by the keys they
    compare. *)
Lemma insert_or_raise_refines x l :
  (forall y, In y l ->
     lt_or_raise (key y) (key x) = Ok (lt (key' y) (key' x))) ->
  insert_or_raise key lt_or_raise x l = Ok (insert_by_key key' lt x l).
Proof.
  induction l as [|y l IH]; intros H; simpl; auto.
  rewrite (H y) by now left. simpl.
  destruct (lt (key' y) (key' x)); auto.
  rewrite IH; auto. intros z Hz. apply H. now right.
Qed.

Lemma sort_or_raise_refines l :
  (forall x y, In x l -> In y l ->
     lt_or_raise (key x) (key y) = Ok (lt (key' x) (key' y))) ->
  sort_or_raise key lt_or_raise l = Ok (sort_by_key key' lt l).
Proof.
  induction l as [|x l IH]; intros H; simpl; auto.
  rewrite IH by (intros; apply H; now right). simpl.
  apply insert_or_raise_refines. intros y Hy. apply H.
  - right. exact (Permutation_in _ (sort_by_key_perm key' lt l) Hy).
  - now left.
Qed.

End SortRefines.

(** The key the tasks of a list whose due dates are of one kind are
    sorted by. *)
Definition rank_key (t : Task) : bool * Z :=
  (is_None (Task.due_datetime t),
   match Task.due_datetime t with
   | Some d => rank d
   | None => max_wall
   end).

Definition one_kind (aw : bool) (l : list Task) : Prop :=
  forall task d, In task l -> Task.due_datetime task = Some d ->
                 is_aware d = aw.

Lemma key2_lt_or_raise_rank aw x y :
  (forall d, Task.due_datetime x = Some d -> is_aware d = aw) ->
  (forall d, Task.due_datetime y = Some d -> is_aware d = aw) ->
  key2_lt_or_raise (task_sort_key x) (task_sort_key y)
  = Ok (key2_lt (rank_key x) (rank_key y)).
Proof.
  intros Hx Hy. unfold key2_lt_or_raise, task_sort_key, rank_key, key2_lt.
  destruct (Task.due_datetime x) as [a|], (Task.due_datetime y) as [b|];
    simpl; auto.
  assert (Hk : is_aware a = is_aware b)
    by (rewrite (Hx a), (Hy b); auto).
  rewrite (__eq___rank _ _ Hk), (__lt___rank _ _ Hk).
  destruct (Z.eqb_spec (rank a) (rank b)) as [->|]; auto.
  now rewrite Z.ltb_irrefl.
Qed.

Lemma sort_tasks_returns aw l :
  one_kind aw l ->
  sort_or_raise task_sort_key key2_lt_or_raise l
  = Ok (sort_by_key rank_key key2_lt l).
Proof.
  intros H. apply sort_or_raise_refines. intros x y Hx Hy.
  apply (key2_lt_or_raise_rank aw); intros d; now apply H.
Qed.

(** Ascending by rank, tasks without a due date last. *)
Definition rank_le (t1 t2 : Task) : Prop :=
  match Task.due_datetime t1, Task.due_datetime t2 with
  | Some a, Some b => rank a <= rank b
  | _, None => True
  | None, Some _ => False
  end.

Lemma rank_key_le t1 t2 :
  key_le rank_key key2_lt t1 t2 <-> rank_le t1 t2.
Proof.
  clear str_lower colombo_utcoffset local_utcoffset.
  unfold key_le, rank_key, key2_lt, bool_lt, rank_le.
  destruct (Task.due_datetime t1) as [a|], (Task.due_datetime t2) as [b|];
    simpl.
  - apply Z.ltb_ge.
  - split; auto.
  - split; [discriminate|intros []].
  - rewrite Z.ltb_irrefl. split; auto.
Qed.

Lemma rank_le_trans t1 t2 t3 : rank_le t1 t2 -> rank_le t2 t3 -> rank_le t1 t3.
Proof.
  clear str_lower colombo_utcoffset local_utcoffset.
  unfold rank_le.
  destruct (Task.due_datetime t1), (Task.due_datetime t2),
    (Task.due_datetime t3); auto; try lia; intros [].
Qed.



Lemma sort_by_rank_key_sorted l :
  StronglySorted rank_le (sort_by_key rank_key key2_lt l).
Proof.
  apply Sorted_StronglySorted; [exact rank_le_trans|].
  pose proof (sort_by_key_sorted rank_key key2_lt key2_lt_asym l) as H.
  induction H as [|x l' Hs IH Hhd]; constructor; auto.
  destruct Hhd; constructor. now apply rank_key_le.
Qed.






(** ** Listing subtasks *)

(** By due date ascending with no due date last, then by creation time. *)
Definition subtask_le (a b : SubTask) : Prop :=
  match SubTask.due_datetime a, SubTask.due_datetime b with
  | Some x, Some y =>
      (before_or_at x y /\ __eq__ x y = false) \/
      (__eq__ x y = true /\
       before_or_at (SubTask.created_at a) (SubTask.created_at b))
  | None, None => before_or_at (SubTask.created_at a) (SubTask.created_at b)
  | Some _, None => True
  | None, Some _ => False
  end.

(** The subtask is due at [d] (or never) and was created at [c], by [==]. *)
Definition in_slot (d : option datetime) (c : datetime) (st : SubTask)
  : bool :=
  match SubTask.due_datetime st, d with
  | Some x, Some y => __eq__ x y
  | None, None => true
  | _, _ => false
  end
  && __eq__ (SubTask.created_at st) c.

(** The key the subtasks of a list whose due dates are of one kind, and
    whose creation times are, are sorted by. *)
Definition rank_key3 (st : SubTask) : bool * Z * Z :=
  (is_None (SubTask.due_datetime st),
   match SubTask.due_datetime st with
   | Some d => rank d
   | None => max_wall
   end,
   rank (SubTask.created_at st)).

Definition rank_le3 (a b : SubTask) : Prop :=
  match SubTask.due_datetime a, SubTask.due_datetime b with
  | Some x, Some y =>
      rank x < rank y \/
      (rank x = rank y /\
       rank (SubTask.created_at a) <= rank (SubTask.created_at b))
  | None, None => rank (SubTask.created_at a) <= rank (SubTask.created_at b)
  | Some _, None => True
  | None, Some _ => False
  end.

Definition subtasks_one_kind (aw aw' : bool) (l : list SubTask) : Prop :=
  forall st, In st l ->
    is_aware (SubTask.created_at st) = aw' /\
    forall d, SubTask.due_datetime st = Some d -> is_aware d = aw.

Lemma key3_lt_or_raise_rank aw aw' x y :
  subtasks_one_kind aw aw' [x; y] ->
  key3_lt_or_raise (subtask_sort_key x) (subtask_sort_key y)
  = Ok (key3_lt (rank_key3 x) (rank_key3 y)).
Proof.
  intros H.
  destruct (H x) as [Hcx Hx]; [now left|].
  destruct (H y) as [Hcy Hy]; [right; now left|].
  assert (Hc : is_aware (SubTask.created_at x)
               = is_aware (SubTask.created_at y)) by congruence.
  unfold key3_lt_or_raise, subtask_sort_key, rank_key3, key3_lt.
  destruct (SubTask.due_datetime x) as [a|],
    (SubTask.due_datetime y) as [b|]; simpl; auto.
  - assert (Hk : is_aware a = is_aware b)
      by (rewrite (Hx a), (Hy b); auto).
    rewrite (__eq___rank _ _ Hk), (__lt___rank _ _ Hk).
    destruct (Z.eqb_spec (rank a) (rank b)); auto.
    rewrite (__eq___rank _ _ Hc), (__lt___rank _ _ Hc).
    destruct (Z.eqb_spec (rank (SubTask.created_at x))
                         (rank (SubTask.created_at y))) as [->|]; auto.
    now rewrite Z.ltb_irrefl.
  - rewrite ?Z.eqb_refl.
    rewrite (__eq___rank _ _ Hc), (__lt___rank _ _ Hc).
    destruct (Z.eqb_spec (rank (SubTask.created_at x))
                         (rank (SubTask.created_at y))) as [->|]; auto.
    now rewrite Z.ltb_irrefl.
Qed.

Lemma rank_key3_le a b :
  key_le rank_key3 key3_lt a b <-> rank_le3 a b.
Proof.
  clear str_lower colombo_utcoffset local_utcoffset.
  unfold key_le, rank_key3, key3_lt, bool_lt, rank_le3.
  destruct (SubTask.due_datetime a) as [x|],
    (SubTask.due_datetime b) as [y|]; simpl.
  - destruct (Z.eqb_spec (rank y) (rank x)); rewrite Z.ltb_ge; lia.
  - split; auto.
  - split; [discriminate|intros []].
  - rewrite ?Z.eqb_refl, Z.ltb_ge. reflexivity.
Qed.

Lemma rank_le3_trans a b c : rank_le3 a b -> rank_le3 b c -> rank_le3 a c.
Proof.
  clear str_lower colombo_utcoffset local_utcoffset.
  unfold rank_le3.
  destruct (SubTask.due_datetime a), (SubTask.due_datetime b),
    (SubTask.due_datetime c); auto; try lia; intros [].
Qed.

Lemma rank_le3_subtask_le aw aw' a b :
  subtasks_one_kind aw aw' [a; b] -> rank_le3 a b -> subtask_le a b.
Proof.
  intros H.
  destruct (H a) as [Hca Ha]; [now left|].
  destruct (H b) as [Hcb Hb]; [right; now left|].
  assert (Hc : is_aware (SubTask.created_at a)
               = is_aware (SubTask.created_at b)) by congruence.
  unfold rank_le3, subtask_le.
  destruct (SubTask.due_datetime a) as [x|],
    (SubTask.due_datetime b) as [y|]; auto.
  - assert (Hk : is_aware x = is_aware y)
      by (rewrite (Ha x), (Hb y); auto).
    rewrite (__eq___rank _ _ Hk), (before_or_at_rank _ _ Hk),
      (before_or_at_rank _ _ Hc), Z.eqb_eq, Z.eqb_neq. lia.
  - now rewrite (before_or_at_rank _ _ Hc).
Qed.

Lemma Sorted_key_le_rank_le3 l :
  Sorted (key_le rank_key3 key3_lt) l -> Sorted rank_le3 l.
Proof.
  induction 1 as [|x l Hs IH Hhd]; constructor; auto.
  destruct Hhd; constructor. now apply rank_key3_le.
Qed.

Lemma StronglySorted_rank_le3_subtask_le aw aw' l :
  subtasks_one_kind aw aw' l ->
  StronglySorted rank_le3 l -> StronglySorted subtask_le l.
Proof.
  intros Hk Hs. induction Hs as [|x l Hs IH Hx]; constructor.
  - apply IH. intros st Hst. apply Hk. now right.
  - rewrite Forall_forall in *. intros y Hy.
    apply (rank_le3_subtask_le aw aw'); auto.
    intros st [<-|[<-|[]]]; apply Hk; [now left|now right].
Qed.

(** X10. List Subtasks on a stored task whose subtasks' due dates are all
    aware or all naive, and whose creation times are, does not raise and
    changes nothing.  It returns the task's subtasks, each as often as it
    is in the list, ordered by due date ascending with the subtasks
    without a due date last, subtasks with equal due dates by creation
    time ascending, and subtasks that agree on both in the order of the
    task's list. *)
Theorem list_subtasks_sorted :
  forall (w : World) (task_id : UUID) (task : Task) (aw aw' : bool),
    dict_get task_id (TASKS w) = Some task ->
    subtasks_one_kind aw aw' (Task.subtasks task) ->
    exists items : list SubTask,
      list_subtasks task_id w = (Ok items, w) /\
      Permutation items (Task.subtasks task) /\
      StronglySorted subtask_le items /\
      forall d c,
        filter (in_slot d c) items
        = filter (in_slot d c) (Task.subtasks task).
Proof.
  intros w task_id task aw aw' Hget Hkind.
  assert (Hsort : sort_or_raise subtask_sort_key key3_lt_or_raise
                    (Task.subtasks task)
                  = Ok (sort_by_key rank_key3 key3_lt (Task.subtasks task))).
  { apply sort_or_raise_refines. intros x y Hx Hy.
    apply (key3_lt_or_raise_rank aw aw'). intros st [<-|[<-|[]]]; auto. }
  unfold list_subtasks, _get_task_or_404, bind, get_TASKS, lift, ret.
  rewrite Hget, Hsort.
  eexists. split; [reflexivity|].
  split; [apply sort_by_key_perm|]. split.
  - apply (StronglySorted_rank_le3_subtask_le aw aw').
    + intros st Hst. apply Hkind.
      exact (Permutation_in _ (sort_by_key_perm rank_key3 key3_lt _) Hst).
    + apply Sorted_StronglySorted; [exact rank_le3_trans|].
      apply Sorted_key_le_rank_le3.
      apply sort_by_key_sorted. exact key3_lt_asym.
  - intros d c. apply sort_by_key_stable. intros x y Hx Hy.
    unfold in_slot, rank_key3, key3_lt, bool_lt in *.
    apply andb_true_iff in Hx, Hy. destruct Hx as [Hx Hxc], Hy as [Hy Hyc].
    pose proof (__eq___is_aware _ _ Hxc) as Kx.
    pose proof (__eq___is_aware _ _ Hyc) as Ky.
    rewrite (__eq___rank _ _ Kx) in Hxc. rewrite (__eq___rank _ _ Ky) in Hyc.
    apply Z.eqb_eq in Hxc, Hyc.
    destruct (SubTask.due_datetime x) as [a|],
      (SubTask.due_datetime y) as [b|], d as [e|]; simpl;
      try discriminate.
    + pose proof (__eq___is_aware _ _ Hx) as Ka.
      pose proof (__eq___is_aware _ _ Hy) as Kb.
      rewrite (__eq___rank _ _ Ka) in Hx. rewrite (__eq___rank _ _ Kb) in Hy.
      apply Z.eqb_eq in Hx, Hy.
      rewrite Hx, Hy, Hxc, Hyc, Z.eqb_refl. apply Z.ltb_irrefl.
    + rewrite ?Z.eqb_refl, Hxc, Hyc. apply Z.ltb_irrefl.
Qed.

(** ** A store that mixes naive and aware due dates *)

(** Two tasks of the list have due dates of different kinds. *)
Definition mixes_kinds (l : list Task) : Prop :=
  exists x y dx dy,
    In x l /\ In y l /\
    Task.due_datetime x = Some dx /\ Task.due_datetime y = Some dy /\
    is_aware dx <> is_aware dy.

Lemma mixes_kinds_cons a l : mixes_kinds l -> mixes_kinds (a :: l).
Proof.
  intros (x & y & dx & dy & Hx & Hy & H).
  exists x, y, dx, dy. split; [now right|]. split; [now right|exact H].
Qed.

Lemma one_kind_or_mixes l : (exists aw, one_kind aw l) \/ mixes_kinds l.
Proof.
  induction l as [|a r IH].
  - left. exists true. intros task d [].
  - destruct IH as [[aw Hk]|Hm]; [|right; now apply mixes_kinds_cons].
    destruct (Task.due_datetime a) as [da|] eqn:Ea.
    2:{ left. exists aw. intros task d [<-|Hin] E; [congruence|eauto]. }
    destruct (Bool.bool_dec (is_aware da) aw) as [Hda|Hda].
    { left. exists aw. intros task d [<-|Hin] E; [congruence|eauto]. }
    destruct (existsb (fun t => negb (is_None (Task.due_datetime t))) r)
      eqn:Hdated.
    + right. apply existsb_exists in Hdated.
      destruct Hdated as (y & Hy & Hdy).
      destruct (Task.due_datetime y) as [dy|] eqn:Ey; [|discriminate].
      exists a, y, da, dy. split; [now left|]. split; [now right|].
      split; auto. split; auto. rewrite (Hk y dy Hy Ey). exact Hda.
    + left. exists (is_aware da). intros task d [<-|Hin] E; [congruence|].
      assert (Hnone : negb (is_None (Task.due_datetime task)) = false).
      { destruct (negb (is_None (Task.due_datetime task))) eqn:Hn; auto.
        assert (Hex : existsb
                        (fun t => negb (is_None (Task.due_datetime t))) r
                      = true) by (apply existsb_exists; eauto).
        congruence. }
      rewrite E in Hnone. discriminate.
Qed.

(** A sorted list that holds a dated task starts with one. *)
Lemma sorted_head_dated l y dy :
  StronglySorted rank_le l -> In y l -> Task.due_datetime y = Some dy ->
  exists h rest dh, l = h :: rest /\ Task.due_datetime h = Some dh.
Proof.
  intros Hs Hin Ey. destruct Hs as [|h rest Hs Hh]; [destruct Hin|].
  destruct Hin as [->|Hin]; [exists y, rest, dy; auto|].
  rewrite Forall_forall in Hh. specialize (Hh y Hin).
  unfold rank_le in Hh. rewrite Ey in Hh.
  destruct (Task.due_datetime h) as [dh|] eqn:Eh; [|destruct Hh].
  exists h, rest, dh. auto.
Qed.

(** The sort raises when the list mixes the kinds: it has to compare a
    naive due date with an aware one. *)
Lemma sort_tasks_raises l :
  mixes_kinds l ->
  sort_or_raise task_sort_key key2_lt_or_raise l = Raise naive_and_aware.
Proof.
  induction l as [|a r IH]; intros Hmix.
  - destruct Hmix as (x & _ & _ & _ & [] & _).
  - simpl. destruct (one_kind_or_mixes r) as [[aw Hk]|Hm];
      [|now rewrite IH].
    rewrite (sort_tasks_returns aw r Hk). simpl.
    assert (H : exists da y dy,
               Task.due_datetime a = Some da /\ is_aware da <> aw /\
               In y r /\ Task.due_datetime y = Some dy).
    { destruct Hmix as (x & y & dx & dy & Hx & Hy & Ex & Ey & Hne).
      destruct Hx as [<-|Hx], Hy as [<-|Hy].
      - congruence.
      - exists dx, y, dy. repeat split; auto.
        rewrite <- (Hk y dy Hy Ey). exact Hne.
      - exists dy, x, dx. repeat split; auto.
        rewrite <- (Hk x dx Hx Ex). auto.
      - rewrite (Hk x dx Hx Ex), (Hk y dy Hy Ey) in Hne. now destruct Hne. }
    destruct H as (da & y & dy & Ea & Hda & Hy & Ey).
    destruct (sorted_head_dated (sort_by_key rank_key key2_lt r) y dy)
      as (h & rest & dh & Es & Eh); auto.
    { apply sort_by_rank_key_sorted. }
    { exact (Permutation_in _
               (Permutation_sym (sort_by_key_perm rank_key key2_lt r)) Hy). }
    rewrite Es. simpl.
    assert (Hh : In h r).
    { apply (Permutation_in _ (sort_by_key_perm rank_key key2_lt r)).
      rewrite Es. now left. }
    assert (Hne : is_aware dh <> is_aware da).
    { rewrite (Hk h dh Hh Eh). auto. }
    unfold key2_lt_or_raise, task_sort_key. rewrite Eh, Ea. simpl.
    destruct (__eq__ dh da) eqn:Heq.
    + apply __eq___is_aware in Heq. now destruct Hne.
    + now rewrite (__lt___mixed _ _ Hne).
Qed.

(** Without filters the scan returns every stored task and reads no
    clock. *)
Lemma scan_tasks_without_filters (tasks : list Task) w :
  scan_tasks tasks None None None None w = (Ok tasks, w).
Proof.
  revert w. induction tasks as [|task rest IH]; intros w; simpl; auto.
  assert (Hr : _in_due_range task None None = Ok true).
  { unfold _in_due_range. now destruct (Task.due_datetime task). }
  unfold bind, lift, ret. rewrite Hr. simpl. now rewrite IH.
Qed.

(** X20. A listing without filters raises exactly when two stored tasks
    have due dates of different kinds, one naive and one aware; what it
    raises then is the [TypeError] of the comparison, and the world is as
    it was.  Otherwise it returns every stored task, each as often as it
    is stored, and reads no clock. *)
Theorem list_tasks_raises_on_mixed_kinds :
  forall (w : World),
    (mixes_kinds (dict_values (TASKS w)) ->
     list_tasks None None None None w = (Raise naive_and_aware, w)) /\
    (~ mixes_kinds (dict_values (TASKS w)) ->
     exists items,
       list_tasks None None None None w = (Ok items, w) /\
       Permutation items (dict_values (TASKS w))) /\
    (raises (fst (list_tasks None None None None w)) = true <->
     mixes_kinds (dict_values (TASKS w))).
Proof.
  intros w.
  assert (Hrun : list_tasks None None None None w
                 = (sort_or_raise task_sort_key key2_lt_or_raise
                      (dict_values (TASKS w)), w)).
  { unfold list_tasks, TaskListQuery_check_range, bind, ret, get_TASKS, lift.
    now rewrite scan_tasks_without_filters. }
  assert (Hmixed : mixes_kinds (dict_values (TASKS w)) ->
                   list_tasks None None None None w
                   = (Raise naive_and_aware, w)).
  { intros Hm. now rewrite Hrun, (sort_tasks_raises _ Hm). }
  assert (Hkind : forall aw, one_kind aw (dict_values (TASKS w)) ->
                  list_tasks None None None None w
                  = (Ok (sort_by_key rank_key key2_lt (dict_values (TASKS w))),
                     w)).
  { intros aw Hk. now rewrite Hrun, (sort_tasks_returns aw _ Hk). }
  split; [exact Hmixed|]. split.
  - intros Hno.
    destruct (one_kind_or_mixes (dict_values (TASKS w))) as [[aw Hk]|Hm];
      [|now destruct Hno].
    eexists. split; [now apply (Hkind aw)|apply sort_by_key_perm].
  - split.
    + intros Hraises.
      destruct (one_kind_or_mixes (dict_values (TASKS w))) as [[aw Hk]|Hm];
        auto.
      rewrite (Hkind aw Hk) in Hraises. discriminate.
    + intros Hm. now rewrite (Hmixed Hm).
Qed.


End Read.

(** ** The read path at work on sample data *)

(** A host whose local zone is UTC. *)
Definition host_in_utc (_ : Z) : Result Z := Ok 0.

(** 9999-12-31T18:30:00 UTC: midnight of the year 10000 in Asia/Colombo. *)
Definition dec_31_9999_1830 : Z := 253402281000000000.


Definition task_due_march : Task :=
  Task.mk "write report" (Some "for Monday"%string)
          (Some (Aware mar_1_2024 0)) false 1%N None [].

Definition task_without_due : Task :=
  Task.mk "call home" None None false 2%N None [].

Definition task_due_january : Task :=
  Task.mk "taxes" None (Some (Aware jan_1_2024 0)) true 3%N None [].


(** A due date sent without an offset. *)
Definition task_due_naive : Task :=
  Task.mk "water plants" None (Some (Naive jan_1_2024)) false 5%N None [].


(** A store holding tasks due 2024-03-01, never and 2024-01-01, in that
    order of insertion; the clock counts upwards from 2024-01-01T00:00 UTC. *)
Definition three_tasks_world : World :=
  mkWorld
    [(1%N, task_due_march); (2%N, task_without_due); (3%N, task_due_january)]
    (fun n => jan_1_2024 + Z.of_nat n).






(** C7's amended statement at work: bounds and due date aware. *)
Lemma in_due_range_inclusive_when_comparable_witness :
  exists passes : bool,
    _in_due_range task_due_march (Some (Aware jan_1_2024 0))
      (Some (Aware mar_1_2024 19800000000)) = Ok passes /\
    (passes = true <->
     (forall f, Some (Aware jan_1_2024 0) = Some f ->
                before_or_at f (Aware mar_1_2024 0)) /\
     (forall t, Some (Aware mar_1_2024 19800000000) = Some t ->
                before_or_at (Aware mar_1_2024 0) t)).
Proof.
  apply (in_due_range_inclusive_when_comparable task_due_march
           (Some (Aware jan_1_2024 0))
           (Some (Aware mar_1_2024 19800000000))).
  intros bound [E|E]; inversion E; reflexivity.
Defined.

(** C7 as stated fails: a due date without an offset and a bound with one
    make the predicate raise, so the task neither passes nor is
    excluded. *)
Lemma in_due_range_naive_and_aware_raises :
  Task.due_datetime task_due_naive = Some (Naive jan_1_2024) /\
  _in_due_range task_due_naive (Some (Aware jan_1_2023 0)) None
  = Raise naive_and_aware /\
  _in_due_range task_due_january None (Some (Naive mar_1_2024))
  = Raise naive_and_aware /\
  forall passes : bool,
    _in_due_range task_due_naive (Some (Aware jan_1_2023 0)) None <> Ok passes.
Proof. repeat split; discriminate. Qed.

Example in_due_range_on_sample :
  _in_due_range task_without_due (Some (Aware mar_1_2024 0)) None = Ok true /\
  _in_due_range task_due_january (Some (Aware jan_1_2024 0))
    (Some (Aware jan_1_2024 0)) = Ok true /\
  _in_due_range task_due_january (Some (Aware mar_1_2024 0)) None = Ok false /\
  _in_due_range task_due_march None (Some (Aware jan_1_2024 0)) = Ok false.
Proof. repeat split. Qed.



(** The instant before, 9999-12-31T18:29:59.999999 UTC, still converts. *)
Example astimezone_last_instant :
  astimezone utcoffset_0530 host_in_utc (Aware (dec_31_9999_1830 - 1) 0)
  = Ok (Aware max_wall 19800000000) /\
  astimezone utcoffset_0530 host_in_utc (Aware dec_31_9999_1830 0)
  = Raise date_value_out_of_range.
Proof. split; reflexivity. Qed.


(** The spec's example: due dates 2024-03-01, none, 2024-01-01. *)
Example list_tasks_three_due_dates :
  fst (list_tasks str_lower_ascii utcoffset_0530 host_in_utc
         None None None None three_tasks_world)
  = Ok [task_due_january; task_due_march; task_without_due].
Proof. reflexivity. Qed.


(** X10 at work: two subtasks created in turn, the later one due first. *)
Definition two_subtasks_task : Task :=
  Task.mk "move house" None None false 7%N None
    [SubTask.mk "pack" (Some (Aware mar_1_2024 0)) false false 60 None None
       71%N 7%N (Naive jan_1_2023) (Naive jan_1_2023);
     SubTask.mk "book van" (Some (Aware jan_1_2024 0)) false false 60 None
       None 72%N 7%N (Naive jan_1_2024) (Naive jan_1_2024)].

Lemma list_subtasks_sorted_witness :
  exists items : list SubTask,
    list_subtasks 7%N
      (mkWorld [(7%N, two_subtasks_task)] (fun n => Z.of_nat n))
    = (Ok items, mkWorld [(7%N, two_subtasks_task)] (fun n => Z.of_nat n)) /\
    map SubTask.id items = [72%N; 71%N].
Proof.
  destruct (list_subtasks_sorted
              (mkWorld [(7%N, two_subtasks_task)] (fun n => Z.of_nat n))
              7%N two_subtasks_task true false eq_refl)
    as (items & Hrun & _).
  - intros st [<-|[<-|[]]]; split; auto; intros d E; inversion E;
      reflexivity.
  - exists items. split; [exact Hrun|].
    vm_compute in Hrun. now inversion Hrun.
Defined.

End Py.

(** * The two embeddings of the listings agree

    The handlers take a due date or a bound to be aware and give it by its
    instant.  On such data, and where a listing converts a datetime to
    Asia/Colombo on data the conversion can hold, the listings of the
    handlers return what the listings on Python's datetimes return. *)

Section Agreement.

Variable str_lower : string -> string.
Variable colombo_utcoffset : datetime -> Z.
Variable local_utcoffset : Z -> Result Z.

(** The aware datetime of an instant, at offset zero. *)
Definition aware_at (instant : datetime) : Py.datetime := Py.Aware instant 0.

(** What [datetime.utcnow()] returns at an instant: a naive value. *)
Definition utcnow_at (instant : datetime) : Py.datetime := Py.Naive instant.

Definition py_calendar_event (e : CalendarEvent) : Py.CalendarEvent :=
  let b := CalendarEvent.base e in
  Py.CalendarEvent.mk
    (Py.CalendarEventBase.mk
       (CalendarEventBase.provider b) (CalendarEventBase.calendar_id b)
       (CalendarEventBase.summary b)
       (aware_at (CalendarEventBase.start_datetime b))
       (aware_at (CalendarEventBase.end_datetime b))
       (CalendarEventBase.description b) (CalendarEventBase.timezone b)
       (CalendarEventBase.reminder_minutes_before b))
    (CalendarEvent.event_id e).

Definition py_subtask (st : SubTask) : Py.SubTask :=
  Py.SubTask.mk
    (SubTask.title st) (option_map aware_at (SubTask.due_datetime st))
    (SubTask.completed st) (SubTask.add_to_calendar st)
    (SubTask.event_duration_minutes st) (SubTask.calendar_id st)
    (SubTask.calendar_event_id st) (SubTask.id st) (SubTask.task_id st)
    (utcnow_at (SubTask.created_at st)) (utcnow_at (SubTask.updated_at st)).

Definition py_task (t : Task) : Py.Task :=
  Py.Task.mk
    (Task.title t) (Task.note t) (option_map aware_at (Task.due_datetime t))
    (Task.completed t) (Task.id t)
    (option_map py_calendar_event (Task.calendar_event t))
    (map py_subtask (Task.subtasks t)).

Definition py_world (w : World) : Py.World :=
  Py.mkWorld (map (fun kv => (fst kv, py_task (snd kv))) (TASKS w)) (clock w).


(** A datetime can hold the instant and its time in Asia/Colombo. *)
Definition in_range (instant : datetime) : Prop :=
  Py.representable instant = true /\
  Py.representable (instant + colombo_utcoffset instant) = true.

Lemma py_world_tick w : py_world (tick w) = Py.tick (py_world w).
Proof. reflexivity. Qed.










Section SortMap.
Context {A B K : Type} (g : A -> B) (key : A -> K) (key' : B -> K)
        (lt : K -> K -> bool).
Hypothesis key_g : forall x, key' (g x) = key x.



End SortMap.





End Agreement.

